(** * Apps Script copier: the batch synchronisation engine

    A shallow embedding of the two programs of the repository:

    - [index.js], the command-line copier ([extractSpreadsheetId],
      [readSheetIds], [getScriptProjectId], [updateScriptContent], [main]);
    - the Express server ([extractSpreadsheetId], [readScriptIds],
      [copyFunction], [validateAndTestScriptAccess], [copyButtonsFromSheet],
      [getScriptIdForSpreadsheet] and the [app.post('/')] handler).

    JavaScript strings are modelled as [string], holding the UTF-8 bytes of
    the text.  Every string operation of the source used here ([===],
    [includes], [split(',')], [trim], the three regular expressions and
    [parseInt]) looks for ASCII characters or for whole white-space
    characters only, so on well-formed text it gives the same answer on the
    UTF-8 bytes as on the UTF-16 code units of the JavaScript engine.

    The remote services (Sheets, Drive, Apps Script) are opaque: they are a
    record of state-passing functions over an abstract world, and every
    request the program sends is appended to a trace.  A computation either
    answers or throws; [try]/[catch] is [try_catch].

    The handler of [app.post('/')] is in two parts: [validatePayload], from
    the JSON body to the variables the handler fills, and [post], from these
    variables (JSON values, as the validation leaves them) to the answer,
    once the client is authorised.

    Left out: the OAuth client ([authorize], [getNewToken]), the text of the
    generated Apps Script procedure, the static answer of [app.get('/')],
    and the console, except for the lines the manifest reader writes for
    each row. *)

From Stdlib Require Import Ascii String ZArith Lia SpecFloat.
From stdpp Require Import gmap strings list pretty.

(** ** JavaScript string primitives *)

Module JS.

Local Open Scope Z_scope.

(** Truthiness of a string: the empty string is falsy. *)
Definition truthy (s : string) : bool :=
  match s with EmptyString => false | String _ _ => true end.

(** Truthiness of a possibly [undefined]/[null] string. *)
Definition truthy_opt (o : option string) : bool :=
  match o with Some s => truthy s | None => false end.

Definition chars (s : string) : list ascii := list_ascii_of_string s.
Definition str (l : list ascii) : string := string_of_list_ascii l.

Definition ascii_eqb (a b : ascii) : bool := Ascii.eqb a b.

(** [strip_prefix p l] is [Some r] when [l = p ++ r]. *)
Fixpoint strip_prefix (p l : list ascii) : option (list ascii) :=
  match p, l with
  | [], _ => Some l
  | _ :: _, [] => None
  | a :: p', b :: l' => if ascii_eqb a b then strip_prefix p' l' else None
  end.

Definition starts_with (p l : list ascii) : bool :=
  match strip_prefix p l with Some _ => true | None => false end.

(** [String.prototype.includes] *)
Fixpoint includes_chars (l sub : list ascii) : bool :=
  if starts_with sub l then true
  else match l with
       | [] => false
       | _ :: l' => includes_chars l' sub
       end.

Definition includes (s sub : string) : bool :=
  includes_chars (chars s) (chars sub).

(** White space and line terminators of ECMAScript ([WhiteSpace] and
    [LineTerminator]), as UTF-8 byte sequences: TAB, LF, VT, FF, CR, SP,
    U+00A0, U+1680, U+2000..U+200A, U+2028, U+2029, U+202F, U+205F,
    U+3000, U+FEFF. *)
Definition bytes (l : list nat) : list ascii := map ascii_of_nat l.

Definition whiteSpace : list (list ascii) :=
  map bytes
    [ [9]; [10]; [11]; [12]; [13]; [32]; [194; 160]; [225; 154; 128];
      [226; 128; 128]; [226; 128; 129]; [226; 128; 130]; [226; 128; 131];
      [226; 128; 132]; [226; 128; 133]; [226; 128; 134]; [226; 128; 135];
      [226; 128; 136]; [226; 128; 137]; [226; 128; 138]; [226; 128; 168];
      [226; 128; 169]; [226; 128; 175]; [226; 129; 159]; [227; 128; 128];
      [239; 187; 191] ]%nat.

(** Length of the white-space character (one of [pats]) that starts [l],
    [0] when there is none. *)
Definition ws_len (pats : list (list ascii)) (l : list ascii) : nat :=
  match List.find (fun p => starts_with p l) pats with
  | Some p => length p
  | None => 0%nat
  end.

Fixpoint strip_ws (fuel : nat) (pats : list (list ascii)) (l : list ascii)
  : list ascii :=
  match fuel with
  | O => l
  | S fuel' =>
      match ws_len pats l with
      | O => l
      | n => strip_ws fuel' pats (skipn n l)
      end
  end.

Definition trimStart_chars (l : list ascii) : list ascii :=
  strip_ws (length l) whiteSpace l.

Definition trimEnd_chars (l : list ascii) : list ascii :=
  rev (strip_ws (length l) (map (@rev ascii) whiteSpace) (rev l)).

(** [String.prototype.trim] *)
Definition trim (s : string) : string :=
  str (trimEnd_chars (trimStart_chars (chars s))).

(** [String.prototype.split(',')]: the pieces between the commas; the empty
    string splits into one empty piece. *)
Fixpoint split_chars (sep : ascii) (l : list ascii) : list (list ascii) :=
  match l with
  | [] => [[]]
  | c :: l' =>
      if ascii_eqb c sep then [] :: split_chars sep l'
      else match split_chars sep l' with
           | [] => [[c]]
           | piece :: pieces => (c :: piece) :: pieces
           end
  end.

Definition split_comma (s : string) : list string :=
  map str (split_chars ","%char (chars s)).

(** Value of a digit in radix 10 or 16. *)
Definition digit_value (radix : Z) (c : ascii) : option Z :=
  let n := Z.of_nat (nat_of_ascii c) in
  if (48 <=? n) && (n <=? 57) then Some (n - 48)
  else if (radix =? 16) && (97 <=? n) && (n <=? 102) then Some (n - 87)
  else if (radix =? 16) && (65 <=? n) && (n <=? 70) then Some (n - 55)
  else None.

(** The longest prefix of radix-[radix] digits of [l], read as a number:
    [None] when [l] does not start with a digit. *)
Fixpoint digits_value (radix : Z) (acc : option Z) (l : list ascii)
  : option Z :=
  match l with
  | [] => acc
  | c :: l' =>
      match digit_value radix c with
      | Some d =>
          digits_value radix
            (Some (match acc with Some a => a * radix + d | None => d end)) l'
      | None => acc
      end
  end.

(** [parseInt(s)] with no radix argument.  [None] is [NaN].  The result is
    the mathematical integer the digits denote; the engine rounds it to the
    nearest double, which is the same number up to [2^53], and to an
    infinity beyond the range of the doubles. *)
Definition parseInt (s : string) : option Z :=
  let l := trimStart_chars (chars s) in
  let '(sign, l1) :=
    match l with
    | c :: r =>
        if ascii_eqb c "-"%char then (-1, r)
        else if ascii_eqb c "+"%char then (1, r)
        else (1, l)
    | [] => (1, l)
    end in
  let '(radix, l2) :=
    match l1 with
    | c0 :: x :: r =>
        if ascii_eqb c0 "0"%char
           && (ascii_eqb x "x"%char || ascii_eqb x "X"%char)
        then (16, r) else (10, l1)
    | _ => (10, l1)
    end in
  match digits_value radix None l2 with
  | Some v => Some (sign * v)
  | None => None
  end.

(** The character class [[a-zA-Z0-9-_]] of the three patterns. *)
Definition isIdChar (c : ascii) : bool :=
  let n := nat_of_ascii c in
  ((97 <=? n) && (n <=? 122) || (65 <=? n) && (n <=? 90)
   || (48 <=? n) && (n <=? 57) || (n =? 45) || (n =? 95))%nat.

Fixpoint take_while (p : ascii -> bool) (l : list ascii) : list ascii :=
  match l with
  | c :: l' => if p c then c :: take_while p l' else []
  | [] => []
  end.

(** [input.match(/LIT([a-zA-Z0-9-_]+)/)]: the leftmost position where the
    literal [lit] is followed by at least one identifier character; the
    capture group is the longest run of identifier characters there. *)
Fixpoint match_capture (lit l : list ascii) : option (list ascii) :=
  let here :=
    match strip_prefix lit l with
    | Some rest =>
        match take_while isIdChar rest with
        | [] => None
        | run => Some run
        end
    | None => None
    end in
  match here with
  | Some run => Some run
  | None =>
      match l with
      | [] => None
      | _ :: l' => match_capture lit l'
      end
  end.

(** [String.prototype.length]: the number of UTF-16 code units of the
    text.  A UTF-8 sequence of one to three bytes is one code unit, one of
    four bytes (lead byte [0xF0] and above) is a surrogate pair; the
    continuation bytes [0x80..0xBF] count for nothing. *)
Definition code_units (c : ascii) : nat :=
  let n := nat_of_ascii c in
  (if (128 <=? n) && (n <=? 191) then 0
   else if 240 <=? n then 2 else 1)%nat.

Definition length (s : string) : nat :=
  foldr (fun c n => (code_units c + n)%nat) 0%nat (chars s).

End JS.

(** ** Identifier Resolver: [extractSpreadsheetId] (index.js and the server
    hold the same function) *)

Definition patterns : list string :=
  [ "/spreadsheets/d/"; "spreadsheets/d/"; "/d/" ].

(** The [for (const pattern of patterns)] loop: the first pattern that
    matches gives the result. *)
Fixpoint first_match (pats : list string) (input : string) : option string :=
  match pats with
  | [] => None
  | p :: pats' =>
      match JS.match_capture (JS.chars p) (JS.chars input) with
      | Some run => Some (JS.str run)
      | None => first_match pats' input
      end
  end.

Definition extractSpreadsheetId (input : option string) : option string :=
  match input with
  | None => None
  | Some s =>
      if negb (JS.truthy s) then None
      else if negb (JS.includes s "/") && negb (JS.includes s "http")
      then Some (JS.trim s)
      else match first_match patterns s with
           | Some id => Some id
           | None => Some (JS.trim s)
           end
  end.

(** ** Data model *)

(** The file types of the Apps Script API. *)
Inductive FileType := SERVER_JS | JSON | HTML | ENUM_TYPE_UNSPECIFIED.

Global Instance FileType_eq_dec : EqDecision FileType.
Proof. solve_decision. Defined.

Record ScriptFile := mkFile {
  name : string;
  type : FileType;
  source : string
}.

Global Instance ScriptFile_eq_dec : EqDecision ScriptFile.
Proof. solve_decision. Defined.

(** The value stored in the [Map] of [readScriptIds]. *)
Record TargetData := mkTargetData {
  scriptId : string;
  buttonImageIds : list string;
  coordinates : list (Z * Z)
}.

(** An item of the array returned by [readSheetIds] (index.js). *)
Record SheetItem := mkSheetItem {
  item_spreadsheetId : option string;
  item_scriptId : option string
}.

(** A thrown value: [error.message] and, for the errors of the Google client
    library, [error.code]. *)
Record JsError := mkError {
  message : string;
  code : option Z
}.

(** [new Error(msg)] *)
Definition Error (msg : string) : JsError := mkError msg None.

(** One entry of the list returned by the generated remote procedure. *)
Record ButtonDetail := mkButtonDetail {
  position : string;
  imageId : string;
  button_error : option string
}.

(** [runResponse.data.response.result], every field possibly absent. *)
Record ExecResult := mkExecResult {
  exec_copiedCount : option Z;
  exec_buttons : option (list ButtonDetail);
  exec_message : option string
}.

(** [runResponse.data]: [error] (its message) and [response?.result]. *)
Record RunResponse := mkRunResponse {
  run_error : option string;
  run_result : option ExecResult
}.

(** What [copyButtonsFromSheet] returns. *)
Record ButtonsResult := mkButtonsResult {
  res_scriptId : string;
  res_functionName : string;
  res_copiedCount : Z;
  res_buttons : list ButtonDetail;
  res_message : string
}.

(** One placement of the JSON literal given to the generated procedure. *)
Record Placement := mkPlacement {
  pl_imageId : string;
  pl_col : Z;
  pl_row : Z
}.

(** What [validateAndTestScriptAccess] returns. *)
Record Validation := mkValidation {
  valid : bool;
  v_title : option string;
  v_error : option string;
  v_code : option Z
}.

(** An entry of [response.copyFunctions.details] or
    [response.copyButtons.details]. *)
Inductive Detail :=
| FunctionCopied (spreadsheetId : option string) (scriptId : string)
| ButtonsCopied (spreadsheetId : option string) (result : ButtonsResult)
| Failed (spreadsheetId : option string) (error : string)
| SetupFailed (error : string).

(** [status] of a per-target entry, ['success'] or ['failed']; the entry
    pushed when the manifest cannot be read has no status.  (The counter
    [failed] of a summary is [failed_count] below.) *)
Inductive Status := success | failed.

Definition detail_status (d : Detail) : option Status :=
  match d with
  | FunctionCopied _ _ | ButtonsCopied _ _ => Some success
  | Failed _ _ => Some failed
  | SetupFailed _ => None
  end.

(** [spreadsheetId] of an entry: [None] when the entry has no such field,
    [Some None] when the field is [null]. *)
Definition detail_spreadsheetId (d : Detail) : option (option string) :=
  match d with
  | FunctionCopied id _ | ButtonsCopied id _ | Failed id _ => Some id
  | SetupFailed _ => None
  end.

Record Summary := mkSummary {
  total : nat;
  successful : nat;
  failed_count : nat;
  details : list Detail;
  summary_message : option string
}.

Record Response := mkResponse {
  copyFunctions : Summary;
  copyButtons : Summary
}.

(** Configuration read from the environment when the program starts.  The
    sheet name, the column letters and the first row come with their
    defaults applied; [SOURCE_SPREADSHEET_ID] and [SOURCE_SCRIPT_ID] are the
    environment variables themselves, [None] when unset. *)
Record Config := mkConfig {
  SHEET_NAME : string;
  SHEET_ID_COLUMN : string;
  SCRIPT_ID_COLUMN : string;
  BUTTON_IMAGE_ID_COLUMN : string;
  BUTTON_COORDINATES_COLUMN : string;
  START_ROW : Z;
  SOURCE_SPREADSHEET_ID : option string;
  SOURCE_SCRIPT_ID : option string
}.

(** ** JSON values

    [req.body], as [express.json()] parses it: a JSON value.  Numbers are
    the doubles of the engine, in the form of the IEEE 754 specification:
    a signed zero, an infinity, NaN or a finite number. *)

#[warnings="-register-all"] Inductive JsValue :=
| JUndefined
| JNull
| JBool (b : bool)
| JNumber (x : spec_float)
| JString (s : string)
| JArray (items : list JsValue)
| JObject (fields : list (string * JsValue)).

(** Truthiness: [undefined], [null], [false], [0], [-0], [NaN] and the empty
    string are falsy. *)
Definition js_truthy (v : JsValue) : bool :=
  match v with
  | JUndefined | JNull => false
  | JBool b => b
  | JNumber (S754_zero _) | JNumber S754_nan => false
  | JNumber _ => true
  | JString s => JS.truthy s
  | JArray _ | JObject _ => true
  end.

(** The last binding of [key]: [JSON.parse] keeps the last of duplicate
    keys. *)
Fixpoint lookup_last (key : string) (fields : list (string * JsValue))
  : option JsValue :=
  match fields with
  | [] => None
  | (k, v) :: fields' =>
      match lookup_last key fields' with
      | Some v' => Some v'
      | None => if String.eqb k key then Some v else None
      end
  end.

(** [v.key] for a value [v] that is not [undefined] or [null] and a key that
    no prototype defines: the property of an object, [undefined] on anything
    else. *)
Definition get_prop (v : JsValue) (key : string) : JsValue :=
  match v with
  | JObject fields => default JUndefined (lookup_last key fields)
  | _ => JUndefined
  end.

(** [typeof v === 'string'], with the string *)
Definition as_string (v : JsValue) : option string :=
  match v with JString s => Some s | _ => None end.

(** [Array.isArray(v)], with the elements *)
Definition as_array (v : JsValue) : option (list JsValue) :=
  match v with JArray items => Some items | _ => None end.

(** [items.includes(s)] on an array, for a string [s]. *)
Definition array_includes (items : list JsValue) (s : string) : bool :=
  existsb (fun v => match v with
                    | JString t => String.eqb t s
                    | _ => false
                    end) items.

(** [extractSpreadsheetId] at any value of the payload.  A falsy value gives
    [null] and a string its id.  Any other value throws the [TypeError] of
    the first method it lacks: a number, a boolean or an object has no
    [includes]; an array has one, and then lacks [trim] or [match]. *)
Definition extractSpreadsheetId_value (input : JsValue)
  : JsError + option string :=
  if negb (js_truthy input) then inr None
  else
    match input with
    | JString s => inr (extractSpreadsheetId (Some s))
    | JArray items =>
        if negb (array_includes items "/")
           && negb (array_includes items "http")
        then inl (Error "input.trim is not a function")
        else inl (Error "input.match is not a function")
    | _ => inl (Error "input.includes is not a function")
    end.

(** ** The remote services and the program monad *)

(** A request sent to a Google service. *)
Inductive Call :=
| SpreadsheetsGet (spreadsheetId : option string)
| ValuesGet (spreadsheetId : option string) (range : string)
| DriveFilesList (q : string)
| ProjectsGet (scriptId : string)
| ProjectsGetContent (scriptId : string)
| ProjectsUpdateContent (scriptId : string) (files : list ScriptFile)
| ScriptsRun (scriptId : string) (function : string).

(** The services, over an abstract world.  Each call answers or throws and
    may change the world.  [values_get] answers [response.data.values],
    [projects_getContent] answers [response.data.files] and [drive_files_list]
    the ids of [response.data.files]; [None] is [undefined]. *)
Record Remote (World : Type) := mkRemote {
  spreadsheets_get : option string -> World -> (JsError + list string) * World;
  values_get : option string -> string -> World ->
               (JsError + option (list (list string))) * World;
  drive_files_list : string -> World ->
                     (JsError + option (list string)) * World;
  projects_get : string -> World -> (JsError + option string) * World;
  projects_getContent : string -> World ->
                        (JsError + option (list ScriptFile)) * World;
  projects_updateContent : string -> list ScriptFile -> World ->
                           (JsError + unit) * World;
  scripts_run : string -> string -> World -> (JsError + RunResponse) * World
}.

Arguments spreadsheets_get {World}.
Arguments values_get {World}.
Arguments drive_files_list {World}.
Arguments projects_get {World}.
Arguments projects_getContent {World}.
Arguments projects_updateContent {World}.
Arguments scripts_run {World}.

(** The lines the manifest reader writes to the console for the rows of the
    sheet, one for each row.  The other lines of the programs (such as the
    announcement at the start of [readScriptIds] and the progress lines of
    the transfers) are not part of the model. *)
Inductive LogLine :=
| RowRead (rowNumber : Z) (spreadsheetId scriptId : string)
          (buttons coordinates : nat)
| InvalidRow (rowNumber : Z) (spreadsheetId scriptId : string).

Record State (World : Type) := mkState {
  world : World;
  calls : list Call;
  console : list LogLine
}.

Arguments mkState {World}.
Arguments world {World}.
Arguments calls {World}.
Arguments console {World}.

(** A computation answers or throws, and threads the state. *)
Definition M (World A : Type) : Type :=
  State World -> (JsError + A) * State World.

Definition ret {World A} (a : A) : M World A := fun s => (inr a, s).

Definition throw {World A} (e : JsError) : M World A := fun s => (inl e, s).

Definition bind {World A B} (m : M World A) (k : A -> M World B) : M World B :=
  fun s =>
    match m s with
    | (inr a, s') => k a s'
    | (inl e, s') => (inl e, s')
    end.

(** [try { m } catch (e) { h e }] *)
Definition try_catch {World A} (m : M World A) (h : JsError -> M World A)
  : M World A :=
  fun s =>
    match m s with
    | (inr a, s') => (inr a, s')
    | (inl e, s') => h e s'
    end.

(** Sending request [c], answered by [f]. *)
Definition request {World A} (c : Call)
    (f : World -> (JsError + A) * World) : M World A :=
  fun s =>
    let '(r, w) := f (world s) in
    (r, mkState w (calls s ++ [c]) (console s)).

Definition log {World} (lines : list LogLine) : M World unit :=
  fun s => (inr tt, mkState (world s) (calls s) (console s ++ lines)).

(** A step without requests, which answers or throws. *)
Definition lift {World A} (r : JsError + A) : M World A :=
  match r with
  | inl e => throw e
  | inr a => ret a
  end.

Notation "x <- m ;; k" := (bind m (fun x => k))
  (at level 100, m at next level, right associativity).

(** The state a request starts from. *)
Definition start {World} (w : World) : State World := mkState w [] [].

(** ** Rendering values inside template strings *)

Definition dquote : string := String (ascii_of_nat 34) EmptyString.

(** [`${x}`] for a string that may be [null]. *)
Definition show_null (o : option string) : string := default "null" o.

(** [`${x}`] for a string that may be [undefined]. *)
Definition show_undefined (o : option string) : string :=
  default "undefined" o.

(** [x || d] for a string that may be absent. *)
Definition or_else (o : option string) (d : string) : string :=
  match o with
  | Some s => if JS.truthy s then s else d
  | None => d
  end.

(** [Array.prototype.join] *)
Fixpoint join (sep : string) (l : list string) : string :=
  match l with
  | [] => ""
  | [x] => x
  | x :: l' => x +:+ sep +:+ join sep l'
  end.

(** ** Manifest Reader: decoding one row (server, [readScriptIds]) *)

(** [cell ? cell.split(',').map(x => x.trim()).filter(x => x) : []] *)
Definition cell_list (cell : option string) : list string :=
  match cell with
  | Some c =>
      if JS.truthy c
      then List.filter JS.truthy (map JS.trim (JS.split_comma c))
      else []
  | None => []
  end.

(** [cell ? cell.trim() : null] *)
Definition cell_trim (cell : option string) : option string :=
  match cell with
  | Some c => if JS.truthy c then Some (JS.trim c) else None
  | None => None
  end.

(** The loop [for (let i = 0; i < coordinates.length; i += 2)]: the tokens
    are taken two by two; a pair is pushed when both parse, a last token
    alone is skipped. *)
Fixpoint coordinatePairs (coordinates : list string) : list (Z * Z) :=
  match coordinates with
  | c0 :: c1 :: rest =>
      match JS.parseInt c0, JS.parseInt c1 with
      | Some col, Some rowNum => (col, rowNum) :: coordinatePairs rest
      | _, _ => coordinatePairs rest
      end
  | _ => []
  end.

Record DecodedRow := mkDecodedRow {
  row_spreadsheetId : option string;
  row_scriptId : option string;
  row_buttonImageIds : list string;
  row_coordinatePairs : list (Z * Z)
}.

Definition decodeRow (row : list string) : DecodedRow :=
  mkDecodedRow
    (extractSpreadsheetId (row !! 0))
    (cell_trim (row !! 1))
    (cell_list (row !! 2))
    (coordinatePairs (cell_list (row !! 3))).

(** The test [spreadsheetId && scriptId] that guards [scriptIdMap.set]. *)
Definition accepted (d : DecodedRow) : bool :=
  JS.truthy_opt (row_spreadsheetId d) && JS.truthy_opt (row_scriptId d).

Definition row_data (d : DecodedRow) : TargetData :=
  mkTargetData (default "" (row_scriptId d))
    (row_buttonImageIds d) (row_coordinatePairs d).

(** The body of [rows.forEach((row, index) => ...)]: the map after the row
    and the line written for it. *)
Definition forEachBody (startRow : Z) (scriptIdMap : gmap string TargetData)
    (index : nat) (row : list string) : gmap string TargetData * LogLine :=
  let d := decodeRow row in
  let rowNumber := (Z.of_nat index + startRow)%Z in
  if accepted d
  then (<[default "" (row_spreadsheetId d) := row_data d]> scriptIdMap,
        RowRead rowNumber (default "" (row_spreadsheetId d))
          (default "" (row_scriptId d))
          (length (row_buttonImageIds d)) (length (row_coordinatePairs d)))
  else (scriptIdMap,
        InvalidRow rowNumber (or_else (row_spreadsheetId d) "missing")
          (or_else (row_scriptId d) "missing")).

Fixpoint forEachRow (startRow : Z) (rows : list (list string)) (index : nat)
    (scriptIdMap : gmap string TargetData)
  : gmap string TargetData * list LogLine :=
  match rows with
  | [] => (scriptIdMap, [])
  | row :: rows' =>
      let '(m, line) := forEachBody startRow scriptIdMap index row in
      let '(m', lines) := forEachRow startRow rows' (S index) m in
      (m', line :: lines)
  end.

(** The manifest built from the fetched rows. *)
Definition decodeRows (startRow : Z) (rows : list (list string))
  : gmap string TargetData :=
  fst (forEachRow startRow rows 0 ∅).

(** [scriptIdMap.get(id)] for an id that may be [null]. *)
Definition map_get (scriptIdMap : gmap string TargetData)
    (id : option string) : option TargetData :=
  match id with
  | Some k => scriptIdMap !! k
  | None => None
  end.

(** ** Content Transfer Engine: the replacement file lists *)

(** Server, [copyFunction]: the source file looked for. *)
Definition isSourceFunctionFile (f : ScriptFile) : bool :=
  String.eqb (name f) "Code" && bool_decide (type f = SERVER_JS).

(** Server, [copyFunction]: the list pushed to the target. *)
Definition copyFunction_files (sourceFunctionFile : ScriptFile)
    (targetFiles : list ScriptFile) : list ScriptFile :=
  List.filter (fun f => negb (String.eqb (name f) "Code")) targetFiles
  ++ [mkFile "Code" SERVER_JS (source sourceFunctionFile)].

(** index.js, [updateScriptContent]: the source file looked for. *)
Definition isSourceCodeFile (f : ScriptFile) : bool :=
  String.eqb (name f) "Code" || String.eqb (name f) "Código"
  || JS.includes (name f) "Code".

(** index.js, [updateScriptContent]: the files whose content is replaced. *)
Definition isReplaced (f : ScriptFile) : bool :=
  String.eqb (name f) "Code" || String.eqb (name f) "Código"
  || bool_decide (type f = SERVER_JS).

(** index.js, [updateScriptContent]: the list pushed to the target. *)
Definition updatedFiles (sourceCodeFile : ScriptFile)
    (existing : list ScriptFile) : list ScriptFile :=
  map (fun file =>
         if isReplaced file
         then mkFile (name file) (type file) (source sourceCodeFile)
         else file)
      existing.

(** ** The server *)

Section Server.

Context {World : Type}.
Variable api : Remote World.
Variable cfg : Config.

(** The text of the generated procedure [copyButtonsWithFunctions], a
    template over the target spreadsheet, the target tab, the placements
    (as a JSON literal) and the optional handler name.  No property below
    depends on the text. *)
Variable tempScriptContent :
  option string -> JsValue -> list Placement -> JsValue -> string.

(** [process.env.SOURCE_SCRIPT_ID || 'your_source_script_id'] *)
Definition serverSourceScriptId : string :=
  or_else (SOURCE_SCRIPT_ID cfg) "your_source_script_id".

(** *** [readScriptIds] *)
Definition readScriptIds (sourceSpreadsheetId : option string)
  : M World (gmap string TargetData) :=
  try_catch
    (sheetNames <- request (SpreadsheetsGet sourceSpreadsheetId)
                     (spreadsheets_get api sourceSpreadsheetId) ;;
     if negb (existsb (String.eqb (SHEET_NAME cfg)) sheetNames)
     then throw (Error ("Sheet " +:+ dquote +:+ SHEET_NAME cfg +:+ dquote
                        +:+ " not found. Available: "
                        +:+ join ", " sheetNames))
     else
       let range := SHEET_NAME cfg +:+ "!" +:+ SHEET_ID_COLUMN cfg
                    +:+ pretty (START_ROW cfg) +:+ ":"
                    +:+ BUTTON_COORDINATES_COLUMN cfg in
       values <- request (ValuesGet sourceSpreadsheetId range)
                   (values_get api sourceSpreadsheetId range) ;;
       let rows := default [] values in
       let '(scriptIdMap, lines) := forEachRow (START_ROW cfg) rows 0 ∅ in
       _ <- log lines ;;
       ret scriptIdMap)
    (fun error =>
       throw (Error ("Error reading source spreadsheet: "
                     +:+ message error))).

(** *** [copyFunction] *)
Definition copyFunction (sourceScriptId targetScriptId : string)
  : M World string :=
  try_catch
    (sourceContent <- request (ProjectsGetContent sourceScriptId)
                        (projects_getContent api sourceScriptId) ;;
     let sourceFiles := default [] sourceContent in
     match List.find isSourceFunctionFile sourceFiles with
     | None => throw (Error "No Code.gs file found in source script project")
     | Some sourceFunctionFile =>
         targetContent <-
           try_catch
             (request (ProjectsGetContent targetScriptId)
                (projects_getContent api targetScriptId))
             (fun _ => ret (Some [])) ;;
         let targetFiles :=
           copyFunction_files sourceFunctionFile (default [] targetContent) in
         _ <- request (ProjectsUpdateContent targetScriptId targetFiles)
                (projects_updateContent api targetScriptId targetFiles) ;;
         ret targetScriptId
     end)
    (fun error =>
       throw (Error ("Error copying function to " +:+ targetScriptId
                     +:+ ": " +:+ message error))).

(** *** [validateAndTestScriptAccess] *)

(** [/^[A-Za-z0-9_-]+$/.test(scriptId)] *)
Definition validPattern (scriptId : string) : bool :=
  JS.truthy scriptId && forallb JS.isIdChar (JS.chars scriptId).

Definition validateAndTestScriptAccess (scriptId : string)
  : M World Validation :=
  if negb (JS.truthy scriptId) || (JS.length scriptId <? 20)
  then ret (mkValidation false None (Some "Script ID too short") None)
  else if negb (validPattern scriptId)
  then ret (mkValidation false None
              (Some "Script ID contains invalid characters") None)
  else
    try_catch
      (title <- request (ProjectsGet scriptId) (projects_get api scriptId) ;;
       ret (mkValidation true title None None))
      (fun error =>
         ret (mkValidation false None (Some (message error)) (code error))).

(** *** [copyButtonsFromSheet] *)

(** The placements serialised into the generated procedure:
    [buttonImageIds.map((id, i) => ({imageId: id, col: coordinates[i][0],
    row: coordinates[i][1]}))], taken where both lists have equal length. *)
Definition buttonData (ids : list string) (coords : list (Z * Z))
  : list Placement :=
  zip_with (fun id c => mkPlacement id (fst c) (snd c)) ids coords.

Definition defaultExecResult : ExecResult := mkExecResult None None None.

Definition copyButtonsFromSheet
    (masterSpreadsheetId sourceSpreadsheetId sourceSheetTab
       targetSpreadsheetId : option string)
    (targetSheetTab buttonScript : JsValue)
  : M World ButtonsResult :=
  try_catch
    (scriptIdMap <- readScriptIds masterSpreadsheetId ;;
     match map_get scriptIdMap targetSpreadsheetId with
     | None =>
         throw (Error ("No script ID found for target spreadsheet "
                       +:+ show_null targetSpreadsheetId))
     | Some targetData =>
         if negb (JS.truthy (scriptId targetData))
         then throw (Error ("No script ID found for target spreadsheet "
                            +:+ show_null targetSpreadsheetId))
         else
           let targetScriptId := scriptId targetData in
           validation <- validateAndTestScriptAccess targetScriptId ;;
           if negb (valid validation)
           then throw (Error ("Cannot access script " +:+ targetScriptId
                              +:+ ": " +:+ show_undefined (v_error validation)))
           else if (length (buttonImageIds targetData) =? 0)%nat
           then throw (Error ("No button image IDs found for "
                              +:+ show_null targetSpreadsheetId))
           else if (length (coordinates targetData) =? 0)%nat
           then throw (Error ("No coordinates found for "
                              +:+ show_null targetSpreadsheetId))
           else if negb (length (buttonImageIds targetData)
                         =? length (coordinates targetData))%nat
           then throw (Error ("Mismatch: "
                              +:+ pretty (length (buttonImageIds targetData))
                              +:+ " button IDs but "
                              +:+ pretty (length (coordinates targetData))
                              +:+ " coordinate pairs"))
           else
             let script :=
               tempScriptContent targetSpreadsheetId targetSheetTab
                 (buttonData (buttonImageIds targetData)
                    (coordinates targetData))
                 buttonScript in
             existingContent <-
               try_catch
                 (request (ProjectsGetContent targetScriptId)
                    (projects_getContent api targetScriptId))
                 (fun _ => ret (Some [])) ;;
             let updatedFiles :=
               List.filter
                 (fun f => negb (String.eqb (name f) "tempCopyButtons"))
                 (default [] existingContent)
               ++ [mkFile "tempCopyButtons" SERVER_JS script] in
             _ <- request (ProjectsUpdateContent targetScriptId updatedFiles)
                    (projects_updateContent api targetScriptId updatedFiles) ;;
             executionResult <-
               try_catch
                 (runResponse <-
                    request (ScriptsRun targetScriptId "copyButtonsWithFunctions")
                      (scripts_run api targetScriptId
                         "copyButtonsWithFunctions") ;;
                  match run_error runResponse with
                  | Some msg => throw (Error ("Execution failed: " +:+ msg))
                  | None =>
                      ret (default defaultExecResult (run_result runResponse))
                  end)
                 (fun execError => throw execError) ;;
             ret (mkButtonsResult targetScriptId "copyButtonsWithFunctions"
                    (match exec_copiedCount executionResult with
                     | Some n => n
                     | None => 0%Z
                     end)
                    (default [] (exec_buttons executionResult))
                    (or_else (exec_message executionResult)
                       "Buttons copied successfully"))
     end)
    (fun error =>
       throw (Error ("Error copying buttons to "
                     +:+ show_null targetSpreadsheetId +:+ ": "
                     +:+ message error))).

(** *** The [app.post('/')] handler, once the payload is validated and the
    client authorised *)

(** The variables the handler fills from the payload.  The validation asks
    [enable] to be a string and the [targetSheets] to be arrays; the source
    sheets, the elements of the arrays, the tab and the handler name are
    whatever JSON values the payload holds. *)
Record Fields := mkFields {
  f_functionsEnable : string;
  f_functionsSourceSheet : JsValue;
  f_functionsTargetSheets : list JsValue;
  f_buttonsEnable : string;
  f_buttonsSourceSheet : JsValue;
  f_buttonsTargetSheets : list JsValue;
  f_targetSheetTab : JsValue;
  f_buttonScript : JsValue
}.

Definition emptySummary : Summary := mkSummary 0 0 0 [] None.

Definition succeed (s : Summary) (d : Detail) : Summary :=
  mkSummary (total s) (S (successful s)) (failed_count s)
    (details s ++ [d]) (summary_message s).

Definition fail (s : Summary) (d : Detail) : Summary :=
  mkSummary (total s) (successful s) (S (failed_count s))
    (details s ++ [d]) (summary_message s).

(** The [try] block of the loop over [functionsTargetSheets], up to the
    call of [copyFunction]. *)
Definition copyFunctionsTry (scriptIdMap : gmap string TargetData)
    (targetSpreadsheetId : option string) : M World string :=
  targetData <-
    match map_get scriptIdMap targetSpreadsheetId with
    | Some targetData =>
        if JS.truthy (scriptId targetData) then ret targetData
        else throw (Error ("No script ID found for "
                           +:+ show_null targetSpreadsheetId))
    | None => throw (Error ("No script ID found for "
                            +:+ show_null targetSpreadsheetId))
    end ;;
  copyFunction serverSourceScriptId (scriptId targetData).

(** The body of the loop over [functionsTargetSheets].  The id of the
    target is resolved before the [try]: a throw of [extractSpreadsheetId]
    is not caught. *)
Definition copyFunctionsBody (scriptIdMap : gmap string TargetData)
    (summary : Summary) (target : JsValue) : M World Summary :=
  targetSpreadsheetId <- lift (extractSpreadsheetId_value target) ;;
  try_catch
    (result <- copyFunctionsTry scriptIdMap targetSpreadsheetId ;;
     ret (succeed summary (FunctionCopied targetSpreadsheetId result)))
    (fun error =>
       ret (fail summary (Failed targetSpreadsheetId (message error)))).

(** The [try] block of the loop over [buttonsTargetSheets], up to the call
    of [copyButtonsFromSheet]. *)
Definition copyButtonsTry (masterSpreadsheetId : option string)
    (f : Fields) (targetSpreadsheetId : option string)
  : M World ButtonsResult :=
  copyButtonsFromSheet masterSpreadsheetId None None
    targetSpreadsheetId (f_targetSheetTab f) (f_buttonScript f).

(** The body of the loop over [buttonsTargetSheets]; the id is resolved
    before the [try] here too. *)
Definition copyButtonsBody (masterSpreadsheetId : option string)
    (f : Fields) (summary : Summary) (target : JsValue)
  : M World Summary :=
  targetSpreadsheetId <- lift (extractSpreadsheetId_value target) ;;
  try_catch
    (result <- copyButtonsTry masterSpreadsheetId f targetSpreadsheetId ;;
     ret (succeed summary (ButtonsCopied targetSpreadsheetId result)))
    (fun error =>
       ret (fail summary (Failed targetSpreadsheetId (message error)))).

(** [for (let i = 0; i < targets.length; i++) body], threading the
    summary. *)
Fixpoint forTargets (body : Summary -> JsValue -> M World Summary)
    (targets : list JsValue) (summary : Summary) : M World Summary :=
  match targets with
  | [] => ret summary
  | target :: targets' =>
      summary' <- body summary target ;;
      forTargets body targets' summary'
  end.

Definition withTotal (n : nat) : Summary := mkSummary n 0 0 [] None.

Definition disabled (msg : string) : Summary := mkSummary 0 0 0 [] (Some msg).

(** The copyFunctions part: [inl] is the early [500] answer.  The id of the
    source sheet is resolved outside any [try]. *)
Definition processCopyFunctions (f : Fields)
  : M World (Summary + Summary) :=
  if String.eqb (f_functionsEnable f) "true"
  then
    sourceSpreadsheetId <-
      lift (extractSpreadsheetId_value (f_functionsSourceSheet f)) ;;
    let targets := f_functionsTargetSheets f in
    read <- try_catch
              (scriptIdMap <- readScriptIds sourceSpreadsheetId ;;
               ret (inr scriptIdMap))
              (fun error => ret (inl error)) ;;
    match read with
    | inl error =>
        ret (inl (mkSummary (length targets) 0 (length targets)
                    [SetupFailed ("Failed to read script IDs: "
                                  +:+ message error)] None))
    | inr scriptIdMap =>
        summary <- forTargets (copyFunctionsBody scriptIdMap) targets
                     (withTotal (length targets)) ;;
        ret (inr summary)
    end
  else ret (inr (disabled "Copy functions disabled.")).

Definition processCopyButtons (f : Fields) : M World Summary :=
  if String.eqb (f_buttonsEnable f) "true"
  then
    masterSpreadsheetId <-
      lift (extractSpreadsheetId_value (f_buttonsSourceSheet f)) ;;
    let targets := f_buttonsTargetSheets f in
    forTargets (copyButtonsBody masterSpreadsheetId f) targets
      (withTotal (length targets))
  else ret (disabled "Copy buttons disabled.").

(** The status code and the JSON body of the answer.  A throw of [post] is
    a rejection of the handler: no answer is sent. *)
Definition post (f : Fields) : M World (Z * Response) :=
  functions <- processCopyFunctions f ;;
  match functions with
  | inl summary => ret (500%Z, mkResponse summary emptySummary)
  | inr summary =>
      buttons <- processCopyButtons f ;;
      ret (200%Z, mkResponse summary buttons)
  end.

End Server.

(** ** The command-line copier (index.js) *)

Section Cli.

Context {World : Type}.
Variable api : Remote World.
Variable cfg : Config.

(** *** [readSheetIds] *)

(** [rows.map(...).filter(item => item.spreadsheetId &&
    item.spreadsheetId.length > 0)] *)
Definition sheetItems (rows : list (list string)) : list SheetItem :=
  List.filter (fun item => JS.truthy_opt (item_spreadsheetId item))
    (map (fun row =>
            mkSheetItem (extractSpreadsheetId (row !! 0))
              (cell_trim (row !! 1)))
         rows).

Definition readSheetIds : M World (list SheetItem) :=
  let range := SHEET_NAME cfg +:+ "!" +:+ SHEET_ID_COLUMN cfg
               +:+ pretty (START_ROW cfg) +:+ ":" +:+ SCRIPT_ID_COLUMN cfg in
  values <- request (ValuesGet (SOURCE_SPREADSHEET_ID cfg) range)
              (values_get api (SOURCE_SPREADSHEET_ID cfg) range) ;;
  ret (sheetItems (default [] values)).

(** *** [getScriptProjectId]: never throws, [None] is [null] *)
Definition getScriptProjectId (spreadsheetId : option string)
  : M World (option string) :=
  try_catch
    (_ <- request (SpreadsheetsGet spreadsheetId)
            (spreadsheets_get api spreadsheetId) ;;
     let q := "'" +:+ show_undefined spreadsheetId
              +:+ "' in parents and mimeType='application/vnd.google-apps.script'" in
     files <- request (DriveFilesList q) (drive_files_list api q) ;;
     match files with
     | Some (id :: _) => ret (Some id)
     | _ => ret None
     end)
    (fun _ => ret None).

(** *** [getScriptContent] *)
Definition getScriptContent (scriptProjectId : string)
  : M World (option (list ScriptFile)) :=
  try_catch
    (request (ProjectsGetContent scriptProjectId)
       (projects_getContent api scriptProjectId))
    (fun error => throw error).

(** *** [updateScriptContent]; [sourceFiles] is [sourceContent.files] *)
Definition updateScriptContent (scriptProjectId : string)
    (sourceFiles : list ScriptFile) : M World unit :=
  try_catch
    (existingContent <- request (ProjectsGetContent scriptProjectId)
                          (projects_getContent api scriptProjectId) ;;
     match List.find isSourceCodeFile sourceFiles with
     | None => throw (Error "No Code.gs file found in source project")
     | Some sourceCodeFile =>
         match existingContent with
         | None =>
             throw (Error "Cannot read properties of undefined (reading 'map')")
         | Some existing =>
             let files := updatedFiles sourceCodeFile existing in
             request (ProjectsUpdateContent scriptProjectId files)
               (projects_updateContent api scriptProjectId files)
         end
     end)
    (fun error => throw error).

(** *** [main], once the client is authorised *)

(** The [try] block of the loop over [targetSpreadsheets]: [true] when
    the script was copied, [false] when no script project was found (the
    [continue]). *)
Definition mainTry (sourceFiles : list ScriptFile) (target : SheetItem)
  : M World bool :=
  targetScriptProjectId <-
    (if JS.truthy_opt (item_scriptId target)
     then ret (item_scriptId target)
     else getScriptProjectId (item_spreadsheetId target)) ;;
  match targetScriptProjectId with
  | Some id =>
      if JS.truthy id
      then
        _ <- updateScriptContent id sourceFiles ;;
        ret true
      else ret false
  | None => ret false
  end.

(** The body of the loop over [targetSpreadsheets], on the pair
    [(successCount, failCount)]. *)
Definition mainBody (sourceFiles : list ScriptFile) (counts : nat * nat)
    (target : SheetItem) : M World (nat * nat) :=
  let '(successCount, failCount) := counts in
  try_catch
    (copied <- mainTry sourceFiles target ;;
     if copied then ret (S successCount, failCount)
     else ret (successCount, S failCount))
    (fun _ => ret (successCount, S failCount)).

Fixpoint mainLoop (sourceFiles : list ScriptFile)
    (targets : list SheetItem) (counts : nat * nat) : M World (nat * nat) :=
  match targets with
  | [] => ret counts
  | target :: targets' =>
      counts' <- mainBody sourceFiles counts target ;;
      mainLoop sourceFiles targets' counts'
  end.

(** The script project [mainTry] goes on with: the id the sheet gives for
    the target or, without one, the id discovered. *)
Definition targetScriptProjectId (target : SheetItem)
  : M World (option string) :=
  if JS.truthy_opt (item_scriptId target)
  then ret (item_scriptId target)
  else getScriptProjectId (item_spreadsheetId target).

(** How [main] ends: [process.exit(1)], the early return when the sheet
    lists no spreadsheet, or the printed summary. *)
Inductive MainOutcome :=
| Exit1
| NoSpreadsheets
| Printed (totalSpreadsheets successCount failCount : nat).

Definition main : M World MainOutcome :=
  try_catch
    (if negb (JS.truthy_opt (SOURCE_SPREADSHEET_ID cfg)) then ret Exit1
     else
       targetSpreadsheets <- readSheetIds ;;
       if (length targetSpreadsheets =? 0)%nat then ret NoSpreadsheets
       else
         sourceScriptProjectId <-
           (if JS.truthy_opt (SOURCE_SCRIPT_ID cfg)
            then ret (SOURCE_SCRIPT_ID cfg)
            else getScriptProjectId (SOURCE_SPREADSHEET_ID cfg)) ;;
         if negb (JS.truthy_opt sourceScriptProjectId) then ret Exit1
         else
           sourceContent <-
             getScriptContent (default "" sourceScriptProjectId) ;;
           match sourceContent with
           | None =>
               throw (Error "Cannot read properties of undefined (reading 'length')")
           | Some sourceFiles =>
               counts <- mainLoop sourceFiles targetSpreadsheets (0, 0) ;;
               ret (Printed (length targetSpreadsheets)
                      (fst counts) (snd counts))
           end)
    (fun _ => ret Exit1).

End Cli.

(** ** Further functions of the server *)

Section ServerHelpers.

Context {World : Type}.
Variable api : Remote World.
Variable cfg : Config.

(** *** [getScriptIdForSpreadsheet]: the script id the master sheet gives
    for a target, [None] ([null]) when there is none or the sheet cannot be
    read *)
Definition getScriptIdForSpreadsheet
    (masterSpreadsheetId targetSpreadsheetId : option string)
  : M World (option string) :=
  try_catch
    (scriptIdMap <- readScriptIds api cfg masterSpreadsheetId ;;
     match map_get scriptIdMap targetSpreadsheetId with
     | Some targetData => ret (Some (scriptId targetData))
     | None => ret None
     end)
    (fun _ => ret None).

End ServerHelpers.

(** ** The payload of [app.post('/')] *)

Definition invalidPayload : string :=
  "Invalid payload. Expected at least one of: copyFunctions, copyButtons".

Definition invalidCopyFunctions : string :=
  "Invalid copyFunctions payload. Expected: { enable: " +:+ dquote
  +:+ "true/false" +:+ dquote
  +:+ ", sourceSheet: string, targetSheets: string[] }".

Definition copyFunctionsRequired : string :=
  "sourceSheet and targetSheets (non-empty) required for copyFunctions".

Definition invalidCopyButtons : string :=
  "Invalid copyButtons payload. Expected: { enable: " +:+ dquote
  +:+ "true/false" +:+ dquote
  +:+ ", sourceSheet: string, targetSheets: string[], targetSheetTab: string }".

Definition copyButtonsRequired : string :=
  "All fields required for copyButtons when enabled".

(** The [copyFunctions] part of the validation: [inl] is the error of the
    400 answer, [inr] the three variables. *)
Definition validateCopyFunctions (payload : JsValue)
  : string + (string * JsValue * list JsValue) :=
  let section := get_prop payload "copyFunctions" in
  if js_truthy section
  then
    match as_string (get_prop section "enable"),
          as_array (get_prop section "targetSheets") with
    | Some enable, Some targetSheets =>
        let sourceSheet := get_prop section "sourceSheet" in
        if negb (js_truthy sourceSheet) then inl invalidCopyFunctions
        else if String.eqb enable "true"
                && (negb (js_truthy sourceSheet)
                    || (length targetSheets =? 0)%nat)
        then inl copyFunctionsRequired
        else inr (enable, sourceSheet, targetSheets)
    | _, _ => inl invalidCopyFunctions
    end
  else inr ("false", JNull, []).

(** The [copyButtons] part of the validation. *)
Definition validateCopyButtons (payload : JsValue)
  : string + (string * JsValue * list JsValue * JsValue * JsValue) :=
  let section := get_prop payload "copyButtons" in
  if js_truthy section
  then
    match as_string (get_prop section "enable"),
          as_array (get_prop section "targetSheets") with
    | Some enable, Some targetSheets =>
        let sourceSheet := get_prop section "sourceSheet" in
        let targetSheetTab := get_prop section "targetSheetTab" in
        let buttonScript :=
          if js_truthy (get_prop section "buttonScript")
          then get_prop section "buttonScript" else JNull in
        if negb (js_truthy sourceSheet) || negb (js_truthy targetSheetTab)
        then inl invalidCopyButtons
        else if String.eqb enable "true"
                && (negb (js_truthy sourceSheet)
                    || (length targetSheets =? 0)%nat
                    || negb (js_truthy targetSheetTab))
        then inl copyButtonsRequired
        else inr (enable, sourceSheet, targetSheets, targetSheetTab,
                  buttonScript)
    | _, _ => inl invalidCopyButtons
    end
  else inr ("false", JNull, [], JNull, JNull).

(** The validation of the payload, from the first line of the handler to the
    call of [authorize]: [inl] is the error of the 400 answer. *)
Definition validatePayload (payload : JsValue) : string + Fields :=
  if negb (js_truthy (get_prop payload "copyFunctions"))
     && negb (js_truthy (get_prop payload "copyButtons"))
  then inl invalidPayload
  else
    match validateCopyFunctions payload with
    | inl e => inl e
    | inr (functionsEnable, functionsSourceSheet, functionsTargetSheets) =>
        match validateCopyButtons payload with
        | inl e => inl e
        | inr (buttonsEnable, buttonsSourceSheet, buttonsTargetSheets,
               targetSheetTab, buttonScript) =>
            inr (mkFields functionsEnable functionsSourceSheet
                   functionsTargetSheets buttonsEnable buttonsSourceSheet
                   buttonsTargetSheets targetSheetTab buttonScript)
        end
    end.

(** A request of the shape the handler documents: strings where its usage
    text names strings, [None] for [null]. *)
Record Request := mkRequest {
  functionsEnable : string;
  functionsSourceSheet : option string;
  functionsTargetSheets : list string;
  buttonsEnable : string;
  buttonsSourceSheet : option string;
  buttonsTargetSheets : list string;
  targetSheetTab : option string;
  buttonScript : option string
}.

(** A string, or [null]. *)
Definition string_or_null (v : JsValue) : option (option string) :=
  match v with
  | JString s => Some (Some s)
  | JNull => Some None
  | _ => None
  end.

(** All the elements, when they all are strings. *)
Fixpoint all_strings (items : list JsValue) : option (list string) :=
  match items with
  | [] => Some []
  | JString s :: items' =>
      match all_strings items' with
      | Some l => Some (s :: l)
      | None => None
      end
  | _ :: _ => None
  end.

(** The request the handler goes on with, when the validated fields hold
    strings where the handler documents strings. *)
Definition request_of_fields (f : Fields) : option Request :=
  match string_or_null (f_functionsSourceSheet f),
        all_strings (f_functionsTargetSheets f),
        string_or_null (f_buttonsSourceSheet f),
        all_strings (f_buttonsTargetSheets f),
        string_or_null (f_targetSheetTab f),
        string_or_null (f_buttonScript f) with
  | Some fs, Some ft, Some bs, Some bt, Some tab, Some script =>
      Some (mkRequest (f_functionsEnable f) fs ft (f_buttonsEnable f) bs bt
              tab script)
  | _, _, _, _, _, _ => None
  end.

(** The payload of the shape the GET endpoint documents, for a request. *)
Definition json_string_or_null (o : option string) : JsValue :=
  match o with Some s => JString s | None => JNull end.

(** The variables the handler holds after the validation of such a
    payload. *)
Definition fields_of_request (req : Request) : Fields :=
  mkFields (functionsEnable req)
    (json_string_or_null (functionsSourceSheet req))
    (map JString (functionsTargetSheets req))
    (buttonsEnable req)
    (json_string_or_null (buttonsSourceSheet req))
    (map JString (buttonsTargetSheets req))
    (json_string_or_null (targetSheetTab req))
    (json_string_or_null (buttonScript req)).

Definition payload_of_request (req : Request) : JsValue :=
  JObject
    [ ("copyFunctions",
       JObject [ ("enable", JString (functionsEnable req));
                 ("sourceSheet", json_string_or_null (functionsSourceSheet req));
                 ("targetSheets",
                  JArray (map JString (functionsTargetSheets req))) ]);
      ("copyButtons",
       JObject [ ("enable", JString (buttonsEnable req));
                 ("sourceSheet", json_string_or_null (buttonsSourceSheet req));
                 ("targetSheets",
                  JArray (map JString (buttonsTargetSheets req)));
                 ("targetSheetTab", json_string_or_null (targetSheetTab req));
                 ("buttonScript", json_string_or_null (buttonScript req)) ]) ].

(** ** An in-memory stand-in for the Google services

    Spreadsheets are a table of sheet titles and a table of the rows each
    range request answers; script projects are a table from script id to
    file list, read by [getContent] and replaced as a whole by
    [updateContent]; execution answers from a table.  A request for a
    spreadsheet or project that does not exist throws a 404. *)

Record Cloud := mkCloud {
  sheetTitles : gmap string (list string);
  ranges : gmap (string * string) (list (list string));
  scriptsOf : gmap string (list string);
  projects : gmap string (list ScriptFile);
  runs : gmap string RunResponse
}.

Definition notFound : JsError :=
  mkError "Requested entity was not found." (Some 404%Z).

Definition cloud_spreadsheets_get (id : option string) (w : Cloud)
  : (JsError + list string) * Cloud :=
  match id with
  | Some k =>
      match sheetTitles w !! k with
      | Some titles => (inr titles, w)
      | None => (inl notFound, w)
      end
  | None => (inl notFound, w)
  end.

Definition cloud_values_get (id : option string) (range : string) (w : Cloud)
  : (JsError + option (list (list string))) * Cloud :=
  match id with
  | Some k =>
      match sheetTitles w !! k with
      | Some _ => (inr (ranges w !! (k, range)), w)
      | None => (inl notFound, w)
      end
  | None => (inl notFound, w)
  end.

Definition cloud_drive_files_list (q : string) (w : Cloud)
  : (JsError + option (list string)) * Cloud :=
  (inr (scriptsOf w !! q), w).

Definition cloud_projects_get (scriptId : string) (w : Cloud)
  : (JsError + option string) * Cloud :=
  match projects w !! scriptId with
  | Some _ => (inr None, w)
  | None => (inl notFound, w)
  end.

Definition cloud_projects_getContent (scriptId : string) (w : Cloud)
  : (JsError + option (list ScriptFile)) * Cloud :=
  match projects w !! scriptId with
  | Some files => (inr (Some files), w)
  | None => (inl notFound, w)
  end.

Definition withProjects (w : Cloud) (p : gmap string (list ScriptFile))
  : Cloud :=
  mkCloud (sheetTitles w) (ranges w) (scriptsOf w) p (runs w).

Definition cloud_projects_updateContent (scriptId : string)
    (files : list ScriptFile) (w : Cloud) : (JsError + unit) * Cloud :=
  match projects w !! scriptId with
  | Some _ => (inr tt, withProjects w (<[scriptId := files]> (projects w)))
  | None => (inl notFound, w)
  end.

Definition cloud_scripts_run (scriptId function : string) (w : Cloud)
  : (JsError + RunResponse) * Cloud :=
  match runs w !! scriptId with
  | Some r => (inr r, w)
  | None => (inl notFound, w)
  end.

Definition cloud : Remote Cloud :=
  mkRemote Cloud cloud_spreadsheets_get cloud_values_get
    cloud_drive_files_list cloud_projects_get cloud_projects_getContent
    cloud_projects_updateContent cloud_scripts_run.

(** The default configuration of the server. *)
Definition serverConfig : Config :=
  mkConfig "TVDE Users" "D" "E" "F" "G" 2 None (Some "SRC-0123456789-abcdefghij").

(** The default configuration of the command-line copier. *)
Definition cliConfig : Config :=
  mkConfig "Sheet Id" "D" "E" "F" "G" 2 (Some "MASTER")
    (Some "SRC-0123456789-abcdefghij").

(** A stand-in for the generated text. *)
Definition noScript (_ : option string) (_ : JsValue) (_ : list Placement)
    (_ : JsValue) : string := "".

(** ** The selection of the code file, as the specification words it

    "match by exact reserved name, a known localized alias, or substring
    match, in that priority - first match wins": a file named [Code] if
    there is one, else a file named [Código], else a file whose name
    contains [Code]. *)
Definition spec_selectCodeFile (files : list ScriptFile) : option ScriptFile :=
  match List.find (fun f => String.eqb (name f) "Code") files with
  | Some f => Some f
  | None =>
      match List.find (fun f => String.eqb (name f) "Código") files with
      | Some f => Some f
      | None => List.find (fun f => JS.includes (name f) "Code") files
      end
  end.

(** A file qualifies under one of the three criteria. *)
Definition spec_qualifies (f : ScriptFile) : Prop :=
  name f = "Code" \/ name f = "Código" \/ JS.includes (name f) "Code" = true.

(** A summary that accounts for every target, in order. *)
Definition is_status (st : Status) (d : Detail) : bool :=
  match detail_status d, st with
  | Some success, success | Some failed, failed => true
  | _, _ => false
  end.

Definition count_status (st : Status) (l : list Detail) : nat :=
  length (List.filter (is_status st) l).

Record accounts_for (ids : list (option string)) (s : Summary) : Prop := {
  acc_order : map detail_spreadsheetId (details s) = map Some ids;
  acc_status : Forall (fun d => is_Some (detail_status d)) (details s);
  acc_length : length (details s) = length ids;
  acc_total : total s = length ids;
  acc_sum : total s = (successful s + failed_count s)%nat;
  acc_successful : successful s = count_status success (details s);
  acc_failed : failed_count s = count_status failed (details s)
}.

(** The ids the targets resolve to, when [extractSpreadsheetId] answers for
    each of them. *)
Definition resolve_to (targets : list JsValue) (ids : list (option string))
  : Prop :=
  Forall2 (fun target id => extractSpreadsheetId_value target = inr id)
    targets ids.

(** What one row does to the map, whatever its index. *)
Definition rowStep (scriptIdMap : gmap string TargetData) (row : list string)
  : gmap string TargetData :=
  if accepted (decodeRow row)
  then <[default "" (row_spreadsheetId (decodeRow row))
          := row_data (decodeRow row)]> scriptIdMap
  else scriptIdMap.

(** The range [readScriptIds] asks for. *)
Definition manifestRange (cfg : Config) : string :=
  SHEET_NAME cfg +:+ "!" +:+ SHEET_ID_COLUMN cfg
  +:+ pretty (START_ROW cfg) +:+ ":" +:+ BUTTON_COORDINATES_COLUMN cfg.

(** The id of the target resolves: [extractSpreadsheetId] answers for it. *)
Definition resolves (target : JsValue) : Prop :=
  exists id, extractSpreadsheetId_value target = inr id.


(** The summary [after] is [before] with one more entry, for the target of
    id [id]. *)
Definition recorded (id : option string) (before after : Summary) : Prop :=
  exists d,
    detail_spreadsheetId d = Some id
    /\ ((detail_status d = Some success /\ after = succeed before d)
        \/ (detail_status d = Some failed /\ after = fail before d)).

(** A summary that accounts for the targets processed so far, whatever its
    [total]. *)
Definition tallies (done : list (option string)) (s : Summary) : Prop :=
  map detail_spreadsheetId (details s) = map Some done
  /\ Forall (fun d => is_Some (detail_status d)) (details s)
  /\ successful s = count_status success (details s)
  /\ failed_count s = count_status failed (details s).

(** The pushes among the requests: the script id and the file list of each
    [ProjectsUpdateContent]. *)
Fixpoint pushes (l : list Call) : list (string * list ScriptFile) :=
  match l with
  | [] => []
  | ProjectsUpdateContent scriptId files :: l' => (scriptId, files) :: pushes l'
  | _ :: l' => pushes l'
  end.


(** ** Fixtures *)

(** A master sheet where two rows name the target [T1]. *)
Definition duplicateRows : list (list string) :=
  [ ["T1"; "S-old"; "a"; "1,1"];
    ["T2"; "S2"];
    ["https://docs.google.com/spreadsheets/d/T1/edit"; "S-new"; "b,c"; "2,2,3,3"];
    ["T3"; "S3"] ].

Definition duplicateCloud : Cloud :=
  mkCloud {[ "MASTER" := ["TVDE Users"] ]}
    {[ ("MASTER", "TVDE Users!D2:G") := duplicateRows ]} ∅ ∅ ∅.

(** A master sheet whose rows lack a script id: the cell is absent in the
    first and blank in the second. *)
Definition incompleteCloud : Cloud :=
  mkCloud {[ "MASTER" := ["TVDE Users"] ]}
    {[ ("MASTER", "TVDE Users!D2:G") := [ ["ABC123"]; ["DEF456"; "  "] ] ]}
    ∅ ∅ ∅.

(** A source project where a file whose name contains [Code] comes before
    the file named [Code]. *)
Definition helperFirstFiles : list ScriptFile :=
  [ mkFile "MyCodeUtils" SERVER_JS "function util(){}";
    mkFile "Code" SERVER_JS "function main(){}" ].

(** A source project whose code file has the localized name. *)
Definition localizedFiles : list ScriptFile :=
  [ mkFile "appsscript" JSON "{}";
    mkFile "Código" SERVER_JS "function principal(){}" ].

Definition targetFiles0 : list ScriptFile :=
  [ mkFile "appsscript" JSON "{}";
    mkFile "Code" SERVER_JS "function old(){}";
    mkFile "Sidebar" HTML "<p>hello</p>" ].

(** Script projects: a source, a source with the localized name and a
    target. *)
Definition projectsCloud : Cloud :=
  mkCloud ∅ ∅ ∅
    {[ "SRC-0123456789-abcdefghij" := helperFirstFiles;
       "SRC-localized-0123456789" := localizedFiles;
       "TGT-0123456789-abcdefghij" := targetFiles0 ]}
    ∅.

(** A master sheet whose first target has two image ids for one coordinate
    pair and whose second has two image ids and no coordinate. *)
Definition mismatchCloud : Cloud :=
  mkCloud {[ "MASTER" := ["TVDE Users"] ]}
    {[ ("MASTER", "TVDE Users!D2:G") :=
         [ ["TGT"; "TGT-0123456789-abcdefghij"; "img1,img2"; "1,2"];
           ["TGT2"; "TGT-0123456789-abcdefghij"; "img1,img2"] ] ]}
    ∅
    {[ "TGT-0123456789-abcdefghij" := targetFiles0 ]}
    ∅.

(** The rows of a master sheet of three targets. *)
Definition batchRows : list (list string) :=
  [ ["T1"; "TGT-1-0123456789-abcdefghij"];
    ["T2"; "TGT-2-0123456789-abcdefghij"];
    ["T3"; "TGT-3-0123456789-abcdefghij"] ].

(** A master sheet of three targets.  The script of the second does not
    exist on the services, so its transfer throws. *)
Definition batchCloud : Cloud :=
  mkCloud {[ "MASTER" := ["TVDE Users"; "Sheet Id"] ]}
    {[ ("MASTER", "TVDE Users!D2:G") := batchRows;
       ("MASTER", "Sheet Id!D2:E") := batchRows ]}
    ∅
    {[ "SRC-0123456789-abcdefghij" := helperFirstFiles;
       "TGT-1-0123456789-abcdefghij" := targetFiles0;
       "TGT-3-0123456789-abcdefghij" := targetFiles0 ]}
    ∅.

(** A request that copies the functions to the three targets. *)
Definition batchRequest : Request :=
  mkRequest "true" (Some "MASTER")
    [ "T1"; "https://docs.google.com/spreadsheets/d/T2/edit"; "T3" ]
    "false" None [] None None.

(** A master sheet of two targets with one image each.  The run of the
    generated procedure answers a result for the first and an error for the
    second. *)
Definition placementCloud : Cloud :=
  mkCloud {[ "MASTER" := ["TVDE Users"] ]}
    {[ ("MASTER", "TVDE Users!D2:G") :=
         [ ["T1"; "TGT-1-0123456789-abcdefghij"; "imgA"; "2,5"];
           ["T2"; "TGT-2-0123456789-abcdefghij"; "imgB"; "3,7"] ] ]}
    ∅
    {[ "TGT-1-0123456789-abcdefghij" := targetFiles0;
       "TGT-2-0123456789-abcdefghij" := targetFiles0 ]}
    {[ "TGT-1-0123456789-abcdefghij" :=
         mkRunResponse None
           (Some (mkExecResult (Some 1%Z)
                    (Some [mkButtonDetail "2,5" "imgA" None]) None));
       "TGT-2-0123456789-abcdefghij" :=
         mkRunResponse (Some "Exception: sheet not found") None ]}.

(** A request with both sections filled, the buttons disabled. *)
Definition fullRequest : Request :=
  mkRequest "true" (Some "MASTER")
    [ "T1"; "https://docs.google.com/spreadsheets/d/T2/edit"; "T3" ]
    "false" (Some "MASTER") [] (Some "Sheet1") None.

(** The number 7. *)
Definition seven : spec_float := S754_finite false 7 0.

(** A payload that passes the validation and whose second target is the
    number 7:
    [{copyFunctions: {enable: 'true', sourceSheet: 'MASTER',
                      targetSheets: ['T1', 7, 'T3']}}]. *)
Definition numberTargetPayload : JsValue :=
  JObject
    [ ("copyFunctions",
       JObject [ ("enable", JString "true");
                 ("sourceSheet", JString "MASTER");
                 ("targetSheets",
                  JArray [JString "T1"; JNumber seven; JString "T3"]) ]) ].

(** The variables the handler fills from it. *)
Definition numberTargetFields : Fields :=
  mkFields "true" (JString "MASTER")
    [JString "T1"; JNumber seven; JString "T3"]
    "false" JNull [] JNull JNull.

(** A payload whose [copyFunctions.enable] is the boolean [true], beside a
    well-formed [copyButtons] section. *)
Definition booleanEnablePayload : JsValue :=
  JObject
    [ ("copyFunctions",
       JObject [ ("enable", JBool true);
                 ("sourceSheet", JString "MASTER");
                 ("targetSheets", JArray [JString "T1"]) ]);
      ("copyButtons",
       JObject [ ("enable", JString "true");
                 ("sourceSheet", JString "MASTER");
                 ("targetSheets", JArray [JString "T1"]);
                 ("targetSheetTab", JString "Sheet1") ]) ].

(** * Properties *)

(** ** Manifest decoding *)

Lemma forEachRow_fold start rows index m :
  fst (forEachRow start rows index m) = fold_left rowStep rows m.
Proof.
  revert index m. induction rows as [|row rows IH]; intros index m; [done|].
  cbn [forEachRow fold_left].
  unfold forEachBody at 1. unfold rowStep at 2.
  destruct (accepted (decodeRow row)).
  - specialize (IH (S index)
      (<[default "" (row_spreadsheetId (decodeRow row)) := row_data (decodeRow row)]> m)).
    destruct (forEachRow _ rows (S index) _); simpl in *. done.
  - specialize (IH (S index) m).
    destruct (forEachRow _ rows (S index) _); simpl in *. done.
Qed.

Lemma decodeRows_fold start rows :
  decodeRows start rows = fold_left rowStep rows ∅.
Proof. apply forEachRow_fold. Qed.

Lemma rowStep_other m row (k : string) :
  (accepted (decodeRow row) = true ->
   row_spreadsheetId (decodeRow row) <> Some k) ->
  rowStep m row !! k = m !! k.
Proof.
  intros H. unfold rowStep.
  destruct (accepted (decodeRow row)) eqn:Hacc; [|done].
  specialize (H eq_refl).
  unfold accepted in Hacc. apply andb_prop in Hacc as [Hid _].
  destruct (row_spreadsheetId (decodeRow row)) as [id|]; [|done].
  simpl. apply lookup_insert_ne. congruence.
Qed.

Lemma fold_rowStep_other rows m (k : string) :
  (forall row, row ∈ rows -> accepted (decodeRow row) = true ->
               row_spreadsheetId (decodeRow row) <> Some k) ->
  fold_left rowStep rows m !! k = m !! k.
Proof.
  revert m. induction rows as [|row rows IH]; intros m H; [done|].
  simpl. rewrite IH.
  - apply rowStep_other. intros Hacc. apply H; [left | done].
  - intros row' Hin. apply H. by right.
Qed.

Lemma fold_rowStep_last pre row post m (k : string) :
  accepted (decodeRow row) = true ->
  row_spreadsheetId (decodeRow row) = Some k ->
  (forall row', row' ∈ post -> accepted (decodeRow row') = true ->
                row_spreadsheetId (decodeRow row') <> Some k) ->
  fold_left rowStep (pre ++ row :: post) m !! k
  = Some (row_data (decodeRow row)).
Proof.
  intros Hacc Hid Hpost.
  rewrite fold_left_app. simpl.
  rewrite fold_rowStep_other by done.
  unfold rowStep. rewrite Hacc, Hid. simpl. apply lookup_insert_eq.
Qed.

(** A key is in the manifest exactly when an accepted row resolves to it. *)
Lemma fold_rowStep_is_Some rows m (k : string) :
  is_Some (fold_left rowStep rows m !! k) <->
  is_Some (m !! k) \/
  exists row, row ∈ rows /\ accepted (decodeRow row) = true
              /\ row_spreadsheetId (decodeRow row) = Some k.
Proof.
  revert m. induction rows as [|row rows IH]; intros m; simpl.
  - split; [by left|]. intros [H|(row & Hin & _)]; [done|]. by apply elem_of_nil in Hin.
  - rewrite IH. split.
    + intros [H|(row' & Hin & Hacc & Hid)].
      * unfold rowStep in H.
        destruct (accepted (decodeRow row)) eqn:Hacc; [|by left].
        destruct (decide (default "" (row_spreadsheetId (decodeRow row)) = k)) as [Heq|Hne].
        -- right. exists row. split; [left|]. split; [exact Hacc|].
           unfold accepted in Hacc. apply andb_prop in Hacc as [Hid _].
           destruct (row_spreadsheetId (decodeRow row)) as [id|] eqn:E; [|done].
           simpl in Heq. by subst.
        -- rewrite lookup_insert_ne in H by done. by left.
      * right. exists row'. split; [by right|done].
    + intros [H|(row' & Hin & Hacc & Hid)].
      * left. unfold rowStep. destruct (accepted (decodeRow row)); [|done].
        destruct (decide (default "" (row_spreadsheetId (decodeRow row)) = k)) as [->|Hne].
        -- rewrite lookup_insert_eq. by eexists.
        -- by rewrite lookup_insert_ne.
      * change (row_spreadsheetId (decodeRow row') = Some k) in Hid.
        apply elem_of_cons in Hin as [Heq|Hin].
        -- subst row'. left. unfold rowStep. rewrite Hacc, Hid. simpl.
           rewrite lookup_insert_eq. by eexists.
        -- right. by exists row'.
Qed.

(** ** Runs of the manifest reader *)

Section Runs.

Context {World : Type}.
Variable api : Remote World.
Variable cfg : Config.

(** [readScriptIds] when the sheet exists and the range is answered: the
    manifest is the fold of [rowStep] over the rows, after two requests. *)
Lemma readScriptIds_run id s titles w1 values w2 :
  spreadsheets_get api id (world s) = (inr titles, w1) ->
  existsb (String.eqb (SHEET_NAME cfg)) titles = true ->
  values_get api id (manifestRange cfg) w1 = (inr values, w2) ->
  exists s',
    readScriptIds api cfg id s
    = (inr (decodeRows (START_ROW cfg) (default [] values)), s')
    /\ world s' = w2
    /\ calls s' = calls s ++ [SpreadsheetsGet id; ValuesGet id (manifestRange cfg)].
Proof.
  intros Hget Hin Hval.
  unfold readScriptIds, try_catch, bind, request. simpl.
  rewrite Hget, Hin. simpl.
  fold (manifestRange cfg). rewrite Hval.
  unfold decodeRows.
  destruct (forEachRow (START_ROW cfg) (default [] values) 0 ∅) as [m lines].
  simpl. eexists. split; [reflexivity|]. simpl. split; [done|].
  by rewrite <- app_assoc.
Qed.

End Runs.

(** ** Identifier Resolver *)

(** C7. [extractSpreadsheetId] gives the same canonical id [ABC123] for the
    full URL, for the path fragment and for the bare id. *)
Theorem extractSpreadsheetId_canonical :
  extractSpreadsheetId
    (Some "https://docs.google.com/spreadsheets/d/ABC123/edit") = Some "ABC123"
  /\ extractSpreadsheetId (Some "/spreadsheets/d/ABC123") = Some "ABC123"
  /\ extractSpreadsheetId (Some "ABC123") = Some "ABC123".
Proof. repeat split; vm_compute; reflexivity. Qed.

(** ** Manifest Reader *)

(** C8. The row with asset cell [img1,img2] and coordinate cell [1,2,3,4]
    decodes to the two asset ids and the pairs (1,2), (3,4), and is stored so
    in the manifest; with coordinate cell [1,2,3] the pairs are (1,2) alone,
    the last token being dropped. *)
Theorem decodeRow_documented_rows :
  row_buttonImageIds (decodeRow ["T1"; "S1"; "img1,img2"; "1,2,3,4"])
  = ["img1"; "img2"]
  /\ row_coordinatePairs (decodeRow ["T1"; "S1"; "img1,img2"; "1,2,3,4"])
     = [(1, 2); (3, 4)]%Z
  /\ decodeRows 2 [["T1"; "S1"; "img1,img2"; "1,2,3,4"]] !! "T1"
     = Some (mkTargetData "S1" ["img1"; "img2"] [(1, 2); (3, 4)]%Z)
  /\ row_coordinatePairs (decodeRow ["T1"; "S1"; "img1,img2"; "1,2,3"])
     = [(1, 2)]%Z
  /\ decodeRows 2 [["T1"; "S1"; "img1,img2"; "1,2,3"]] !! "T1"
     = Some (mkTargetData "S1" ["img1"; "img2"] [(1, 2)]%Z).
Proof. repeat split; vm_compute; reflexivity. Qed.

Lemma coordinatePairs_app n : forall pre post,
  length pre = (2 * n)%nat ->
  coordinatePairs (pre ++ post) = coordinatePairs pre ++ coordinatePairs post.
Proof.
  induction n as [|n IH]; intros pre post Hlen.
  - destruct pre; [done | simpl in Hlen; lia].
  - destruct pre as [|c0 [|c1 pre]]; simpl in Hlen; try lia.
    cbn [app coordinatePairs].
    rewrite IH by lia.
    by destruct (JS.parseInt c0), (JS.parseInt c1).
Qed.

(** C10. A pair of tokens of which one does not parse is dropped wherever it
    stands among the pairs, and the pairs before and after it are kept. *)
Theorem malformed_pair_dropped (pre post : list string) (c0 c1 : string) :
  Nat.Even (length pre) ->
  JS.parseInt c0 = None \/ JS.parseInt c1 = None ->
  coordinatePairs (pre ++ c0 :: c1 :: post)
  = coordinatePairs pre ++ coordinatePairs post.
Proof.
  intros [n Hn] Hnan.
  rewrite (coordinatePairs_app n) by done.
  f_equal. cbn [coordinatePairs].
  destruct Hnan as [-> | ->]; [done|].
  by destruct (JS.parseInt c0).
Qed.

(** The coordinate cell [1,x,3,4] decodes to the pair (3,4). *)
Lemma malformed_pair_dropped_witness :
  coordinatePairs (cell_list (Some "1,x,3,4")) = [(3, 4)]%Z.
Proof.
  change (cell_list (Some "1,x,3,4")) with ([] ++ "1" :: "x" :: ["3"; "4"]).
  rewrite (malformed_pair_dropped [] ["3"; "4"] "1" "x").
  - vm_compute. reflexivity.
  - exists 0%nat. reflexivity.
  - right. vm_compute. reflexivity.
Defined.

Section ManifestReader.

Context {World : Type}.
Variable api : Remote World.
Variable cfg : Config.

(** C9. When several accepted rows resolve to the same spreadsheet id, the
    manifest [readScriptIds] returns holds the data of the last of them. *)
Theorem duplicate_key_last_row_wins id s titles w1 pre row post w2 k :
  spreadsheets_get api id (world s) = (inr titles, w1) ->
  existsb (String.eqb (SHEET_NAME cfg)) titles = true ->
  values_get api id (manifestRange cfg) w1
  = (inr (Some (pre ++ row :: post)), w2) ->
  accepted (decodeRow row) = true ->
  row_spreadsheetId (decodeRow row) = Some k ->
  (forall row', row' ∈ post -> accepted (decodeRow row') = true ->
                row_spreadsheetId (decodeRow row') <> Some k) ->
  exists m s',
    readScriptIds api cfg id s = (inr m, s')
    /\ m !! k = Some (row_data (decodeRow row)).
Proof.
  intros Hget Hin Hval Hacc Hid Hpost.
  destruct (readScriptIds_run api cfg id s titles w1 _ w2 Hget Hin Hval)
    as (s' & Hrun & _).
  eexists _, s'. split; [exact Hrun|].
  rewrite decodeRows_fold. simpl. by apply fold_rowStep_last.
Qed.

End ManifestReader.

(** In [duplicateRows] the third row, the last that resolves to [T1], is the
    one the manifest holds. *)
Lemma duplicate_key_last_row_wins_witness :
  exists m s',
    readScriptIds cloud serverConfig (Some "MASTER") (start duplicateCloud)
    = (inr m, s')
    /\ m !! "T1" = Some (mkTargetData "S-new" ["b"; "c"] [(2, 2); (3, 3)]%Z).
Proof.
  apply (duplicate_key_last_row_wins cloud serverConfig (Some "MASTER")
           (start duplicateCloud) ["TVDE Users"] duplicateCloud
           [ ["T1"; "S-old"; "a"; "1,1"]; ["T2"; "S2"] ]
           ["https://docs.google.com/spreadsheets/d/T1/edit"; "S-new"; "b,c"; "2,2,3,3"]
           [ ["T3"; "S3"] ] duplicateCloud "T1").
  - vm_compute. reflexivity.
  - vm_compute. reflexivity.
  - vm_compute. reflexivity.
  - vm_compute. reflexivity.
  - vm_compute. reflexivity.
  - intros row' Hin _.
    apply list_elem_of_In in Hin. destruct Hin as [<- | []].
    vm_compute. discriminate.
Defined.

(** C2, as stated, fails on the server: the fetched row [ABC123] resolves to
    a non-empty spreadsheet id and has no script id; [readScriptIds] does not
    record it, and writes the invalid-row line for it. *)
Lemma row_without_scriptId_not_recorded :
  extractSpreadsheetId (["ABC123"] !! 0) = Some "ABC123"
  /\ exists m s',
       readScriptIds cloud serverConfig (Some "MASTER") (start incompleteCloud)
       = (inr m, s')
       /\ m !! "ABC123" = None
       /\ console s' = [InvalidRow 2 "ABC123" "missing";
                        InvalidRow 3 "DEF456" "missing"].
Proof.
  split; [vm_compute; reflexivity|].
  remember (readScriptIds cloud serverConfig (Some "MASTER")
              (start incompleteCloud)) as r eqn:E.
  vm_compute in E. subst r.
  eexists _, _. split; [reflexivity|]. split; vm_compute; reflexivity.
Qed.

(** C2, amended.  On the server a row without a script id leaves the map as
    it is and is logged as invalid, and a key is in the manifest exactly when
    some row has both a non-empty resolved spreadsheet id and a non-empty
    script id.  In the command-line copier every row with a non-empty
    resolved spreadsheet id is kept, whatever its script id cell. *)
Theorem manifest_acceptance :
  (forall start m index row,
     JS.truthy_opt (cell_trim (row !! 1)) = false ->
     forEachBody start m index row
     = (m, InvalidRow (Z.of_nat index + start)
             (or_else (extractSpreadsheetId (row !! 0)) "missing")
             (or_else (cell_trim (row !! 1)) "missing")))
  /\ (forall start rows (k : string),
        is_Some (decodeRows start rows !! k) <->
        exists row, row ∈ rows
                    /\ extractSpreadsheetId (row !! 0) = Some k
                    /\ JS.truthy k = true
                    /\ JS.truthy_opt (cell_trim (row !! 1)) = true)
  /\ (forall rows row,
        row ∈ rows ->
        JS.truthy_opt (extractSpreadsheetId (row !! 0)) = true ->
        mkSheetItem (extractSpreadsheetId (row !! 0)) (cell_trim (row !! 1))
        ∈ sheetItems rows).
Proof.
  split; [|split].
  - intros start m index row Hscript.
    unfold forEachBody, accepted.
    change (row_scriptId (decodeRow row)) with (cell_trim (row !! 1)).
    change (row_spreadsheetId (decodeRow row))
      with (extractSpreadsheetId (row !! 0)).
    by rewrite Hscript, andb_false_r.
  - intros start rows k.
    rewrite decodeRows_fold, fold_rowStep_is_Some, lookup_empty.
    split.
    + intros [[? H]|(row & Hin & Hacc & Hid)]; [done|].
      exists row. split; [done|].
      change (row_spreadsheetId (decodeRow row))
        with (extractSpreadsheetId (row !! 0)) in Hid.
      unfold accepted in Hacc. apply andb_prop in Hacc as [Hk Hs].
      change (row_spreadsheetId (decodeRow row))
        with (extractSpreadsheetId (row !! 0)) in Hk.
      rewrite Hid in Hk. done.
    + intros (row & Hin & Hid & Hk & Hs).
      right. exists row. split; [done|]. split; [|exact Hid].
      unfold accepted.
      change (row_spreadsheetId (decodeRow row))
        with (extractSpreadsheetId (row !! 0)).
      rewrite Hid. simpl. rewrite Hk. exact Hs.
  - intros rows row Hin Hid.
    unfold sheetItems. apply list_elem_of_In, filter_In. split.
    + apply in_map_iff. exists row. split; [done|]. by apply list_elem_of_In.
    + exact Hid.
Qed.

(** The row [ABC123], without a script id, on the server and in the
    command-line copier. *)
Lemma manifest_acceptance_witness :
  forEachBody 2 ∅ 0 ["ABC123"] = (∅, InvalidRow 2 "ABC123" "missing")
  /\ mkSheetItem (Some "ABC123") None ∈ sheetItems [ ["ABC123"] ].
Proof.
  destruct manifest_acceptance as (Hserver & _ & Hcli).
  split.
  - apply (Hserver 2%Z ∅ 0%nat ["ABC123"]). vm_compute. reflexivity.
  - apply (Hcli [ ["ABC123"] ] ["ABC123"]).
    + apply list_elem_of_In. left. reflexivity.
    + vm_compute. reflexivity.
Defined.

(** ** Content Transfer Engine *)

Lemma find_first {A} (p : A -> bool) (l : list A) (x : A) :
  List.find p l = Some x ->
  exists pre post,
    l = pre ++ x :: post /\ p x = true /\ forall y, y ∈ pre -> p y = false.
Proof.
  induction l as [|a l IH]; simpl; [done|].
  destruct (p a) eqn:Hpa.
  - intros [= ->]. exists [], l. split; [done|]. split; [done|].
    intros y Hy. by apply elem_of_nil in Hy.
  - intros Hfind. destruct (IH Hfind) as (pre & post & -> & Hpx & Hpre).
    exists (a :: pre), post. split; [done|]. split; [done|].
    intros y Hy. apply elem_of_cons in Hy as [->|Hy]; [done|]. by apply Hpre.
Qed.

Lemma find_none_iff {A} (p : A -> bool) (l : list A) :
  List.find p l = None <-> forall y, y ∈ l -> p y = false.
Proof.
  induction l as [|a l IH]; simpl.
  - split; [|done]. intros _ y Hy. by apply elem_of_nil in Hy.
  - destruct (p a) eqn:Hpa.
    + split; [done|]. intros H. specialize (H a). rewrite Hpa in H.
      discriminate H. by left.
    + rewrite IH. split.
      * intros H y Hy. apply elem_of_cons in Hy as [->|Hy]; [done|]. by apply H.
      * intros H y Hy. apply H. by right.
Qed.

Lemma isSourceCodeFile_qualifies f :
  isSourceCodeFile f = true <-> spec_qualifies f.
Proof.
  unfold isSourceCodeFile, spec_qualifies.
  rewrite !orb_true_iff, !String.eqb_eq. tauto.
Qed.

Lemma isSourceFunctionFile_true f :
  isSourceFunctionFile f = true <-> name f = "Code" /\ type f = SERVER_JS.
Proof.
  unfold isSourceFunctionFile.
  by rewrite andb_true_iff, String.eqb_eq, bool_decide_eq_true.
Qed.

Lemma not_true_iff_false' (b : bool) (P : Prop) :
  (b = true <-> P) -> (b = false <-> ~ P).
Proof. intros H. rewrite <- H. by destruct b. Qed.

(** C6, as stated, fails.  The server does not accept the localized name at
    all: it fails although a file of the source qualifies.  In the
    command-line copier a file whose name only contains [Code] is taken
    instead of the file named [Code] when it comes first in the list. *)
Lemma code_file_selection_not_by_priority :
  (spec_selectCodeFile helperFirstFiles
   = Some (mkFile "Code" SERVER_JS "function main(){}")
   /\ List.find isSourceCodeFile helperFirstFiles
      = Some (mkFile "MyCodeUtils" SERVER_JS "function util(){}"))
  /\ (spec_selectCodeFile localizedFiles
      = Some (mkFile "Código" SERVER_JS "function principal(){}")
      /\ List.find isSourceFunctionFile localizedFiles = None
      /\ fst (copyFunction cloud "SRC-localized-0123456789"
                "TGT-0123456789-abcdefghij" (start projectsCloud))
         = inl (Error "Error copying function to TGT-0123456789-abcdefghij: No Code.gs file found in source script project")).
Proof. repeat split; vm_compute; reflexivity. Qed.

Section Selection.

Context {World : Type}.
Variable api : Remote World.

(** [updateScriptContent], request by request. *)
Lemma updateScriptContent_run target sourceFiles s :
  updateScriptContent api target sourceFiles s
  = match projects_getContent api target (world s) with
    | (inl e, w1) =>
        (inl e, mkState w1 (calls s ++ [ProjectsGetContent target]) (console s))
    | (inr existingContent, w1) =>
        match List.find isSourceCodeFile sourceFiles with
        | None =>
            (inl (Error "No Code.gs file found in source project"),
             mkState w1 (calls s ++ [ProjectsGetContent target]) (console s))
        | Some sourceCodeFile =>
            match existingContent with
            | None =>
                (inl (Error "Cannot read properties of undefined (reading 'map')"),
                 mkState w1 (calls s ++ [ProjectsGetContent target])
                   (console s))
            | Some existing =>
                let files := updatedFiles sourceCodeFile existing in
                match projects_updateContent api target files w1 with
                | (r, w2) =>
                    (r, mkState w2
                          (calls s ++ [ProjectsGetContent target;
                                       ProjectsUpdateContent target files])
                          (console s))
                end
            end
        end
    end.
Proof.
  unfold updateScriptContent, try_catch, bind, request, throw.
  cbn [world calls console].
  destruct (projects_getContent api target (world s)) as [[e|existing] w1];
    [done|].
  destruct (List.find isSourceCodeFile sourceFiles) as [sc|]; [|done].
  destruct existing as [existing|]; [|done].
  cbn [world calls console].
  destruct (projects_updateContent api target _ w1) as [[e|[]] w2];
    by rewrite <- app_assoc.
Qed.

(** [copyFunction], request by request. *)
Lemma copyFunction_run source target s :
  copyFunction api source target s
  = let wrap e :=
      Error ("Error copying function to " +:+ target +:+ ": " +:+ message e) in
    match projects_getContent api source (world s) with
    | (inl e, w1) =>
        (inl (wrap e),
         mkState w1 (calls s ++ [ProjectsGetContent source]) (console s))
    | (inr sourceContent, w1) =>
        match List.find isSourceFunctionFile (default [] sourceContent) with
        | None =>
            (inl (wrap (Error "No Code.gs file found in source script project")),
             mkState w1 (calls s ++ [ProjectsGetContent source]) (console s))
        | Some sourceFunctionFile =>
            match projects_getContent api target w1 with
            | (fetched, w2) =>
                let targetFiles :=
                  copyFunction_files sourceFunctionFile
                    (match fetched with
                     | inr content => default [] content
                     | inl _ => []
                     end) in
                match projects_updateContent api target targetFiles w2 with
                | (r, w3) =>
                    (match r with
                     | inl e => inl (wrap e)
                     | inr _ => inr target
                     end,
                     mkState w3
                       (calls s ++ [ProjectsGetContent source;
                                    ProjectsGetContent target;
                                    ProjectsUpdateContent target targetFiles])
                       (console s))
                end
            end
        end
    end.
Proof.
  unfold copyFunction, try_catch, bind, request, throw, ret.
  cbn [world calls console].
  destruct (projects_getContent api source (world s)) as [[e|c] w1]; [done|].
  destruct (List.find isSourceFunctionFile (default [] c)) as [sf|]; [|done].
  cbn [world calls console].
  destruct (projects_getContent api target w1) as [[e1|c1] w2];
    cbn [world calls console default from_option id];
    match goal with
    | |- context [projects_updateContent api target ?files w2] =>
        destruct (projects_updateContent api target files w2) as [[e2|[]] w3]
    end; cbn [world calls console]; by rewrite <- !app_assoc.
Qed.

Lemma state_calls_neq (w w' : World) (l : list Call) c1 c2 rest k k' :
  mkState w' (l ++ c1 :: c2 :: rest) k' <> mkState w (l ++ [c1]) k.
Proof.
  intros [= _ H _]. by apply app_inv_head in H.
Qed.

(** C6, amended.  Each program looks for the code file with a predicate of
    its own, and reports the missing code file exactly when no file of the
    source satisfies it.

    The server takes the first file named [Code] of type [SERVER_JS].  A
    failed read of the source project is reported as such; once the source
    project is read, [copyFunction] throws its missing-file error, having
    sent no other request, exactly when the source has no such file.

    The command-line copier reads the target project first, and rethrows a
    failure of this read whatever the source holds; once the target is
    read, [updateScriptContent] throws its missing-file error, having sent
    no other request, exactly when no file of the source is named [Code]
    or [Código] or has a name that contains [Code].  A file it takes is a
    file of the source that satisfies one of the three, and the only such
    file when there is only one. *)
Theorem code_file_selection :
  (forall files,
     (List.find isSourceFunctionFile files = None <->
      forall f, f ∈ files -> ~ (name f = "Code" /\ type f = SERVER_JS))
     /\ (forall f, List.find isSourceFunctionFile files = Some f ->
           exists pre post,
             files = pre ++ f :: post
             /\ (name f = "Code" /\ type f = SERVER_JS)
             /\ forall g, g ∈ pre ->
                  ~ (name g = "Code" /\ type g = SERVER_JS)))
  /\ (forall source target s e w1,
        projects_getContent api source (world s) = (inl e, w1) ->
        copyFunction api source target s
        = (inl (Error ("Error copying function to " +:+ target +:+ ": "
                       +:+ message e)),
           mkState w1 (calls s ++ [ProjectsGetContent source]) (console s)))
  /\ (forall source target s sourceContent w1,
        projects_getContent api source (world s) = (inr sourceContent, w1) ->
        (copyFunction api source target s
         = (inl (Error ("Error copying function to " +:+ target +:+
                        ": No Code.gs file found in source script project")),
            mkState w1 (calls s ++ [ProjectsGetContent source]) (console s))
         <-> forall f, f ∈ default [] sourceContent ->
               ~ (name f = "Code" /\ type f = SERVER_JS)))
  /\ (forall files,
        (List.find isSourceCodeFile files = None <->
         forall f, f ∈ files -> ~ spec_qualifies f)
        /\ (forall f, List.find isSourceCodeFile files = Some f ->
              f ∈ files /\ spec_qualifies f)
        /\ (forall f, f ∈ files -> spec_qualifies f ->
              (forall g, g ∈ files -> spec_qualifies g -> g = f) ->
              List.find isSourceCodeFile files = Some f))
  /\ (forall target sourceFiles s e w1,
        projects_getContent api target (world s) = (inl e, w1) ->
        updateScriptContent api target sourceFiles s
        = (inl e,
           mkState w1 (calls s ++ [ProjectsGetContent target]) (console s)))
  /\ (forall target sourceFiles s existing w1,
        projects_getContent api target (world s) = (inr existing, w1) ->
        (updateScriptContent api target sourceFiles s
         = (inl (Error "No Code.gs file found in source project"),
            mkState w1 (calls s ++ [ProjectsGetContent target]) (console s))
         <-> forall f, f ∈ sourceFiles -> ~ spec_qualifies f)).
Proof.
  assert (Hserver : forall files,
             List.find isSourceFunctionFile files = None <->
             forall f, f ∈ files -> ~ (name f = "Code" /\ type f = SERVER_JS)).
  { intros files. rewrite find_none_iff. split; intros H f Hf;
      apply (not_true_iff_false' _ _ (isSourceFunctionFile_true f)); auto. }
  assert (Hcli : forall files,
             List.find isSourceCodeFile files = None <->
             forall f, f ∈ files -> ~ spec_qualifies f).
  { intros files. rewrite find_none_iff. split; intros H f Hf;
      apply (not_true_iff_false' _ _ (isSourceCodeFile_qualifies f)); auto. }
  split; [|split; [|split; [|split; [|split]]]].
  - intros files. split; [apply Hserver|].
    intros f Hfind.
    destruct (find_first _ _ _ Hfind) as (pre & post & -> & Hf & Hpre).
    exists pre, post. split; [done|].
    split; [by apply isSourceFunctionFile_true|].
    intros g Hg.
    apply (not_true_iff_false' _ _ (isSourceFunctionFile_true g)). auto.
  - intros source target s e w1 Hget.
    rewrite copyFunction_run. cbv zeta. by rewrite Hget.
  - intros source target s sourceContent w1 Hget.
    rewrite <- Hserver, copyFunction_run. cbv zeta. rewrite Hget.
    destruct (List.find isSourceFunctionFile (default [] sourceContent))
      as [sf|]; [|done].
    split; [|done]. intros Heq. exfalso.
    destruct (projects_getContent api target w1) as [fetched w2].
    match type of Heq with
    | context [projects_updateContent api target ?files w2] =>
        destruct (projects_updateContent api target files w2) as [r w3]
    end.
    apply (f_equal snd) in Heq. cbn [snd] in Heq.
    by apply state_calls_neq in Heq.
  - intros files. split; [apply Hcli|]. split.
    + intros f Hfind.
      destruct (find_first _ _ _ Hfind) as (pre & post & -> & Hf & _).
      split; [|by apply isSourceCodeFile_qualifies].
      apply elem_of_app. right. by left.
    + intros f Hin Hf Honly.
      destruct (List.find isSourceCodeFile files) as [g|] eqn:Hfind.
      * destruct (find_first _ _ _ Hfind) as (pre & post & Heq & Hg & _).
        f_equal. apply Honly; [|by apply isSourceCodeFile_qualifies].
        rewrite Heq. apply elem_of_app. right. by left.
      * exfalso. by apply (proj1 (Hcli files) Hfind f).
  - intros target sourceFiles s e w1 Hget.
    rewrite updateScriptContent_run. by rewrite Hget.
  - intros target sourceFiles s existing w1 Hget.
    rewrite <- Hcli, updateScriptContent_run. rewrite Hget.
    destruct (List.find isSourceCodeFile sourceFiles) as [sc|]; [|done].
    split; [|done]. intros Heq. exfalso.
    destruct existing as [existing|]; [|discriminate Heq].
    cbv zeta in Heq.
    destruct (projects_updateContent api target _ w1) as [r w2].
    apply (f_equal snd) in Heq. cbn [snd] in Heq.
    by apply state_calls_neq in Heq.
Qed.

End Selection.

(** The source projects of the fixtures.  The server fails on the project
    whose code file has the localized name, after the read of the source
    alone; the command-line copier finds a file in it, and reports the
    missing file for a source that holds the manifest only. *)
Lemma code_file_selection_witness :
  copyFunction cloud "SRC-localized-0123456789" "TGT-0123456789-abcdefghij"
    (start projectsCloud)
  = (inl (Error "Error copying function to TGT-0123456789-abcdefghij: No Code.gs file found in source script project"),
     mkState projectsCloud [ProjectsGetContent "SRC-localized-0123456789"] [])
  /\ List.find isSourceCodeFile localizedFiles
     = Some (mkFile "Código" SERVER_JS "function principal(){}")
  /\ updateScriptContent cloud "TGT-0123456789-abcdefghij"
       [mkFile "appsscript" JSON "{}"] (start projectsCloud)
     = (inl (Error "No Code.gs file found in source project"),
        mkState projectsCloud [ProjectsGetContent "TGT-0123456789-abcdefghij"]
          []).
Proof.
  destruct (code_file_selection cloud)
    as (_ & _ & Hserver & Hfind & _ & Hcli).
  split; [|split].
  - apply (Hserver "SRC-localized-0123456789" "TGT-0123456789-abcdefghij"
             (start projectsCloud) (Some localizedFiles) projectsCloud).
    + vm_compute. reflexivity.
    + intros f Hf [Hname Htype].
      apply list_elem_of_In in Hf. simpl in Hf.
      destruct Hf as [<-|[<-|[]]]; discriminate.
  - destruct (Hfind localizedFiles) as (_ & _ & Honly).
    apply Honly.
    + apply list_elem_of_In. simpl. tauto.
    + right. left. reflexivity.
    + intros g Hg Hq. apply list_elem_of_In in Hg. simpl in Hg.
      destruct Hg as [<-|[<-|[]]]; [|done].
      exfalso. destruct Hq as [Hq|[Hq|Hq]]; vm_compute in Hq; discriminate.
  - apply (Hcli "TGT-0123456789-abcdefghij" [mkFile "appsscript" JSON "{}"]
             (start projectsCloud) (Some targetFiles0) projectsCloud).
    + vm_compute. reflexivity.
    + intros f Hf Hq. apply list_elem_of_In in Hf. simpl in Hf.
      destruct Hf as [<-|[]].
      destruct Hq as [Hq|[Hq|Hq]]; vm_compute in Hq; discriminate.
Defined.

(** *** The replacement file lists *)

Lemma copyFunction_files_keeps sf files f :
  f ∈ files -> name f <> "Code" -> f ∈ copyFunction_files sf files.
Proof.
  intros Hin Hname. unfold copyFunction_files.
  apply elem_of_app. left. apply list_elem_of_In, filter_In.
  split; [by apply list_elem_of_In|].
  apply negb_true_iff. by apply String.eqb_neq.
Qed.

Lemma updatedFiles_keeps sc files f :
  f ∈ files -> isReplaced f = false -> f ∈ updatedFiles sc files.
Proof.
  intros Hin Hrep. unfold updatedFiles.
  apply list_elem_of_In, in_map_iff. exists f.
  rewrite Hrep. split; [done|]. by apply list_elem_of_In.
Qed.

Lemma isReplaced_false f :
  name f <> "Code" -> name f <> "Código" -> type f <> SERVER_JS ->
  isReplaced f = false.
Proof.
  intros H1 H2 H3. unfold isReplaced.
  apply String.eqb_neq in H1, H2. rewrite H1, H2. simpl.
  by apply bool_decide_eq_false.
Qed.

Lemma filter_filter_same {A} (p : A -> bool) (l : list A) :
  List.filter p (List.filter p l) = List.filter p l.
Proof.
  induction l as [|a l IH]; simpl; [done|].
  destruct (p a) eqn:Hpa; simpl; [|done]. by rewrite Hpa, IH.
Qed.

(** Pushing the list [copyFunction] builds, then building it again from the
    result with a source file of the same content, changes nothing. *)
Lemma copyFunction_files_twice sf sf' files :
  source sf' = source sf ->
  copyFunction_files sf' (copyFunction_files sf files)
  = copyFunction_files sf files.
Proof.
  intros Hsrc. unfold copyFunction_files.
  rewrite List.filter_app, filter_filter_same. simpl.
  by rewrite app_nil_r, Hsrc.
Qed.

(** In the list [copyFunction] pushes, the file it looks for in a source is
    the one it has just written. *)
Lemma find_in_copyFunction_files sf files :
  List.find isSourceFunctionFile (copyFunction_files sf files)
  = Some (mkFile "Code" SERVER_JS (source sf)).
Proof.
  unfold copyFunction_files.
  induction files as [|f files IH]; simpl; [done|].
  destruct (String.eqb (name f) "Code") eqn:Hname; simpl; [done|].
  unfold isSourceFunctionFile at 1. by rewrite Hname.
Qed.

Lemma updatedFiles_twice sc files :
  updatedFiles sc (updatedFiles sc files) = updatedFiles sc files.
Proof.
  unfold updatedFiles. rewrite map_map. apply map_ext. intros f.
  destruct (isReplaced f) eqn:Hrep; [|by rewrite Hrep].
  unfold isReplaced in *. simpl. by rewrite Hrep.
Qed.

Section Transfer.

Context {World : Type}.
Variable api : Remote World.

(** The requests of [copyFunction] once the source holds a code file. *)
Lemma copyFunction_calls source target s sourceContent w1 sf fetched w2 :
  projects_getContent api source (world s) = (inr sourceContent, w1) ->
  List.find isSourceFunctionFile (default [] sourceContent) = Some sf ->
  projects_getContent api target w1 = (fetched, w2) ->
  calls (snd (copyFunction api source target s))
  = calls s ++
    [ ProjectsGetContent source; ProjectsGetContent target;
      ProjectsUpdateContent target
        (copyFunction_files sf
           (match fetched with inr c => default [] c | inl _ => [] end)) ].
Proof.
  intros Hsrc Hfind Htgt.
  unfold copyFunction, try_catch, bind, request, ret. simpl.
  rewrite Hsrc, Hfind. simpl. rewrite Htgt.
  destruct fetched as [e|c]; simpl;
    destruct (projects_updateContent api target _ w2) as [[e'|[]] w3]; simpl;
    by rewrite <- !app_assoc.
Qed.

(** The requests of [updateScriptContent] once the target is fetched and
    the source holds a code file. *)
Lemma updateScriptContent_calls target sourceFiles s existing w1 sc :
  projects_getContent api target (world s) = (inr (Some existing), w1) ->
  List.find isSourceCodeFile sourceFiles = Some sc ->
  calls (snd (updateScriptContent api target sourceFiles s))
  = calls s ++
    [ ProjectsGetContent target;
      ProjectsUpdateContent target (updatedFiles sc existing) ].
Proof.
  intros Htgt Hfind.
  unfold updateScriptContent, try_catch, bind, request, ret. simpl.
  rewrite Htgt, Hfind. simpl.
  destruct (projects_updateContent api target _ w1) as [[e'|[]] w3]; simpl;
    by rewrite <- !app_assoc.
Qed.

(** C4. Every file fetched from the target whose name is neither [Code]
    nor [Código] and whose type is not [SERVER_JS] is in the file list
    pushed to the target, as it was fetched: by [copyFunction] on the
    server and by [updateScriptContent] in the command-line copier. *)
Theorem transfer_preserves_other_files :
  (forall source target s sourceContent w1 sf existing w2,
     projects_getContent api source (world s) = (inr sourceContent, w1) ->
     List.find isSourceFunctionFile (default [] sourceContent) = Some sf ->
     projects_getContent api target w1 = (inr (Some existing), w2) ->
     exists pushed,
       calls (snd (copyFunction api source target s))
       = calls s ++ [ ProjectsGetContent source; ProjectsGetContent target;
                      ProjectsUpdateContent target pushed ]
       /\ forall f, f ∈ existing ->
                    name f <> "Code" -> name f <> "Código" ->
                    type f <> SERVER_JS -> f ∈ pushed)
  /\ (forall target sourceFiles s existing w1 sc,
        projects_getContent api target (world s) = (inr (Some existing), w1) ->
        List.find isSourceCodeFile sourceFiles = Some sc ->
        exists pushed,
          calls (snd (updateScriptContent api target sourceFiles s))
          = calls s ++ [ ProjectsGetContent target;
                         ProjectsUpdateContent target pushed ]
          /\ forall f, f ∈ existing ->
                       name f <> "Code" -> name f <> "Código" ->
                       type f <> SERVER_JS -> f ∈ pushed).
Proof.
  split.
  - intros source target s sourceContent w1 sf existing w2 Hsrc Hfind Htgt.
    eexists. split.
    + exact (copyFunction_calls _ _ _ _ _ _ _ _ Hsrc Hfind Htgt).
    + intros f Hin Hcode _ _. simpl. by apply copyFunction_files_keeps.
  - intros target sourceFiles s existing w1 sc Htgt Hfind.
    eexists. split.
    + exact (updateScriptContent_calls _ _ _ _ _ _ Htgt Hfind).
    + intros f Hin H1 H2 H3.
      apply updatedFiles_keeps; [done|]. by apply isReplaced_false.
Qed.

End Transfer.

(** On the fixture projects the manifest file and the HTML file of the target
    are pushed back as fetched, by both programs. *)
Lemma transfer_preserves_other_files_witness :
  (exists pushed,
     calls (snd (copyFunction cloud "SRC-0123456789-abcdefghij"
                   "TGT-0123456789-abcdefghij" (start projectsCloud)))
     = [ ProjectsGetContent "SRC-0123456789-abcdefghij";
         ProjectsGetContent "TGT-0123456789-abcdefghij";
         ProjectsUpdateContent "TGT-0123456789-abcdefghij" pushed ]
     /\ mkFile "appsscript" JSON "{}" ∈ pushed
     /\ mkFile "Sidebar" HTML "<p>hello</p>" ∈ pushed)
  /\ (exists pushed,
        calls (snd (updateScriptContent cloud "TGT-0123456789-abcdefghij"
                      helperFirstFiles (start projectsCloud)))
        = [ ProjectsGetContent "TGT-0123456789-abcdefghij";
            ProjectsUpdateContent "TGT-0123456789-abcdefghij" pushed ]
        /\ mkFile "appsscript" JSON "{}" ∈ pushed
        /\ mkFile "Sidebar" HTML "<p>hello</p>" ∈ pushed).
Proof.
  destruct (transfer_preserves_other_files cloud) as [Hserver Hcli].
  split.
  - destruct (Hserver "SRC-0123456789-abcdefghij" "TGT-0123456789-abcdefghij"
                (start projectsCloud) (Some helperFirstFiles) projectsCloud
                (mkFile "Code" SERVER_JS "function main(){}")
                targetFiles0 projectsCloud)
      as (pushed & Hcalls & Hframe); try (vm_compute; reflexivity).
    exists pushed. split; [exact Hcalls|].
    split; apply Hframe; try discriminate;
      apply list_elem_of_In; simpl; auto.
  - destruct (Hcli "TGT-0123456789-abcdefghij" helperFirstFiles
                (start projectsCloud) targetFiles0 projectsCloud
                (mkFile "MyCodeUtils" SERVER_JS "function util(){}"))
      as (pushed & Hcalls & Hframe); try (vm_compute; reflexivity).
    exists pushed. split; [exact Hcalls|].
    split; apply Hframe; try discriminate;
      apply list_elem_of_In; simpl; auto.
Defined.

(** *** Transfers on the in-memory services *)

Lemma copyFunction_cloud_world source target s :
  world (snd (copyFunction cloud source target s))
  = match projects (world s) !! source with
    | Some sourceFiles =>
        match List.find isSourceFunctionFile sourceFiles with
        | Some sf =>
            match projects (world s) !! target with
            | Some existing =>
                withProjects (world s)
                  (<[target := copyFunction_files sf existing]>
                     (projects (world s)))
            | None => world s
            end
        | None => world s
        end
    | None => world s
    end.
Proof.
  unfold copyFunction, try_catch, bind, request, ret, throw. simpl.
  unfold cloud_projects_getContent.
  destruct (projects (world s) !! source) as [sourceFiles|] eqn:Hsrc; [|done].
  simpl.
  destruct (List.find isSourceFunctionFile sourceFiles) as [sf|]; [|done].
  simpl. unfold cloud_projects_updateContent.
  destruct (projects (world s) !! target) as [existing|] eqn:Htgt; simpl.
  - by rewrite Htgt.
  - by rewrite Htgt.
Qed.

Lemma updateScriptContent_cloud_world target sourceFiles s :
  world (snd (updateScriptContent cloud target sourceFiles s))
  = match projects (world s) !! target with
    | Some existing =>
        match List.find isSourceCodeFile sourceFiles with
        | Some sc =>
            withProjects (world s)
              (<[target := updatedFiles sc existing]> (projects (world s)))
        | None => world s
        end
    | None => world s
    end.
Proof.
  unfold updateScriptContent, try_catch, bind, request, ret, throw. simpl.
  unfold cloud_projects_getContent.
  destruct (projects (world s) !! target) as [existing|] eqn:Htgt; [|done].
  simpl.
  destruct (List.find isSourceCodeFile sourceFiles) as [sc|]; [|done].
  simpl. unfold cloud_projects_updateContent. by rewrite Htgt.
Qed.

(** C5. On services that store what is pushed, transferring twice leaves
    every project as transferring once does: [copyFunction] for given source
    and target projects, [updateScriptContent] for a given source content. *)
Theorem transfer_idempotent :
  (forall source target (s : State Cloud),
     let once := snd (copyFunction cloud source target s) in
     world (snd (copyFunction cloud source target once)) = world once)
  /\ (forall target sourceFiles (s : State Cloud),
        let once := snd (updateScriptContent cloud target sourceFiles s) in
        world (snd (updateScriptContent cloud target sourceFiles once))
        = world once).
Proof.
  split.
  - intros source target s once.
    rewrite (copyFunction_cloud_world source target once).
    unfold once. rewrite (copyFunction_cloud_world source target s).
    destruct (projects (world s) !! source) as [sourceFiles|] eqn:Hsrc;
      [|by rewrite Hsrc].
    destruct (List.find isSourceFunctionFile sourceFiles) as [sf|] eqn:Hfind;
      [|by rewrite Hsrc, Hfind].
    destruct (projects (world s) !! target) as [existing|] eqn:Htgt;
      [|by rewrite Hsrc, Hfind, Htgt].
    cbn [withProjects projects].
    rewrite (lookup_insert_eq (projects (world s)) target).
    destruct (decide (source = target)) as [->|Hne].
    + rewrite lookup_insert_eq, find_in_copyFunction_files.
      rewrite copyFunction_files_twice by done.
      unfold withProjects. simpl. by rewrite insert_insert_eq.
    + rewrite lookup_insert_ne by done. rewrite Hsrc, Hfind.
      rewrite copyFunction_files_twice by done.
      unfold withProjects. simpl. by rewrite insert_insert_eq.
  - intros target sourceFiles s once.
    rewrite (updateScriptContent_cloud_world target sourceFiles once).
    unfold once. rewrite (updateScriptContent_cloud_world target sourceFiles s).
    destruct (projects (world s) !! target) as [existing|] eqn:Htgt;
      [|by rewrite Htgt].
    destruct (List.find isSourceCodeFile sourceFiles) as [sc|] eqn:Hfind;
      [|by rewrite Htgt].
    cbn [withProjects projects].
    rewrite lookup_insert_eq, updatedFiles_twice.
    unfold withProjects. simpl. by rewrite insert_insert_eq.
Qed.

(** ** Asset placement *)

Section Placement.

Context {World : Type}.
Variable api : Remote World.
Variable cfg : Config.
Variable tempScriptContent :
  option string -> JsValue -> list Placement -> JsValue -> string.

(** What a successful [readScriptIds] has done. *)
Lemma readScriptIds_inv id s m s1 :
  readScriptIds api cfg id s = (inr m, s1) ->
  (exists values, m = decodeRows (START_ROW cfg) (default [] values))
  /\ calls s1
     = calls s ++ [SpreadsheetsGet id; ValuesGet id (manifestRange cfg)].
Proof.
  unfold readScriptIds, try_catch, bind, request, throw. simpl.
  destruct (spreadsheets_get api id (world s)) as [[e|titles] w1];
    [discriminate|].
  destruct (existsb (String.eqb (SHEET_NAME cfg)) titles); simpl;
    [|discriminate].
  fold (manifestRange cfg).
  destruct (values_get api id (manifestRange cfg) w1) as [[e|values] w2];
    [discriminate|].
  unfold decodeRows.
  destruct (forEachRow (START_ROW cfg) (default [] values) 0 ∅)
    as [m' lines] eqn:Hrows.
  simpl. intros [= <- <-]. simpl. split.
  - exists values. by rewrite Hrows.
  - by rewrite <- app_assoc.
Qed.



End Placement.



(** ** Batch Orchestrator *)

Lemma count_status_app st l1 l2 :
  count_status st (l1 ++ l2) = (count_status st l1 + count_status st l2)%nat.
Proof. unfold count_status. by rewrite List.filter_app, length_app. Qed.

Lemma count_status_total l :
  Forall (fun d => is_Some (detail_status d)) l ->
  (count_status success l + count_status failed l)%nat = length l.
Proof.
  unfold count_status. induction 1 as [|d l [st Hst] _ IH]; [done|].
  simpl.
  destruct (is_status success d) eqn:E1, (is_status failed d) eqn:E2;
    unfold is_status in E1, E2; rewrite Hst in E1, E2;
    destruct st; try discriminate; simpl; lia.
Qed.

Lemma count_status_singleton st d :
  count_status st [d] = if is_status st d then 1%nat else 0%nat.
Proof. unfold count_status. simpl. by destruct (is_status st d). Qed.

Lemma tallies_recorded done id before after :
  tallies done before -> recorded id before after ->
  tallies (done ++ [id]) after /\ total after = total before.
Proof.
  intros (Hids & Hst & Hs & Hf) (d & Hid & Hcase).
  assert (Hsome : is_Some (detail_status d)) by (destruct Hcase as [[-> _]|[-> _]]; by eexists).
  destruct Hcase as [[Hd ->]|[Hd ->]]; (split; [|done]);
    unfold tallies, succeed, fail; cbn [details successful failed_count];
    rewrite !map_app, !count_status_app, !count_status_singleton, Hids;
    unfold is_status; rewrite Hd; simpl; rewrite Hid;
    (split; [done|]);
    (split; [apply Forall_app; split; [done|]; by apply Forall_singleton|]);
    lia.
Qed.

Lemma lift_inr {World A} (r : JsError + A) (a : A) (s : State World) :
  r = inr a -> lift r s = (inr a, s).
Proof. by intros ->. Qed.

Lemma lift_inl {World A} (r : JsError + A) (e : JsError) (s : State World) :
  r = inl e -> lift r s = (inl e, s).
Proof. by intros ->. Qed.

Lemma extractSpreadsheetId_value_string (s : string) :
  extractSpreadsheetId_value (JString s) = inr (extractSpreadsheetId (Some s)).
Proof.
  unfold extractSpreadsheetId_value. cbn [js_truthy].
  destruct (JS.truthy s) eqn:Hs; [done|].
  unfold extractSpreadsheetId. cbn [JS.truthy_opt]. by rewrite Hs.
Qed.

Lemma resolve_to_strings (targets : list string) :
  resolve_to (map JString targets)
    (map (fun t => extractSpreadsheetId (Some t)) targets).
Proof.
  induction targets as [|t targets IH]; constructor; [|done].
  apply extractSpreadsheetId_value_string.
Qed.

Section Orchestrator.

Context {World : Type}.
Variable api : Remote World.
Variable cfg : Config.
Variable tempScriptContent :
  option string -> JsValue -> list Placement -> JsValue -> string.

(** A loop whose body records its target whenever the id of the target
    resolves, records all the targets that resolve, in order. *)
Lemma forTargets_tallies (body : Summary -> JsValue -> M World Summary) :
  (forall summary target id s,
      extractSpreadsheetId_value target = inr id ->
      exists summary' s',
        body summary target s = (inr summary', s')
        /\ recorded id summary summary') ->
  forall targets ids,
    resolve_to targets ids ->
    forall done summary s,
      tallies done summary ->
      exists summary' s',
        forTargets body targets summary s = (inr summary', s')
        /\ tallies (done ++ ids) summary'
        /\ total summary' = total summary.
Proof.
  intros Hbody targets ids Hres.
  induction Hres as [|target id targets ids Hid _ IH];
    intros done summary s Hdone.
  - exists summary, s. by rewrite app_nil_r.
  - destruct (Hbody summary target id s Hid) as (summary1 & s1 & Hrun & Hrec).
    destruct (tallies_recorded _ _ _ _ Hdone Hrec) as [Hdone1 Htotal1].
    destruct (IH (done ++ [id]) summary1 s1 Hdone1)
      as (summary' & s' & Hloop & Hall & Htotal).
    exists summary', s'. cbn [forTargets]. unfold bind. rewrite Hrun.
    split; [exact Hloop|]. rewrite <- app_assoc in Hall.
    split; [exact Hall|congruence].
Qed.

Lemma forTargets_accounts (body : Summary -> JsValue -> M World Summary) :
  (forall summary target id s,
      extractSpreadsheetId_value target = inr id ->
      exists summary' s',
        body summary target s = (inr summary', s')
        /\ recorded id summary summary') ->
  forall targets ids s,
    resolve_to targets ids ->
    exists summary s',
      forTargets body targets (withTotal (length targets)) s
      = (inr summary, s')
      /\ accounts_for ids summary.
Proof.
  intros Hbody targets ids s Hres.
  destruct (forTargets_tallies body Hbody targets ids Hres []
              (withTotal (length targets)) s)
    as (summary & s' & Hrun & (Hids & Hst & Hs & Hf) & Htotal).
  { unfold tallies, withTotal, count_status. simpl. by repeat split. }
  exists summary, s'. split; [exact Hrun|].
  simpl in Hids, Htotal.
  assert (Hlen : length (details summary) = length ids).
  { rewrite <- (length_map detail_spreadsheetId), Hids. apply length_map. }
  pose proof (Forall2_length _ _ _ Hres) as Hlen'.
  split; try done; try congruence.
  rewrite Htotal, Hs, Hf, count_status_total by done. congruence.
Qed.

(** A loop stops at the first target whose id does not resolve, with the
    error of the resolution, whatever follows it. *)
Lemma forTargets_throws (body : Summary -> JsValue -> M World Summary) :
  (forall summary target id s,
      extractSpreadsheetId_value target = inr id ->
      exists summary' s', body summary target s = (inr summary', s')) ->
  (forall summary target e s,
      extractSpreadsheetId_value target = inl e ->
      body summary target s = (inl e, s)) ->
  forall before ids target e after,
    resolve_to before ids ->
    extractSpreadsheetId_value target = inl e ->
    forall summary s,
    exists summary1 s1,
      forTargets body before summary s = (inr summary1, s1)
      /\ forTargets body (before ++ target :: after) summary s = (inl e, s1).
Proof.
  intros Hbody Hthrow before ids target e after Hres He.
  induction Hres as [|t id before ids Hid _ IH]; intros summary s.
  - exists summary, s. split; [done|].
    cbn [app forTargets]. unfold bind. by rewrite (Hthrow _ _ _ _ He).
  - destruct (Hbody summary t id s Hid) as (summary1 & s1 & Hrun).
    destruct (IH summary1 s1) as (summary2 & s2 & Hloop & Hstop).
    exists summary2, s2. cbn [app forTargets]. unfold bind. rewrite Hrun.
    by split.
Qed.

(** A throw of the per-target block of [copyFunctions] is caught and
    recorded as a failed entry; an answer is recorded as a success. *)
Lemma copyFunctionsBody_run scriptIdMap summary target id s :
  extractSpreadsheetId_value target = inr id ->
  copyFunctionsBody api cfg scriptIdMap summary target s
  = match copyFunctionsTry api cfg scriptIdMap id s with
    | (inr result, s') => (inr (succeed summary (FunctionCopied id result)), s')
    | (inl error, s') => (inr (fail summary (Failed id (message error))), s')
    end.
Proof.
  intros Hid. unfold copyFunctionsBody, bind.
  rewrite (lift_inr _ _ _ Hid). unfold try_catch, bind, ret.
  by destruct (copyFunctionsTry api cfg scriptIdMap _ s) as [[e|r] s'].
Qed.

Lemma copyButtonsBody_run master f summary target id s :
  extractSpreadsheetId_value target = inr id ->
  copyButtonsBody api cfg tempScriptContent master f summary target s
  = match copyButtonsTry api cfg tempScriptContent master f id s with
    | (inr result, s') => (inr (succeed summary (ButtonsCopied id result)), s')
    | (inl error, s') => (inr (fail summary (Failed id (message error))), s')
    end.
Proof.
  intros Hid. unfold copyButtonsBody, bind.
  rewrite (lift_inr _ _ _ Hid). unfold try_catch, bind, ret.
  by destruct (copyButtonsTry api cfg tempScriptContent master f _ s)
    as [[e|r] s'].
Qed.

(** A throw of the resolution of the target is not caught. *)
Lemma copyFunctionsBody_throws scriptIdMap summary target e s :
  extractSpreadsheetId_value target = inl e ->
  copyFunctionsBody api cfg scriptIdMap summary target s = (inl e, s).
Proof.
  intros He. unfold copyFunctionsBody, bind. by rewrite (lift_inl _ _ _ He).
Qed.


Lemma copyFunctionsBody_recorded scriptIdMap summary target id s :
  extractSpreadsheetId_value target = inr id ->
  exists summary' s',
    copyFunctionsBody api cfg scriptIdMap summary target s = (inr summary', s')
    /\ recorded id summary summary'.
Proof.
  intros Hid. rewrite (copyFunctionsBody_run _ _ _ _ _ Hid).
  destruct (copyFunctionsTry api cfg scriptIdMap _ s) as [[e|r] s'];
    eexists _, s'; (split; [reflexivity|]).
  - exists (Failed id (message e)).
    split; [done|right; by split].
  - exists (FunctionCopied id r).
    split; [done|left; by split].
Qed.

Lemma copyButtonsBody_recorded master f summary target id s :
  extractSpreadsheetId_value target = inr id ->
  exists summary' s',
    copyButtonsBody api cfg tempScriptContent master f summary target s
    = (inr summary', s')
    /\ recorded id summary summary'.
Proof.
  intros Hid. rewrite (copyButtonsBody_run _ _ _ _ _ _ Hid).
  destruct (copyButtonsTry api cfg tempScriptContent master f _ s)
    as [[e|r] s'];
    eexists _, s'; (split; [reflexivity|]).
  - exists (Failed id (message e)).
    split; [done|right; by split].
  - exists (ButtonsCopied id r).
    split; [done|left; by split].
Qed.

(** The loop of [main]: the two counters add up to the number of targets,
    whatever throws. *)
Lemma mainBody_run sourceFiles successCount failCount target s :
  exists counts s',
    mainBody api sourceFiles (successCount, failCount) target s
    = (inr counts, s')
    /\ (fst counts + snd counts = S (successCount + failCount))%nat.
Proof.
  unfold mainBody, try_catch, bind, ret.
  destruct (mainTry api sourceFiles target s) as [[e|[]] s'];
    eexists _, s'; (split; [reflexivity|simpl; lia]).
Qed.

Lemma mainLoop_run sourceFiles targets : forall counts s,
  exists counts' s',
    mainLoop api sourceFiles targets counts s = (inr counts', s')
    /\ (fst counts' + snd counts'
        = fst counts + snd counts + length targets)%nat.
Proof.
  induction targets as [|target targets IH]; intros [sc fc] s.
  - exists (sc, fc), s. split; [done|simpl; lia].
  - destruct (mainBody_run sourceFiles sc fc target s)
      as (counts1 & s1 & Hrun & Hsum).
    destruct (IH counts1 s1) as (counts' & s' & Hloop & Hsum').
    exists counts', s'. cbn [mainLoop]. unfold bind. rewrite Hrun.
    split; [exact Hloop|]. simpl in *. lia.
Qed.

End Orchestrator.

Section Containment.

Context {World : Type}.
Variable api : Remote World.
Variable cfg : Config.
Variable tempScriptContent :
  option string -> JsValue -> list Placement -> JsValue -> string.

(** [main] never throws, and the summary it prints adds up. *)
Lemma main_run s :
  exists outcome s',
    main api cfg s = (inr outcome, s')
    /\ forall t sc fc, outcome = Printed t sc fc -> t = (sc + fc)%nat.
Proof.
  unfold main, try_catch.
  match goal with
  | |- context [match ?m s with _ => _ end] =>
      destruct (m s) as [[e|outcome] s'] eqn:Hrun
  end.
  { eexists _, s'. split; [reflexivity|]. intros; discriminate. }
  exists outcome, s'. split; [reflexivity|].
  intros t sc fc ->. revert Hrun. unfold bind, ret, throw.
  destruct (negb (JS.truthy_opt (SOURCE_SPREADSHEET_ID cfg))); [discriminate|].
  destruct (readSheetIds api cfg s) as [[e|targets] s1]; [discriminate|].
  destruct (length targets =? 0)%nat; [discriminate|].
  match goal with
  | |- context [match ?m s1 with _ => _ end] =>
      destruct (m s1) as [[e|sid] s2]; [discriminate|]
  end.
  destruct (negb (JS.truthy_opt sid)); [discriminate|].
  destruct (getScriptContent api (default "" sid) s2)
    as [[e|[sourceFiles|]] s3]; [discriminate| |discriminate].
  destruct (mainLoop_run api sourceFiles targets (0, 0)%nat s3)
    as (counts & s4 & -> & Hsum).
  intros [= <- <- <- _]. simpl in Hsum. lia.
Qed.

(** X29. Once the manifest is read, and when the ids of the source sheets
    and of the targets resolve (as they do for every string and every falsy
    value), the handler answers 200 with, for each enabled operation, a
    summary of exactly one entry per target, in input order, each with a
    status, whose [total] is the number of targets and the sum of
    [successful] and [failed]: a throw of the per-target block is caught
    and recorded as the failed entry of that target, and the loop goes on.
    In the command-line copier the loop ends for every list of targets
    with counters that add up to their number, and [main] never throws. *)
Theorem batch_containment :
  (forall f s functionIds buttonIds,
     (f_functionsEnable f = "true" ->
      resolve_to (f_functionsTargetSheets f) functionIds
      /\ exists id m s1,
           extractSpreadsheetId_value (f_functionsSourceSheet f) = inr id
           /\ readScriptIds api cfg id s = (inr m, s1)) ->
     (f_buttonsEnable f = "true" ->
      resolve_to (f_buttonsTargetSheets f) buttonIds
      /\ exists id,
           extractSpreadsheetId_value (f_buttonsSourceSheet f) = inr id) ->
     exists resp s',
       post api cfg tempScriptContent f s = (inr (200%Z, resp), s')
       /\ (f_functionsEnable f = "true" ->
           accounts_for functionIds (copyFunctions resp))
       /\ (f_buttonsEnable f = "true" ->
           accounts_for buttonIds (copyButtons resp)))
  /\ (forall scriptIdMap summary target id s e s',
        extractSpreadsheetId_value target = inr id ->
        copyFunctionsTry api cfg scriptIdMap id s = (inl e, s') ->
        copyFunctionsBody api cfg scriptIdMap summary target s
        = (inr (fail summary (Failed id (message e))), s'))
  /\ (forall master f summary target id s e s',
        extractSpreadsheetId_value target = inr id ->
        copyButtonsTry api cfg tempScriptContent master f id s = (inl e, s') ->
        copyButtonsBody api cfg tempScriptContent master f summary target s
        = (inr (fail summary (Failed id (message e))), s'))
  /\ (forall sourceFiles targets s,
        exists successCount failCount s',
          mainLoop api sourceFiles targets (0, 0)%nat s
          = (inr (successCount, failCount), s')
          /\ (successCount + failCount)%nat = length targets)
  /\ (forall s,
        exists outcome s',
          main api cfg s = (inr outcome, s')
          /\ forall t sc fc,
               outcome = Printed t sc fc -> t = (sc + fc)%nat).
Proof.
  split; [|split; [|split; [|split]]].
  - intros f s functionIds buttonIds Hfunctions Hbuttons.
    assert (Hloop : forall s2,
               exists buttons s3,
                 processCopyButtons api cfg tempScriptContent f s2
                 = (inr buttons, s3)
                 /\ (f_buttonsEnable f = "true" ->
                     accounts_for buttonIds buttons)).
    { intros s2. unfold processCopyButtons.
      destruct (String.eqb (f_buttonsEnable f) "true") eqn:Hbut.
      - apply String.eqb_eq in Hbut.
        destruct (Hbuttons Hbut) as (Hres & id & Hid).
        unfold bind. rewrite (lift_inr _ _ _ Hid).
        destruct (forTargets_accounts _
                    (copyButtonsBody_recorded api cfg tempScriptContent id f)
                    (f_buttonsTargetSheets f) buttonIds s2 Hres)
          as (buttons & s3 & -> & Hacc).
        by exists buttons, s3.
      - apply String.eqb_neq in Hbut. eexists _, s2. by split. }
    unfold post, bind, processCopyFunctions.
    destruct (String.eqb (f_functionsEnable f) "true") eqn:Hfun.
    + apply String.eqb_eq in Hfun.
      destruct (Hfunctions Hfun) as (Hres & id & m & s1 & Hid & Hrun).
      unfold bind. rewrite (lift_inr _ _ _ Hid).
      unfold try_catch, bind, ret. rewrite Hrun.
      destruct (forTargets_accounts (copyFunctionsBody api cfg m)
                  (copyFunctionsBody_recorded api cfg m)
                  (f_functionsTargetSheets f) functionIds s1 Hres)
        as (summary & s2 & -> & Hacc).
      destruct (Hloop s2) as (buttons & s3 & -> & Hacc').
      by eexists _, s3.
    + apply String.eqb_neq in Hfun. unfold ret.
      destruct (Hloop s) as (buttons & s3 & -> & Hacc').
      eexists _, s3. by split.
  - intros scriptIdMap summary target id s e s' Hid Hthrow.
    rewrite (copyFunctionsBody_run _ _ _ _ _ _ _ Hid). by rewrite Hthrow.
  - intros master f summary target id s e s' Hid Hthrow.
    rewrite (copyButtonsBody_run _ _ _ _ _ _ _ _ _ Hid). by rewrite Hthrow.
  - intros sourceFiles targets s.
    destruct (mainLoop_run api sourceFiles targets (0, 0)%nat s)
      as ([sc fc] & s' & Hrun & Hsum).
    exists sc, fc, s'. split; [exact Hrun|]. simpl in Hsum. lia.
  - apply main_run.
Qed.

(** A loop of the handler throws exactly when one of its targets does not
    resolve; it has then processed the targets before the first such
    target, and none after it. *)
Lemma copyFunctions_stops_at_unresolved scriptIdMap before ids target e after :
  resolve_to before ids ->
  extractSpreadsheetId_value target = inl e ->
  forall summary s,
  exists summary1 s1,
    forTargets (copyFunctionsBody api cfg scriptIdMap) before summary s
    = (inr summary1, s1)
    /\ forTargets (copyFunctionsBody api cfg scriptIdMap)
         (before ++ target :: after) summary s
       = (inl e, s1).
Proof.
  intros Hres He. eapply forTargets_throws; eauto.
  - intros summary t id s Hid.
    destruct (copyFunctionsBody_recorded api cfg scriptIdMap summary t id s Hid)
      as (summary' & s' & Hrun & _).
    by exists summary', s'.
  - intros summary t e' s. apply copyFunctionsBody_throws.
Qed.

End Containment.

(** Three targets, the second of which throws during its transfer: the
    answer is 200, the summary accounts for the three targets and marks the
    second alone as failed; the command-line copier prints 3, 2 and 1. *)
Lemma batch_containment_witness :
  (exists resp s',
     post cloud serverConfig noScript (fields_of_request batchRequest)
       (start batchCloud)
     = (inr (200%Z, resp), s')
     /\ accounts_for [Some "T1"; Some "T2"; Some "T3"] (copyFunctions resp)
     /\ map detail_status (details (copyFunctions resp))
        = [Some success; Some failed; Some success]
     /\ map detail_spreadsheetId (details (copyFunctions resp))
        = [Some (Some "T1"); Some (Some "T2"); Some (Some "T3")])
  /\ fst (main cloud cliConfig (start batchCloud)) = inr (Printed 3 2 1).
Proof.
  destruct (batch_containment cloud serverConfig noScript) as (Hpost & _).
  split; [|vm_compute; reflexivity].
  destruct (Hpost (fields_of_request batchRequest) (start batchCloud)
              [Some "T1"; Some "T2"; Some "T3"] [])
    as (resp & s' & Hrun & Hfunctions & _).
  - intros _. split.
    + repeat constructor.
    + exists (Some "MASTER").
      match goal with
      | |- exists m s1, _ /\ ?run = _ => remember run as r eqn:E
      end.
      vm_compute in E. subst r. eexists _, _. split; reflexivity.
  - intros H. vm_compute in H. discriminate.
  - exists resp, s'. split; [exact Hrun|].
    split; [apply Hfunctions; reflexivity|].
    vm_compute in Hrun. injection Hrun as <- <-.
    split; vm_compute; reflexivity.
Defined.

(** C1.  The handler does not contain the failure of a target that is not
    a string.  The payload
    [{copyFunctions: {enable: 'true', sourceSheet: 'MASTER',
                      targetSheets: ['T1', 7, 'T3']}}]
    passes the validation, which asks of [targetSheets] only to be an
    array.  The handler copies the code to the script of [T1]; then
    [extractSpreadsheetId(7)], called before the [try] of the loop, throws
    [input.includes is not a function]: the handler throws, no answer is
    built, no entry is recorded for the second target and [T3] is never
    processed. *)
Theorem batch_aborted_by_non_string_target :
  validatePayload numberTargetPayload = inr numberTargetFields
  /\ extractSpreadsheetId_value (JNumber seven)
     = inl (Error "input.includes is not a function")
  /\ exists s',
       post cloud serverConfig noScript numberTargetFields (start batchCloud)
       = (inl (Error "input.includes is not a function"), s')
       /\ calls s'
          = [ SpreadsheetsGet (Some "MASTER");
              ValuesGet (Some "MASTER") "TVDE Users!D2:G";
              ProjectsGetContent "SRC-0123456789-abcdefghij";
              ProjectsGetContent "TGT-1-0123456789-abcdefghij";
              ProjectsUpdateContent "TGT-1-0123456789-abcdefghij"
                [ mkFile "appsscript" JSON "{}";
                  mkFile "Sidebar" HTML "<p>hello</p>";
                  mkFile "Code" SERVER_JS "function main(){}" ] ].
Proof.
  split; [vm_compute; reflexivity|]. split; [vm_compute; reflexivity|].
  remember (post cloud serverConfig noScript numberTargetFields
              (start batchCloud)) as r eqn:E.
  vm_compute in E. subst r. eexists. split; reflexivity.
Qed.

(** ** Checks of the model on small inputs *)

Example extractSpreadsheetId_examples :
  extractSpreadsheetId None = None
  /\ extractSpreadsheetId (Some "") = None
  /\ extractSpreadsheetId (Some "  ABC123 ") = Some "ABC123"
  /\ extractSpreadsheetId (Some "https://example.org/d/x-Y_9?usp=sharing")
     = Some "x-Y_9"
  /\ extractSpreadsheetId (Some "https://example.org/") = Some "https://example.org/".
Proof. repeat split; vm_compute; reflexivity. Qed.

Example parseInt_examples :
  map JS.parseInt ["12"; " -0x1f"; "x"; "3abc"; ""; "-"; "+7"; "1.5"]
  = [Some 12; Some (-31); None; Some 3; None; None; Some 7; Some 1]%Z.
Proof. vm_compute. reflexivity. Qed.

Example split_trim_examples :
  JS.split_comma "a,,b," = ["a"; ""; "b"; ""]
  /\ JS.split_comma "" = [""]
  /\ cell_list (Some " img1 , ,img2 ") = ["img1"; "img2"]
  /\ JS.length "Código" = 6%nat.
Proof. repeat split; vm_compute; reflexivity. Qed.

(** One transfer on the fixture: the server replaces the file [Code] of the
    target by the source's and keeps the other two files. *)
Example copyFunction_example :
  projects (world (snd (copyFunction cloud "SRC-0123456789-abcdefghij"
                          "TGT-0123456789-abcdefghij" (start projectsCloud))))
    !! "TGT-0123456789-abcdefghij"
  = Some [ mkFile "appsscript" JSON "{}";
           mkFile "Sidebar" HTML "<p>hello</p>";
           mkFile "Code" SERVER_JS "function main(){}" ].
Proof. vm_compute. reflexivity. Qed.

(** * Further properties *)

(** ** Strings *)

Lemma chars_append s1 s2 : JS.chars (s1 +:+ s2) = JS.chars s1 ++ JS.chars s2.
Proof.
  unfold JS.chars. induction s1 as [|c s1 IH]; simpl; [done|]. by rewrite IH.
Qed.

Lemma str_chars s : JS.str (JS.chars s) = s.
Proof. apply string_of_list_ascii_of_string. Qed.

Lemma chars_str l : JS.chars (JS.str l) = l.
Proof. apply list_ascii_of_string_of_list_ascii. Qed.

Lemma strip_prefix_app lit l : JS.strip_prefix lit (lit ++ l) = Some l.
Proof.
  induction lit as [|c lit IH]; simpl; [by destruct l|].
  unfold JS.ascii_eqb. by rewrite Ascii.eqb_refl.
Qed.

Lemma strip_prefix_Some lit l rest :
  JS.strip_prefix lit l = Some rest -> l = lit ++ rest.
Proof.
  revert l. induction lit as [|c lit IH]; intros l; simpl.
  - destruct l; by intros [= ->].
  - destruct l as [|b l]; [done|]. unfold JS.ascii_eqb.
    destruct (Ascii.eqb c b) eqn:Hcb; [|done].
    apply Ascii.eqb_eq in Hcb as ->. intros H. by rewrite (IH l H).
Qed.

Lemma take_while_all (p : ascii -> bool) l rest :
  forallb p l = true ->
  match rest with [] => True | c :: _ => p c = false end ->
  JS.take_while p (l ++ rest) = l.
Proof.
  intros Hall Hrest. induction l as [|c l IH]; simpl in *.
  - destruct rest as [|c rest]; [done|]. simpl. by rewrite Hrest.
  - apply andb_prop in Hall as [Hc Hl]. by rewrite Hc, IH.
Qed.

Lemma take_while_forallb (p : ascii -> bool) l :
  forallb p (JS.take_while p l) = true.
Proof.
  induction l as [|c l IH]; simpl; [done|].
  destruct (p c) eqn:Hc; simpl; [by rewrite Hc|done].
Qed.

(** The capture of a match is a non-empty run of identifier characters that
    follows an occurrence of the literal. *)
Lemma match_capture_Some lit l run :
  JS.match_capture lit l = Some run ->
  run <> [] /\ forallb JS.isIdChar run = true
  /\ exists pre post, l = pre ++ lit ++ run ++ post.
Proof.
  induction l as [|c l IH]; cbn [JS.match_capture].
  - destruct (JS.strip_prefix lit []) as [rest|] eqn:Hstrip; [|done].
    destruct (JS.take_while JS.isIdChar rest) as [|r run'] eqn:Htake; [done|].
    intros [= <-]. split; [done|]. split.
    + rewrite <- Htake. apply take_while_forallb.
    + apply strip_prefix_Some in Hstrip. destruct lit; [|done].
      simpl in Hstrip. subst rest. done.
  - destruct (JS.strip_prefix lit (c :: l)) as [rest|] eqn:Hstrip.
    + destruct (JS.take_while JS.isIdChar rest) as [|r run'] eqn:Htake.
      * intros H. destruct (IH H) as (Hne & Hall & pre & post & ->).
        split; [done|]. split; [done|]. by exists (c :: pre), post.
      * intros [= <-]. split; [done|]. split.
        -- rewrite <- Htake. apply take_while_forallb.
        -- apply strip_prefix_Some in Hstrip. rewrite Hstrip.
           exists []. simpl.
           assert (Hsplit : exists post, rest = (r :: run') ++ post).
           { rewrite <- Htake. clear. induction rest as [|a rest IH]; simpl.
             - by exists [].
             - destruct (JS.isIdChar a).
               + destruct IH as [post Hpost]. exists post. simpl.
                 by rewrite <- Hpost.
               + by exists (a :: rest). }
           destruct Hsplit as [post ->]. by exists post.
    + intros H. destruct (IH H) as (Hne & Hall & pre & post & ->).
      split; [done|]. split; [done|]. by exists (c :: pre), post.
Qed.

Lemma match_capture_here lit l rest run :
  JS.strip_prefix lit l = Some rest ->
  JS.take_while JS.isIdChar rest = run -> run <> [] ->
  JS.match_capture lit l = Some run.
Proof.
  intros Hstrip Htake Hne.
  destruct l; cbn [JS.match_capture]; rewrite Hstrip, Htake;
    by destruct run.
Qed.

Lemma match_capture_skip lit c l :
  JS.strip_prefix lit (c :: l) = None ->
  JS.match_capture lit (c :: l) = JS.match_capture lit l.
Proof. intros H. cbn [JS.match_capture]. by rewrite H. Qed.

Lemma includes_chars_single c l :
  JS.includes_chars l [c] = true <-> In c l.
Proof.
  induction l as [|b l IH]; cbn -[In].
  - split; [done|]. by intros [].
  - unfold JS.starts_with. cbn [JS.strip_prefix]. unfold JS.ascii_eqb.
    destruct (Ascii.eqb c b) eqn:Hcb.
    + apply Ascii.eqb_eq in Hcb as ->. split; [by left|done].
    + fold (JS.starts_with [c] l) in *. rewrite IH. split; [by right|].
      intros [->|H]; [|done]. by rewrite Ascii.eqb_refl in Hcb.
Qed.

(** No white-space character starts, or ends, with an identifier
    character. *)
Lemma ws_len_idChar c l :
  JS.isIdChar c = true ->
  JS.ws_len JS.whiteSpace (c :: l) = 0%nat
  /\ JS.ws_len (map (@rev ascii) JS.whiteSpace) (c :: l) = 0%nat.
Proof.
  destruct c as [[] [] [] [] [] [] [] []]; intros H;
    try discriminate H; split; vm_compute; reflexivity.
Qed.

Lemma strip_ws_idChar fuel c l :
  JS.isIdChar c = true ->
  JS.strip_ws fuel JS.whiteSpace (c :: l) = c :: l
  /\ JS.strip_ws fuel (map (@rev ascii) JS.whiteSpace) (c :: l) = c :: l.
Proof.
  intros H. destruct (ws_len_idChar c l H) as [H1 H2].
  destruct fuel; [done|]. cbn [JS.strip_ws]. by rewrite H1, H2.
Qed.

(** [trim] leaves a string of identifier characters as it is. *)
Lemma trim_identifier s :
  forallb JS.isIdChar (JS.chars s) = true -> JS.trim s = s.
Proof.
  intros Hall. unfold JS.trim, JS.trimEnd_chars, JS.trimStart_chars.
  assert (Hstart : JS.strip_ws (length (JS.chars s)) JS.whiteSpace (JS.chars s)
                   = JS.chars s).
  { destruct (JS.chars s) as [|c l]; [done|]. simpl in Hall.
    apply andb_prop in Hall as [Hc _]. by apply strip_ws_idChar. }
  rewrite Hstart.
  assert (Hrev : forallb JS.isIdChar (rev (JS.chars s)) = true).
  { apply forallb_forall. intros c Hc. apply in_rev in Hc.
    by apply (proj1 (forallb_forall _ _) Hall). }
  destruct (rev (JS.chars s)) as [|c l] eqn:Hr.
  - apply (f_equal (@rev ascii)) in Hr. rewrite rev_involutive in Hr.
    simpl in Hr. rewrite <- (str_chars s) at 2. rewrite Hr.
    by destruct (length []).
  - simpl in Hrev. apply andb_prop in Hrev as [Hc _].
    rewrite (proj2 (strip_ws_idChar _ c l Hc)), <- Hr, rev_involutive.
    apply str_chars.
Qed.

(** Without a slash no pattern matches. *)
Lemma first_match_needs_slash s :
  JS.includes s "/" = false -> first_match patterns s = None.
Proof.
  intros Hno.
  assert (Hnot : ~ In "/"%char (JS.chars s)).
  { intros Hin. apply (includes_chars_single "/"%char) in Hin.
    unfold JS.includes in Hno. change (JS.chars "/") with ["/"%char] in Hno.
    congruence. }
  assert (Hnone : forall lit, In "/"%char lit ->
                              JS.match_capture lit (JS.chars s) = None).
  { intros lit Hlit.
    destruct (JS.match_capture lit (JS.chars s)) as [run|] eqn:Hm; [|done].
    destruct (match_capture_Some _ _ _ Hm) as (_ & _ & pre & post & Heq).
    exfalso. apply Hnot. rewrite Heq. apply in_or_app. right.
    apply in_or_app. by left. }
  unfold patterns. cbn [first_match].
  rewrite !Hnone; [done| | |]; vm_compute; tauto.
Qed.

(** An input without a slash resolves to itself, trimmed, whether or not it
    contains [http]. *)
Lemma extractSpreadsheetId_no_slash s :
  s <> "" -> JS.includes s "/" = false ->
  extractSpreadsheetId (Some s) = Some (JS.trim s).
Proof.
  intros Hne Hno. unfold extractSpreadsheetId.
  destruct s as [|c s]; [done|]. cbn [JS.truthy negb].
  rewrite Hno, first_match_needs_slash by done.
  by destruct (negb (JS.includes (String c s) "http")).
Qed.

(** X1. For every non-empty id made of the characters [A-Za-z0-9_-], the
    full URL, the path fragment and the bare id all resolve to the id,
    whatever follows the id in the URL (nothing, or text that starts with
    another character). *)
Theorem extractSpreadsheetId_documented_forms (id rest : string) :
  id <> "" ->
  forallb JS.isIdChar (JS.chars id) = true ->
  match JS.chars rest with [] => True | c :: _ => JS.isIdChar c = false end ->
  extractSpreadsheetId
    (Some ("https://docs.google.com/spreadsheets/d/" +:+ id +:+ rest))
  = Some id
  /\ extractSpreadsheetId (Some ("/spreadsheets/d/" +:+ id +:+ rest)) = Some id
  /\ extractSpreadsheetId (Some id) = Some id.
Proof.
  intros Hne Hall Hrest.
  assert (Hrun : JS.chars id <> []).
  { intros H. apply Hne. by rewrite <- (str_chars id), H. }
  assert (Hhere : JS.match_capture (JS.chars "/spreadsheets/d/")
                    (JS.chars "/spreadsheets/d/" ++ JS.chars id ++ JS.chars rest)
                  = Some (JS.chars id)).
  { eapply match_capture_here; [apply strip_prefix_app| |done].
    by apply take_while_all. }
  split; [|split].
  - unfold extractSpreadsheetId.
    change ("https://docs.google.com/spreadsheets/d/" +:+ id +:+ rest)
      with ("https://docs.google.com" +:+ "/spreadsheets/d/" +:+ id +:+ rest).
    assert (Hinc : JS.includes
                     ("https://docs.google.com" +:+ "/spreadsheets/d/" +:+ id +:+ rest)
                     "/" = true).
    { unfold JS.includes. change (JS.chars "/") with ["/"%char].
      apply includes_chars_single. rewrite chars_append.
      apply in_or_app. left. vm_compute. tauto. }
    rewrite Hinc. cbn [JS.truthy String.append negb andb].
    unfold patterns. cbn [first_match].
    rewrite !chars_append.
    remember (JS.chars "/spreadsheets/d/" ++ JS.chars id ++ JS.chars rest)
      as tail eqn:Htail.
    set (lit := JS.chars "/spreadsheets/d/") in *.
    cbn [JS.chars list_ascii_of_string app].
    repeat rewrite match_capture_skip by reflexivity.
    subst tail. rewrite Hhere. by rewrite str_chars.
  - unfold extractSpreadsheetId.
    assert (Hinc : JS.includes ("/spreadsheets/d/" +:+ id +:+ rest) "/" = true)
      by reflexivity.
    rewrite Hinc. cbn [JS.truthy String.append negb andb].
    unfold patterns. cbn [first_match].
    change (String "/" ("spreadsheets/d/" +:+ id +:+ rest))
      with ("/spreadsheets/d/" +:+ id +:+ rest).
    rewrite !chars_append, Hhere. by rewrite str_chars.
  - assert (Hno : JS.includes id "/" = false).
    { destruct (JS.includes id "/") eqn:Hinc; [|done].
      unfold JS.includes in Hinc. change (JS.chars "/") with ["/"%char] in Hinc.
      apply includes_chars_single in Hinc.
      apply (proj1 (forallb_forall _ _) Hall) in Hinc. discriminate Hinc. }
    rewrite extractSpreadsheetId_no_slash by done.
    by rewrite trim_identifier.
Qed.

Lemma extractSpreadsheetId_documented_forms_witness :
  extractSpreadsheetId
    (Some "https://docs.google.com/spreadsheets/d/1aB-_9/edit#gid=0")
  = Some "1aB-_9"
  /\ extractSpreadsheetId (Some "/spreadsheets/d/1aB-_9/edit#gid=0")
     = Some "1aB-_9"
  /\ extractSpreadsheetId (Some "1aB-_9") = Some "1aB-_9".
Proof.
  apply (extractSpreadsheetId_documented_forms "1aB-_9" "/edit#gid=0").
  - discriminate.
  - vm_compute. reflexivity.
  - vm_compute. reflexivity.
Defined.

Lemma take_while_split (p : ascii -> bool) l :
  exists post,
    l = JS.take_while p l ++ post
    /\ match post with [] => True | c :: _ => p c = false end.
Proof.
  induction l as [|a l (post & Heq & Hpost)]; simpl.
  - by exists [].
  - destruct (p a) eqn:Ha.
    + exists post. split; [simpl; by rewrite <- Heq|done].
    + by exists (a :: l).
Qed.

(** What [match_capture] answers: the capture is the longest run of
    identifier characters, not empty, that follows the leftmost occurrence
    of the literal which an identifier character follows. *)
Lemma match_capture_leftmost lit l run :
  JS.match_capture lit l = Some run ->
  exists pre post,
    l = pre ++ lit ++ run ++ post
    /\ run <> [] /\ forallb JS.isIdChar run = true
    /\ match post with [] => True | c :: _ => JS.isIdChar c = false end
    /\ forall pre' rest',
         l = pre' ++ lit ++ rest' -> (length pre' < length pre)%nat ->
         JS.take_while JS.isIdChar rest' = [].
Proof.
  assert (Hhere : forall l rest,
             JS.strip_prefix lit l = Some rest ->
             JS.take_while JS.isIdChar rest = run -> run <> [] ->
             exists pre post,
               l = pre ++ lit ++ run ++ post
               /\ run <> [] /\ forallb JS.isIdChar run = true
               /\ match post with
                  | [] => True
                  | c :: _ => JS.isIdChar c = false
                  end
               /\ forall pre' rest',
                    l = pre' ++ lit ++ rest' ->
                    (length pre' < length pre)%nat ->
                    JS.take_while JS.isIdChar rest' = []).
  { intros l0 rest Hstrip Htake Hne.
    apply strip_prefix_Some in Hstrip.
    destruct (take_while_split JS.isIdChar rest) as (post & Hrest & Hpost).
    rewrite Htake in Hrest.
    exists [], post. split; [by rewrite Hstrip, Hrest|].
    split; [done|]. split; [rewrite <- Htake; apply take_while_forallb|].
    split; [done|]. intros pre' rest' _ Hlt. simpl in Hlt. lia. }
  induction l as [|c l IH]; cbn [JS.match_capture].
  - destruct (JS.strip_prefix lit []) as [rest|] eqn:Hstrip; [|done].
    destruct (JS.take_while JS.isIdChar rest) as [|r run'] eqn:Htake; [done|].
    intros [= <-]. by eapply Hhere.
  - destruct (JS.strip_prefix lit (c :: l)) as [rest|] eqn:Hstrip.
    + destruct (JS.take_while JS.isIdChar rest) as [|r run'] eqn:Htake.
      * intros H.
        destruct (IH H) as (pre & post & -> & Hne & Hall & Hpost & Hleft).
        exists (c :: pre), post. split; [done|]. split; [done|].
        split; [done|]. split; [done|].
        intros pre' rest' Heq Hlt. destruct pre' as [|c' pre'].
        -- simpl in Heq. rewrite Heq, strip_prefix_app in Hstrip.
           by injection Hstrip as ->.
        -- injection Heq as -> Heq. apply (Hleft pre' rest' Heq).
           simpl in Hlt. lia.
      * intros [= <-]. by eapply Hhere.
    + intros H.
      destruct (IH H) as (pre & post & -> & Hne & Hall & Hpost & Hleft).
      exists (c :: pre), post. split; [done|]. split; [done|].
      split; [done|]. split; [done|].
      intros pre' rest' Heq Hlt. destruct pre' as [|c' pre'].
      * simpl in Heq. rewrite Heq, strip_prefix_app in Hstrip. done.
      * injection Heq as -> Heq. apply (Hleft pre' rest' Heq).
        simpl in Hlt. lia.
Qed.

(** The loop over the patterns answers the capture of the first pattern
    that matches. *)
Lemma first_match_Some pats input r :
  first_match pats input = Some r ->
  exists before lit after run,
    pats = before ++ lit :: after
    /\ Forall (fun p => JS.match_capture (JS.chars p) (JS.chars input) = None)
         before
    /\ JS.match_capture (JS.chars lit) (JS.chars input) = Some run
    /\ r = JS.str run.
Proof.
  induction pats as [|p pats IH]; cbn [first_match]; [done|].
  destruct (JS.match_capture (JS.chars p) (JS.chars input)) as [run|] eqn:Hcap.
  - intros [= <-]. by exists [], p, pats, run.
  - intros H. destruct (IH H) as (before & lit & after & run & -> & Hno & Hm & ->).
    exists (p :: before), lit, after, run.
    split; [done|]. split; [by constructor|done].
Qed.

Lemma first_match_None pats input :
  first_match pats input = None ->
  Forall (fun p => JS.match_capture (JS.chars p) (JS.chars input) = None) pats.
Proof.
  induction pats as [|p pats IH]; cbn [first_match]; [constructor|].
  destruct (JS.match_capture (JS.chars p) (JS.chars input)) eqn:Hcap; [done|].
  intros H. constructor; [done|by apply IH].
Qed.

(** X2. For a non-empty input the resolver never answers [null].  When no
    pattern matches the input, it answers the trimmed input.  Otherwise the
    input has a slash and the answer is the capture of the first pattern,
    in the order of the list, that matches: the input is some text, the
    literal of the pattern, the answer and a rest, where the answer is a
    non-empty run of identifier characters that the rest does not extend,
    and no earlier occurrence of the literal in the input is followed by an
    identifier character. *)
Theorem extractSpreadsheetId_result (s : string) :
  s <> "" ->
  exists r,
    extractSpreadsheetId (Some s) = Some r
    /\ ((r = JS.trim s
         /\ Forall (fun p =>
                      JS.match_capture (JS.chars p) (JS.chars s) = None)
              patterns)
        \/ (JS.includes s "/" = true
            /\ exists before lit after pre post,
                 patterns = before ++ lit :: after
                 /\ Forall (fun p =>
                              JS.match_capture (JS.chars p) (JS.chars s) = None)
                      before
                 /\ JS.chars s = pre ++ JS.chars lit ++ JS.chars r ++ post
                 /\ r <> ""
                 /\ forallb JS.isIdChar (JS.chars r) = true
                 /\ match post with
                    | [] => True
                    | c :: _ => JS.isIdChar c = false
                    end
                 /\ forall pre' rest',
                      JS.chars s = pre' ++ JS.chars lit ++ rest' ->
                      (length pre' < length pre)%nat ->
                      JS.take_while JS.isIdChar rest' = [])).
Proof.
  intros Hne. unfold extractSpreadsheetId.
  destruct s as [|c s]; [done|]. cbn [JS.truthy negb].
  set (input := String c s).
  destruct (JS.includes input "/") eqn:Hslash.
  2:{ pose proof (first_match_needs_slash input Hslash) as Hnone.
      rewrite Hnone.
      exists (JS.trim input). split; [by destruct (negb (JS.includes input "http"))|].
      left. split; [done|]. by apply first_match_None. }
  cbn [negb andb].
  destruct (first_match patterns input) as [id|] eqn:Hmatch.
  2:{ exists (JS.trim input). split; [done|]. left. split; [done|].
      by apply first_match_None. }
  exists id. split; [done|]. right. split; [done|].
  destruct (first_match_Some _ _ _ Hmatch)
    as (before & lit & after & run & Hpats & Hno & Hcap & ->).
  destruct (match_capture_leftmost _ _ _ Hcap)
    as (pre & post & Heq & Hrun & Hall & Hpost & Hleft).
  exists before, lit, after, pre, post. rewrite chars_str.
  split; [done|]. split; [done|]. split; [done|].
  split; [by destruct run|]. done.
Qed.

Lemma extractSpreadsheetId_result_witness :
  exists r,
    extractSpreadsheetId (Some "https://example.org/d/x-Y_9?usp=sharing")
    = Some r
    /\ r = "x-Y_9".
Proof.
  destruct (extractSpreadsheetId_result
              "https://example.org/d/x-Y_9?usp=sharing")
    as (r & Hrun & _); [discriminate|].
  exists r. split; [exact Hrun|].
  vm_compute in Hrun. by injection Hrun as <-.
Defined.

(** ** Manifest Reader, further *)

Lemma filter_Forall_true {A} (f : A -> bool) (l : list A) :
  Forall (fun x => f x = true) (List.filter f l).
Proof.
  induction l as [|a l IH]; simpl; [constructor|].
  destruct (f a) eqn:Hfa; [by constructor|done].
Qed.

Lemma cell_list_truthy cell :
  Forall (fun x => JS.truthy x = true) (cell_list cell).
Proof.
  unfold cell_list. destruct cell as [c|]; [|constructor].
  destruct (JS.truthy c); [apply filter_Forall_true|constructor].
Qed.

(** What every entry of a manifest satisfies. *)
Lemma fold_rowStep_wellformed rows (m : gmap string TargetData) :
  map_Forall (fun k td => JS.truthy k = true
                          /\ JS.truthy (scriptId td) = true
                          /\ Forall (fun x => JS.truthy x = true)
                               (buttonImageIds td)) m ->
  map_Forall (fun k td => JS.truthy k = true
                          /\ JS.truthy (scriptId td) = true
                          /\ Forall (fun x => JS.truthy x = true)
                               (buttonImageIds td))
    (fold_left rowStep rows m).
Proof.
  revert m. induction rows as [|row rows IH]; intros m Hm; [done|].
  simpl. apply IH. unfold rowStep.
  destruct (accepted (decodeRow row)) eqn:Hacc; [|done].
  apply map_Forall_insert_2; [|done].
  unfold accepted in Hacc. apply andb_prop in Hacc as [Hk Hs].
  unfold row_data. cbn [scriptId buttonImageIds].
  split; [by destruct (row_spreadsheetId (decodeRow row))|].
  split; [by destruct (row_scriptId (decodeRow row))|].
  apply cell_list_truthy.
Qed.

Section ManifestInvariants.

Context {World : Type}.
Variable api : Remote World.
Variable cfg : Config.

(** X3. In the manifest [readScriptIds] returns, every key is a non-empty
    spreadsheet id, every entry has a non-empty script id, and no image id
    is empty. *)
Theorem readScriptIds_entries_wellformed id s m s1 (k : string) td :
  readScriptIds api cfg id s = (inr m, s1) ->
  m !! k = Some td ->
  JS.truthy k = true
  /\ JS.truthy (scriptId td) = true
  /\ Forall (fun x => JS.truthy x = true) (buttonImageIds td).
Proof.
  intros Hread Hk.
  destruct (readScriptIds_inv api cfg id s m s1 Hread) as [[values ->] _].
  rewrite decodeRows_fold in Hk.
  exact (fold_rowStep_wellformed (default [] values) ∅
           (map_Forall_empty _) k td Hk).
Qed.

(** X5. When the sheet tab is not among the titles of the spreadsheet,
    [readScriptIds] throws the not-found error, which lists the titles, and
    has sent the metadata request only: the range is not fetched and nothing
    is logged. *)
Theorem readScriptIds_missing_sheet id s titles w1 :
  spreadsheets_get api id (world s) = (inr titles, w1) ->
  existsb (String.eqb (SHEET_NAME cfg)) titles = false ->
  readScriptIds api cfg id s
  = (inl (Error ("Error reading source spreadsheet: Sheet " +:+ dquote
                 +:+ SHEET_NAME cfg +:+ dquote +:+ " not found. Available: "
                 +:+ join ", " titles)),
     mkState w1 (calls s ++ [SpreadsheetsGet id]) (console s)).
Proof.
  intros Hget Hnot.
  unfold readScriptIds, try_catch, bind, request, throw. simpl.
  by rewrite Hget, Hnot.
Qed.

(** X6. Whenever [readScriptIds] throws, the error is a plain [Error] (the
    code of the cause is lost) whose message starts with [Error reading
    source spreadsheet: ]; it has then sent the metadata request, or the
    metadata and the range requests, and has written no line for a row:
    the rows are gone through only once both requests are answered. *)
Theorem readScriptIds_failure id s e s' :
  readScriptIds api cfg id s = (inl e, s') ->
  code e = None
  /\ (exists cause, message e = "Error reading source spreadsheet: " +:+ cause)
  /\ (calls s' = calls s ++ [SpreadsheetsGet id]
      \/ calls s' = calls s ++ [SpreadsheetsGet id;
                                ValuesGet id (manifestRange cfg)])
  /\ console s' = console s.
Proof.
  unfold readScriptIds, try_catch, bind, request, throw. simpl.
  destruct (spreadsheets_get api id (world s)) as [[e0|titles] w1].
  { intros [= <- <-]. simpl. split; [done|]. split; [by eexists|].
    split; [by left|done]. }
  destruct (existsb (String.eqb (SHEET_NAME cfg)) titles); simpl.
  2:{ intros [= <- <-]. simpl. split; [done|]. split; [by eexists|].
      split; [by left|done]. }
  fold (manifestRange cfg).
  destruct (values_get api id (manifestRange cfg) w1) as [[e0|values] w2].
  { intros [= <- <-]. simpl. split; [done|]. split; [by eexists|].
    split; [right; by rewrite <- app_assoc|done]. }
  by destruct (forEachRow (START_ROW cfg) (default [] values) 0 ∅).
Qed.

End ManifestInvariants.

(** X4. The coordinate pairs are at most half as many as the tokens, and
    exactly half (rounded down) when every token parses. *)
Theorem coordinatePairs_length (coordinates : list string) :
  (2 * length (coordinatePairs coordinates) <= length coordinates)%nat
  /\ (Forall (fun c => JS.parseInt c <> None) coordinates ->
      length (coordinatePairs coordinates)
      = Nat.div2 (length coordinates)).
Proof.
  assert (H : forall n (l : list string), (length l <= n)%nat ->
              (2 * length (coordinatePairs l) <= length l)%nat
              /\ (Forall (fun c => JS.parseInt c <> None) l ->
                  length (coordinatePairs l) = Nat.div2 (length l))).
  { induction n as [|n IH]; intros l Hlen.
    - destruct l; [|simpl in Hlen; lia]. simpl. split; [lia|done].
    - destruct l as [|c0 [|c1 l]]; [simpl; split; [lia|done]..|].
      simpl in Hlen. destruct (IH l ltac:(lia)) as [Hle Heq].
      cbn [coordinatePairs]. split.
      + destruct (JS.parseInt c0), (JS.parseInt c1); simpl; lia.
      + intros Hall. inversion Hall as [|? ? H0 Hall']; subst.
        inversion Hall' as [|? ? H1 Hall'']; subst.
        destruct (JS.parseInt c0); [|done].
        destruct (JS.parseInt c1); [|done].
        simpl. by rewrite Heq. }
  exact (H (length coordinates) coordinates (le_n _)).
Qed.

Lemma coordinatePairs_length_witness :
  length (coordinatePairs ["1"; "2"; "3"]) = 1%nat.
Proof.
  apply (proj2 (coordinatePairs_length ["1"; "2"; "3"])).
  repeat constructor; vm_compute; discriminate.
Defined.

Lemma readScriptIds_entries_wellformed_witness :
  exists m s1,
    readScriptIds cloud serverConfig (Some "MASTER") (start duplicateCloud)
    = (inr m, s1)
    /\ forall td, m !! "T1" = Some td ->
         JS.truthy "T1" = true /\ JS.truthy (scriptId td) = true
         /\ Forall (fun x => JS.truthy x = true) (buttonImageIds td).
Proof.
  remember (readScriptIds cloud serverConfig (Some "MASTER")
              (start duplicateCloud)) as r eqn:E.
  destruct r as [[err|m] s1]; [vm_compute in E; discriminate|].
  symmetry in E. exists m, s1. split; [reflexivity|].
  intros td Htd.
  exact (readScriptIds_entries_wellformed cloud serverConfig (Some "MASTER")
           (start duplicateCloud) m s1 "T1" td E Htd).
Defined.

Lemma readScriptIds_missing_sheet_witness :
  fst (readScriptIds cloud cliConfig (Some "MASTER") (start mismatchCloud))
  = inl (Error ("Error reading source spreadsheet: Sheet " +:+ dquote
                +:+ "Sheet Id" +:+ dquote
                +:+ " not found. Available: TVDE Users")).
Proof.
  rewrite (readScriptIds_missing_sheet cloud cliConfig (Some "MASTER")
             (start mismatchCloud) ["TVDE Users"] mismatchCloud).
  - reflexivity.
  - vm_compute. reflexivity.
  - vm_compute. reflexivity.
Defined.

Lemma readScriptIds_failure_witness :
  exists e s',
    readScriptIds cloud cliConfig (Some "MASTER") (start mismatchCloud)
    = (inl e, s')
    /\ code e = None
    /\ calls s' = [SpreadsheetsGet (Some "MASTER")].
Proof.
  remember (readScriptIds cloud cliConfig (Some "MASTER")
              (start mismatchCloud)) as r eqn:E.
  destruct r as [[e|m] s']; [|vm_compute in E; discriminate].
  symmetry in E. exists e, s'. split; [reflexivity|].
  destruct (readScriptIds_failure cloud cliConfig (Some "MASTER")
              (start mismatchCloud) e s' E) as (Hcode & _ & _ & _).
  split; [exact Hcode|].
  vm_compute in E. injection E as <- <-. reflexivity.
Defined.

(** ** Content Transfer Engine, further *)

Lemma filter_app_single {A} (f : A -> bool) (l : list A) (x : A) :
  List.filter f (l ++ [x])
  = List.filter f l ++ (if f x then [x] else []).
Proof. rewrite List.filter_app. simpl. by destruct (f x). Qed.

Lemma filter_filter_negb {A} (f : A -> bool) (l : list A) :
  List.filter f (List.filter (fun x => negb (f x)) l) = [].
Proof.
  induction l as [|a l IH]; simpl; [done|].
  destruct (f a) eqn:Hfa; simpl; [done|]. by rewrite Hfa.
Qed.

(** X9. The list [copyFunction] pushes holds exactly one file named [Code]:
    the last one, of type [SERVER_JS], with the content of the source file.
    The files before it are the files of the target that are not named
    [Code], in their order. *)
Theorem copyFunction_files_single_code sf files :
  List.filter (fun f => String.eqb (name f) "Code") (copyFunction_files sf files)
  = [mkFile "Code" SERVER_JS (source sf)]
  /\ List.filter (fun f => negb (String.eqb (name f) "Code"))
       (copyFunction_files sf files)
     = List.filter (fun f => negb (String.eqb (name f) "Code")) files
  /\ List.last (copyFunction_files sf files) (mkFile "" JSON "")
     = mkFile "Code" SERVER_JS (source sf)
  /\ length (copyFunction_files sf files) <= S (length files).
Proof.
  unfold copyFunction_files. repeat split.
  - rewrite filter_app_single. cbn [name String.eqb].
    rewrite (filter_filter_negb (fun f => String.eqb (name f) "Code")).
    reflexivity.
  - rewrite filter_app_single, filter_filter_same. simpl.
    by rewrite app_nil_r.
  - apply last_last.
  - rewrite length_app. simpl.
    pose proof (List.filter_length_le
                  (fun f => negb (String.eqb (name f) "Code")) files). lia.
Qed.

(** X11. The list [updateScriptContent] pushes has the names and the types
    of the fetched files, in their order; a file that is neither named
    [Code] or [Código] nor of type [SERVER_JS] is unchanged, and every other
    file, so every [SERVER_JS] file whatever its name, gets the content of
    the source's code file. *)
Theorem updatedFiles_shape sc files :
  map name (updatedFiles sc files) = map name files
  /\ map type (updatedFiles sc files) = map type files
  /\ Forall2 (fun old new =>
                if isReplaced old then source new = source sc else new = old)
       files (updatedFiles sc files).
Proof.
  unfold updatedFiles. repeat split.
  - rewrite map_map. apply map_ext. intros f. by destruct (isReplaced f).
  - rewrite map_map. apply map_ext. intros f. by destruct (isReplaced f).
  - induction files as [|f files IH]; simpl; constructor; [|exact IH].
    by destruct (isReplaced f).
Qed.

Section TransferFailures.

Context {World : Type}.
Variable api : Remote World.

(** X7. When the source project cannot be read, or holds no file named
    [Code] of type [SERVER_JS], [copyFunction] throws after its first
    request: the target project is neither read nor written. *)
Theorem copyFunction_source_unusable source target s r w1 :
  projects_getContent api source (world s) = (r, w1) ->
  match r with
  | inl _ => True
  | inr c => List.find isSourceFunctionFile (default [] c) = None
  end ->
  exists e,
    copyFunction api source target s
    = (inl e, mkState w1 (calls s ++ [ProjectsGetContent source]) (console s)).
Proof.
  intros Hget Hr.
  unfold copyFunction, try_catch, bind, request, throw. simpl.
  rewrite Hget. destruct r as [e0|c]; [by eexists|].
  rewrite Hr. by eexists.
Qed.

(** X8. When the target project cannot be read, [copyFunction] goes on as
    if it were empty: the list it pushes is the file [Code] alone. *)
Theorem copyFunction_unreadable_target
    sourceId targetId s sourceContent w1 sf e0 w2 :
  projects_getContent api sourceId (world s) = (inr sourceContent, w1) ->
  List.find isSourceFunctionFile (default [] sourceContent) = Some sf ->
  projects_getContent api targetId w1 = (inl e0, w2) ->
  calls (snd (copyFunction api sourceId targetId s))
  = calls s ++ [ ProjectsGetContent sourceId; ProjectsGetContent targetId;
                 ProjectsUpdateContent targetId
                   [mkFile "Code" SERVER_JS (source sf)] ].
Proof.
  intros Hsrc Hfind Htgt.
  exact (copyFunction_calls api sourceId targetId s sourceContent w1 sf
           (inl e0) w2 Hsrc Hfind Htgt).
Qed.

(** X10. When [copyFunction] answers, it answers the id of the target and
    its last request was the push to that target; every failure is a plain
    [Error] whose message starts with [Error copying function to ], the
    target id and a colon. *)
Theorem copyFunction_outcome source target s :
  match copyFunction api source target s with
  | (inr result, s') =>
      result = target
      /\ exists files,
           List.last (calls s') (ProjectsGet "")
           = ProjectsUpdateContent target files
  | (inl e, _) =>
      code e = None
      /\ exists cause,
           message e = "Error copying function to " +:+ target +:+ ": "
                       +:+ cause
  end.
Proof.
  unfold copyFunction, try_catch, bind, request, throw, ret. simpl.
  destruct (projects_getContent api source (world s)) as [[e0|c] w1];
    [split; [done|by eexists]|].
  destruct (List.find isSourceFunctionFile (default [] c)) as [sf|];
    [|split; [done|by eexists]].
  simpl.
  destruct (projects_getContent api target w1) as [[e1|c1] w2]; simpl;
    destruct (projects_updateContent api target _ w2) as [[e2|[]] w3]; simpl;
    try (split; [done|by eexists]);
    (split; [done|]); eexists; apply last_last.
Qed.

(** X12. When the target project cannot be read, [updateScriptContent]
    rethrows that very error, code included, and pushes nothing, whatever
    the source holds. *)
Theorem updateScriptContent_unreadable_target target sourceFiles s e0 w1 :
  projects_getContent api target (world s) = (inl e0, w1) ->
  updateScriptContent api target sourceFiles s
  = (inl e0, mkState w1 (calls s ++ [ProjectsGetContent target]) (console s)).
Proof.
  intros Hget.
  unfold updateScriptContent, try_catch, bind, request, throw. simpl.
  by rewrite Hget.
Qed.

End TransferFailures.

Lemma copyFunction_source_unusable_witness :
  exists e,
    copyFunction cloud "SRC-localized-0123456789" "TGT-0123456789-abcdefghij"
      (start projectsCloud)
    = (inl e, mkState projectsCloud
                [ProjectsGetContent "SRC-localized-0123456789"] []).
Proof.
  apply (copyFunction_source_unusable cloud "SRC-localized-0123456789"
           "TGT-0123456789-abcdefghij" (start projectsCloud)
           (inr (Some localizedFiles)) projectsCloud).
  - vm_compute. reflexivity.
  - vm_compute. reflexivity.
Defined.

Lemma copyFunction_unreadable_target_witness :
  calls (snd (copyFunction cloud "SRC-0123456789-abcdefghij" "MISSING"
                (start projectsCloud)))
  = [ ProjectsGetContent "SRC-0123456789-abcdefghij";
      ProjectsGetContent "MISSING";
      ProjectsUpdateContent "MISSING"
        [mkFile "Code" SERVER_JS "function main(){}"] ].
Proof.
  apply (copyFunction_unreadable_target cloud "SRC-0123456789-abcdefghij"
           "MISSING" (start projectsCloud) (Some helperFirstFiles)
           projectsCloud (mkFile "Code" SERVER_JS "function main(){}")
           notFound projectsCloud).
  - vm_compute. reflexivity.
  - vm_compute. reflexivity.
  - vm_compute. reflexivity.
Defined.

Lemma updateScriptContent_unreadable_target_witness :
  updateScriptContent cloud "MISSING" helperFirstFiles (start projectsCloud)
  = (inl notFound, mkState projectsCloud [ProjectsGetContent "MISSING"] []).
Proof.
  apply (updateScriptContent_unreadable_target cloud "MISSING"
           helperFirstFiles (start projectsCloud) notFound projectsCloud).
  vm_compute. reflexivity.
Defined.

(** ** Validation of a script id *)

Section Validation.

Context {World : Type}.
Variable api : Remote World.

(** X13. A script id shorter than 20 characters (the empty one included) or
    with a character outside [A-Za-z0-9_-] is reported invalid without any
    request, and the state is left as it was. *)
Theorem validateAndTestScriptAccess_format scriptId s :
  (JS.length scriptId < 20)%nat \/ validPattern scriptId = false ->
  exists msg,
    validateAndTestScriptAccess api scriptId s
    = (inr (mkValidation false None (Some msg) None), s).
Proof.
  intros Hbad. unfold validateAndTestScriptAccess.
  destruct (negb (JS.truthy scriptId) || (JS.length scriptId <? 20))
    eqn:Hshort; [by eexists|].
  apply orb_false_elim in Hshort as [_ Hlen].
  apply Nat.ltb_ge in Hlen.
  destruct Hbad as [Hlt|Hpat]; [lia|]. rewrite Hpat. by eexists.
Qed.

(** X14. A script id is reported valid only when it has at least 20
    characters, all of them in [A-Za-z0-9_-], and the metadata probe, the
    only request sent, was answered; the title reported is the one the
    probe answered. *)
Theorem validateAndTestScriptAccess_valid scriptId s v s' :
  validateAndTestScriptAccess api scriptId s = (inr v, s') ->
  valid v = true ->
  (20 <= JS.length scriptId)%nat
  /\ validPattern scriptId = true
  /\ projects_get api scriptId (world s) = (inr (v_title v), world s')
  /\ calls s' = calls s ++ [ProjectsGet scriptId].
Proof.
  unfold validateAndTestScriptAccess.
  destruct (negb (JS.truthy scriptId) || (JS.length scriptId <? 20))
    eqn:Hshort.
  { intros [= <- <-]. discriminate. }
  destruct (validPattern scriptId) eqn:Hpat; simpl.
  2:{ intros [= <- <-]. discriminate. }
  apply orb_false_elim in Hshort as [_ Hlen]. apply Nat.ltb_ge in Hlen.
  unfold try_catch, bind, request, ret.
  destruct (projects_get api scriptId (world s)) as [[e|title] w1].
  { intros [= <- <-]. discriminate. }
  intros [= <- <-] _. done.
Qed.

End Validation.

Lemma validateAndTestScriptAccess_format_witness :
  exists msg,
    validateAndTestScriptAccess cloud "S1" (start projectsCloud)
    = (inr (mkValidation false None (Some msg) None), start projectsCloud).
Proof.
  apply (validateAndTestScriptAccess_format cloud "S1" (start projectsCloud)).
  left. vm_compute. lia.
Defined.

Lemma validateAndTestScriptAccess_valid_witness :
  (20 <= JS.length "TGT-0123456789-abcdefghij")%nat
  /\ validPattern "TGT-0123456789-abcdefghij" = true.
Proof.
  remember (validateAndTestScriptAccess cloud "TGT-0123456789-abcdefghij"
              (start projectsCloud)) as r eqn:E.
  destruct r as [[e|v] s']; [vm_compute in E; discriminate|].
  symmetry in E.
  destruct (validateAndTestScriptAccess_valid cloud
              "TGT-0123456789-abcdefghij" (start projectsCloud) v s' E)
    as (Hlen & Hpat & _).
  - vm_compute in E. injection E as <- _. reflexivity.
  - split; [exact Hlen|exact Hpat].
Defined.

(** ** Asset placement, further *)

(** The file the asset placement uploads. *)
Lemma temp_file_last (existing : list ScriptFile) (temp : ScriptFile) :
  name temp = "tempCopyButtons" ->
  let files :=
    List.filter (fun f => negb (String.eqb (name f) "tempCopyButtons"))
      existing ++ [temp] in
  List.last files (mkFile "" JSON "") = temp
  /\ List.filter (fun f => String.eqb (name f) "tempCopyButtons") files
     = [temp].
Proof.
  intros Hname files. unfold files. split; [apply last_last|].
  rewrite filter_app_single, Hname. cbn [String.eqb].
  by rewrite (filter_filter_negb
                (fun f => String.eqb (name f) "tempCopyButtons")).
Qed.

Section PlacementRuns.

Context {World : Type}.
Variable api : Remote World.
Variable cfg : Config.
Variable tempScriptContent :
  option string -> JsValue -> list Placement -> JsValue -> string.

(** X15. [copyButtonsFromSheet] answers only after this sequence of six
    requests: the two reads of the master sheet, the probe of the script,
    the fetch of its content, the push and the run of
    [copyButtonsWithFunctions].  The manifest then names the target with a
    non-empty list of image ids, as long as the list of coordinate pairs;
    the answer carries the script id of the manifest; and the pushed list
    ends with the generated file, the only one named [tempCopyButtons]. *)
Theorem copyButtonsFromSheet_success
    master sourceSheet sourceTab target tab buttonScript s r s' :
  copyButtonsFromSheet api cfg tempScriptContent master sourceSheet sourceTab
    target tab buttonScript s = (inr r, s') ->
  exists m s1 td files,
    readScriptIds api cfg master s = (inr m, s1)
    /\ map_get m target = Some td
    /\ buttonImageIds td <> []
    /\ length (buttonImageIds td) = length (coordinates td)
    /\ res_scriptId r = scriptId td
    /\ res_functionName r = "copyButtonsWithFunctions"
    /\ calls s'
       = calls s ++
         [ SpreadsheetsGet master; ValuesGet master (manifestRange cfg);
           ProjectsGet (scriptId td); ProjectsGetContent (scriptId td);
           ProjectsUpdateContent (scriptId td) files;
           ScriptsRun (scriptId td) "copyButtonsWithFunctions" ]
    /\ List.last files (mkFile "" JSON "")
       = mkFile "tempCopyButtons" SERVER_JS
           (tempScriptContent target tab
              (buttonData (buttonImageIds td) (coordinates td)) buttonScript)
    /\ List.filter (fun f => String.eqb (name f) "tempCopyButtons") files
       = [mkFile "tempCopyButtons" SERVER_JS
            (tempScriptContent target tab
               (buttonData (buttonImageIds td) (coordinates td))
               buttonScript)].
Proof.
  intros Hrun. unfold copyButtonsFromSheet, try_catch, bind, throw in Hrun.
  destruct (readScriptIds api cfg master s) as [[e|m] s1] eqn:Hread;
    [discriminate|].
  destruct (map_get m target) as [td|] eqn:Hget; [|discriminate].
  destruct (negb (JS.truthy (scriptId td))); [discriminate|].
  destruct (validateAndTestScriptAccess api (scriptId td) s1)
    as [[e|v] s2] eqn:Hval; [discriminate|].
  destruct (valid v) eqn:Hvalid; simpl in Hrun; [|discriminate].
  destruct (length (buttonImageIds td) =? 0)%nat eqn:Hids; [discriminate|].
  destruct (length (coordinates td) =? 0)%nat eqn:Hcoords; [discriminate|].
  destruct (length (buttonImageIds td) =? length (coordinates td))%nat
    eqn:Hlen; simpl in Hrun; [|discriminate].
  unfold request, ret in Hrun.
  destruct (readScriptIds_inv api cfg master s m s1 Hread) as [_ Hcalls1].
  destruct (validateAndTestScriptAccess_valid api _ _ _ _ Hval Hvalid)
    as (_ & _ & _ & Hcalls2).
  apply Nat.eqb_eq in Hlen. apply Nat.eqb_neq in Hids.
  set (temp := mkFile "tempCopyButtons" SERVER_JS
                 (tempScriptContent target tab
                    (buttonData (buttonImageIds td) (coordinates td))
                    buttonScript)) in *.
  assert (Hids' : buttonImageIds td <> []) by (by destruct (buttonImageIds td)).
  destruct (projects_getContent api (scriptId td) (world s2))
    as [[e|c] w3]; simpl in Hrun;
    match type of Hrun with
    | context [projects_updateContent api ?sid ?files ?w] =>
        destruct (projects_updateContent api sid files w) as [[e'|[]] w4];
        simpl in Hrun; [discriminate|];
        destruct (scripts_run api sid "copyButtonsWithFunctions" w4)
          as [[e''|resp] w5]; simpl in Hrun; [discriminate|];
        destruct (run_error resp); simpl in Hrun; [discriminate|];
        injection Hrun as <- <-;
        exists m, s1, td, files;
        (split; [reflexivity|]); (split; [exact Hget|]);
        (split; [exact Hids'|]); (split; [exact Hlen|]);
        (split; [reflexivity|]); (split; [reflexivity|]);
        (split; [simpl; rewrite Hcalls2, Hcalls1, <- !app_assoc; reflexivity|]);
        first [ apply (temp_file_last _ temp eq_refl)
              | apply (temp_file_last [] temp eq_refl) ]
    end.
Qed.


End PlacementRuns.

Lemma copyButtonsFromSheet_success_witness :
  exists r s' files,
    copyButtonsFromSheet cloud serverConfig noScript (Some "MASTER") None None
      (Some "T1") (JString "Sheet1") JNull (start placementCloud) = (inr r, s')
    /\ res_scriptId r = "TGT-1-0123456789-abcdefghij"
    /\ calls s'
       = [ SpreadsheetsGet (Some "MASTER");
           ValuesGet (Some "MASTER") "TVDE Users!D2:G";
           ProjectsGet "TGT-1-0123456789-abcdefghij";
           ProjectsGetContent "TGT-1-0123456789-abcdefghij";
           ProjectsUpdateContent "TGT-1-0123456789-abcdefghij" files;
           ScriptsRun "TGT-1-0123456789-abcdefghij" "copyButtonsWithFunctions" ].
Proof.
  remember (copyButtonsFromSheet cloud serverConfig noScript (Some "MASTER")
              None None (Some "T1") (JString "Sheet1") JNull
              (start placementCloud)) as run eqn:E.
  destruct run as [[e|r] s']; [vm_compute in E; discriminate|].
  symmetry in E.
  destruct (copyButtonsFromSheet_success cloud serverConfig noScript _ _ _ _
              _ _ _ _ _ E)
    as (m & s1 & td & files & Hread & Hget & _ & _ & Hid & _ & Hcalls & _).
  exists r, s', files. split; [reflexivity|].
  vm_compute in Hread. injection Hread as <- <-.
  vm_compute in Hget. injection Hget as <-.
  split; [exact Hid|exact Hcalls].
Defined.


(** ** Look-ups of script ids *)

Section Lookups.

Context {World : Type}.
Variable api : Remote World.
Variable cfg : Config.
Variable tempScriptContent :
  option string -> JsValue -> list Placement -> JsValue -> string.

(** X18. [getScriptIdForSpreadsheet] never throws.  It answers [null] when
    the master sheet cannot be read or does not name the target; an id it
    answers is the one of the target's entry in the manifest, and is never
    empty. *)
Theorem getScriptIdForSpreadsheet_result master target s :
  exists r s',
    getScriptIdForSpreadsheet api cfg master target s = (inr r, s')
    /\ match r with
       | Some id =>
           JS.truthy id = true
           /\ exists m td,
                readScriptIds api cfg master s = (inr m, s')
                /\ map_get m target = Some td /\ id = scriptId td
       | None =>
           (exists e, readScriptIds api cfg master s = (inl e, s'))
           \/ (exists m, readScriptIds api cfg master s = (inr m, s')
                         /\ map_get m target = None)
       end.
Proof.
  unfold getScriptIdForSpreadsheet, try_catch, bind, ret.
  destruct (readScriptIds api cfg master s) as [[e|m] s1] eqn:Hread.
  { exists None, s1. split; [done|]. left. by exists e. }
  destruct (map_get m target) as [td|] eqn:Hget.
  2:{ exists None, s1. split; [done|]. right. by exists m. }
  exists (Some (scriptId td)), s1. split; [done|]. split; [|by exists m, td].
  destruct (readScriptIds_inv api cfg master s m s1 Hread) as [[values ->] _].
  destruct target as [k|]; [|done]. simpl in Hget.
  rewrite decodeRows_fold in Hget.
  exact (proj1 (proj2 (fold_rowStep_wellformed (default [] values) ∅
                         (map_Forall_empty _) k td Hget))).
Qed.

(** X19. [getScriptProjectId] never throws and sends at most the metadata
    request and the Drive listing.  An id it answers is the first of the
    listing; it answers [null] when a request throws or the listing is
    absent or empty. *)
Theorem getScriptProjectId_result spreadsheetId s :
  let q := "'" +:+ show_undefined spreadsheetId
           +:+ "' in parents and mimeType='application/vnd.google-apps.script'" in
  exists r s',
    getScriptProjectId api spreadsheetId s = (inr r, s')
    /\ console s' = console s
    /\ (calls s' = calls s ++ [SpreadsheetsGet spreadsheetId]
        \/ calls s' = calls s ++ [SpreadsheetsGet spreadsheetId;
                                  DriveFilesList q])
    /\ forall id, r = Some id ->
         exists titles w1 rest,
           spreadsheets_get api spreadsheetId (world s) = (inr titles, w1)
           /\ drive_files_list api q w1 = (inr (Some (id :: rest)), world s').
Proof.
  intros q. unfold getScriptProjectId, try_catch, bind, request, ret.
  fold q. cbn [world calls console].
  destruct (spreadsheets_get api spreadsheetId (world s))
    as [[e|titles] w1] eqn:Hget.
  { eexists None, _. split; [reflexivity|]. cbn [world calls console].
    split; [done|]. split; [by left|done]. }
  cbn [world calls console].
  destruct (drive_files_list api q w1) as [[e|[[|id rest]|]] w2] eqn:Hlist;
    cbn [world calls console];
    eexists _, _; (split; [reflexivity|]); cbn [world calls console];
    (split; [done|]);
    (split; [right; by rewrite <- app_assoc|]); try done.
  intros id' [= <-]. by exists titles, w1, rest.
Qed.

(** X21. A target the manifest does not name is recorded as failed, with
    the error [No script ID found for] and the resolved id, without any
    request. *)
Theorem copyFunctionsBody_unknown_target scriptIdMap summary target id s :
  extractSpreadsheetId_value target = inr id ->
  map_get scriptIdMap id = None ->
  copyFunctionsBody api cfg scriptIdMap summary target s
  = (inr (fail summary
            (Failed id ("No script ID found for " +:+ show_null id))),
     s).
Proof.
  intros Hid Hget.
  rewrite (copyFunctionsBody_run _ _ _ _ _ _ _ Hid).
  unfold copyFunctionsTry, bind, throw.
  by rewrite Hget.
Qed.

(** X20. When copyFunctions is enabled and the manifest cannot be read, the
    handler answers 500 at once: every target is counted as failed, the only
    detail is the error of the read, and the copyButtons part is left
    untouched, enabled or not; no request is sent after the failed read. *)
Theorem post_manifest_unreadable f s id e s1 :
  f_functionsEnable f = "true" ->
  extractSpreadsheetId_value (f_functionsSourceSheet f) = inr id ->
  readScriptIds api cfg id s = (inl e, s1) ->
  post api cfg tempScriptContent f s
  = (inr (500%Z,
          mkResponse
            (mkSummary (length (f_functionsTargetSheets f)) 0
               (length (f_functionsTargetSheets f))
               [SetupFailed ("Failed to read script IDs: " +:+ message e)]
               None)
            emptySummary),
     s1).
Proof.
  intros Hen Hid Hread.
  unfold post, processCopyFunctions.
  rewrite (proj2 (String.eqb_eq _ _) Hen).
  unfold bind at 1 2. rewrite (lift_inr _ _ _ Hid).
  unfold bind, try_catch, ret. by rewrite Hread.
Qed.

End Lookups.

Lemma copyFunctionsBody_unknown_target_witness :
  copyFunctionsBody cloud serverConfig ∅ emptySummary
    (JString "https://docs.google.com/spreadsheets/d/T9/edit")
    (start batchCloud)
  = (inr (fail emptySummary (Failed (Some "T9") "No script ID found for T9")),
     start batchCloud).
Proof.
  apply (copyFunctionsBody_unknown_target cloud serverConfig ∅ emptySummary
           (JString "https://docs.google.com/spreadsheets/d/T9/edit")
           (Some "T9") (start batchCloud)).
  - vm_compute. reflexivity.
  - vm_compute. reflexivity.
Defined.

Lemma post_manifest_unreadable_witness :
  fst (post cloud serverConfig noScript
         (mkFields "true" (JString "NO-SUCH-SHEET")
            [JString "T1"; JString "T2"]
            "true" (JString "MASTER") [JString "T1"] (JString "Sheet1") JNull)
         (start batchCloud))
  = inr (500%Z,
         mkResponse
           (mkSummary 2 0 2
              [SetupFailed "Failed to read script IDs: Error reading source spreadsheet: Requested entity was not found."]
              None)
           emptySummary).
Proof.
  remember (readScriptIds cloud serverConfig (Some "NO-SUCH-SHEET")
              (start batchCloud)) as r eqn:E.
  destruct r as [[e|m] s1]; [|vm_compute in E; discriminate].
  symmetry in E.
  assert (Hid : extractSpreadsheetId_value (JString "NO-SUCH-SHEET")
                = inr (Some "NO-SUCH-SHEET")) by (vm_compute; reflexivity).
  rewrite (post_manifest_unreadable cloud serverConfig noScript
             (mkFields "true" (JString "NO-SUCH-SHEET")
                [JString "T1"; JString "T2"]
                "true" (JString "MASTER") [JString "T1"] (JString "Sheet1")
                JNull)
             (start batchCloud) (Some "NO-SUCH-SHEET") e s1 eq_refl Hid E).
  vm_compute in E. injection E as <- _. reflexivity.
Defined.

(** ** Validation of the payload *)

Lemma all_strings_map (l : list string) : all_strings (map JString l) = Some l.
Proof. induction l as [|x l IH]; simpl; [done|]. by rewrite IH. Qed.

Lemma validateCopyFunctions_accepted payload enable sourceSheet targetSheets :
  validateCopyFunctions payload = inr (enable, sourceSheet, targetSheets) ->
  enable = "true" -> js_truthy sourceSheet = true /\ targetSheets <> [].
Proof.
  unfold validateCopyFunctions.
  destruct (js_truthy (get_prop payload "copyFunctions")).
  2:{ intros [= <- <- <-]. discriminate. }
  destruct (as_string _) as [en|]; [|discriminate].
  destruct (as_array _) as [ts|]; [|discriminate].
  destruct (js_truthy (get_prop _ "sourceSheet")) eqn:Hsrc; simpl;
    [|discriminate].
  destruct (String.eqb en "true") eqn:Hen; simpl.
  - destruct (length ts =? 0)%nat eqn:Hlen; [discriminate|].
    intros [= <- <- <-] _. split; [done|].
    apply Nat.eqb_neq in Hlen. by destruct ts.
  - intros [= <- <- <-] ->. discriminate.
Qed.

Lemma validateCopyButtons_accepted
    payload enable sourceSheet targetSheets tab script :
  validateCopyButtons payload
  = inr (enable, sourceSheet, targetSheets, tab, script) ->
  (script = JNull \/ js_truthy script = true)
  /\ (enable = "true" ->
      js_truthy sourceSheet = true /\ targetSheets <> []
      /\ js_truthy tab = true).
Proof.
  unfold validateCopyButtons.
  destruct (js_truthy (get_prop payload "copyButtons")).
  2:{ intros [= <- <- <- <- <-]. split; [by left|discriminate]. }
  destruct (as_string _) as [en|]; [|discriminate].
  destruct (as_array _) as [ts|]; [|discriminate].
  destruct (js_truthy (get_prop _ "sourceSheet")) eqn:Hsrc; simpl;
    [|discriminate].
  destruct (js_truthy (get_prop _ "targetSheetTab")) eqn:Htab; simpl;
    [|discriminate].
  assert (Hscript : forall v,
             (if js_truthy v then v else JNull) = JNull
             \/ js_truthy (if js_truthy v then v else JNull) = true).
  { intros v. destruct (js_truthy v) eqn:Hv; [by right|by left]. }
  destruct (String.eqb en "true") eqn:Hen; simpl.
  - destruct (length ts =? 0)%nat eqn:Hlen; simpl; [discriminate|].
    intros [= <- <- <- <- <-]. split; [apply Hscript|]. intros _.
    split; [done|]. split; [|done].
    apply Nat.eqb_neq in Hlen. by destruct ts.
  - intros [= <- <- <- <- <-]. split; [apply Hscript|]. intros ->.
    discriminate.
Qed.

(** X25. A payload that passes validation has at least one of the two
    sections, and for each operation whose [enable] is the string [true] a
    truthy source sheet and a non-empty list of targets (and, for the
    buttons, a truthy target tab); the handler name is [null] or truthy. *)
Theorem validatePayload_accepted payload f :
  validatePayload payload = inr f ->
  (js_truthy (get_prop payload "copyFunctions") = true
   \/ js_truthy (get_prop payload "copyButtons") = true)
  /\ (f_functionsEnable f = "true" ->
      js_truthy (f_functionsSourceSheet f) = true
      /\ f_functionsTargetSheets f <> [])
  /\ (f_buttonsEnable f = "true" ->
      js_truthy (f_buttonsSourceSheet f) = true
      /\ f_buttonsTargetSheets f <> []
      /\ js_truthy (f_targetSheetTab f) = true)
  /\ (f_buttonScript f = JNull \/ js_truthy (f_buttonScript f) = true).
Proof.
  unfold validatePayload.
  destruct (js_truthy (get_prop payload "copyFunctions")) eqn:Hf;
    destruct (js_truthy (get_prop payload "copyButtons")) eqn:Hb;
    cbn [negb andb]; try discriminate;
    (destruct (validateCopyFunctions payload) as [e|[[en src] ts]] eqn:Hvf;
       [discriminate|]);
    (destruct (validateCopyButtons payload)
       as [e|[[[[ben bsrc] bts] tab] script]] eqn:Hvb; [discriminate|]);
    intros [= <-]; cbn [f_functionsEnable f_functionsSourceSheet
                        f_functionsTargetSheets f_buttonsEnable
                        f_buttonsSourceSheet f_buttonsTargetSheets
                        f_targetSheetTab f_buttonScript];
    destruct (validateCopyButtons_accepted _ _ _ _ _ _ Hvb) as [Hs Hbtn];
    pose proof (validateCopyFunctions_accepted _ _ _ _ Hvf) as Hfun;
    (split; [first [by left | by right]|]); done.
Qed.

(** X27. A [copyFunctions] section that is present (truthy) and whose
    [enable] is not a string, whose [sourceSheet] is falsy or whose
    [targetSheets] is not an array makes the whole payload invalid, whatever
    the [copyButtons] section holds. *)
Theorem validatePayload_malformed_copyFunctions payload :
  js_truthy (get_prop payload "copyFunctions") = true ->
  as_string (get_prop (get_prop payload "copyFunctions") "enable") = None
  \/ js_truthy (get_prop (get_prop payload "copyFunctions") "sourceSheet")
     = false
  \/ as_array (get_prop (get_prop payload "copyFunctions") "targetSheets")
     = None ->
  validatePayload payload = inl invalidCopyFunctions.
Proof.
  intros Hsection Hbad.
  unfold validatePayload, validateCopyFunctions. rewrite Hsection.
  cbn [negb andb].
  destruct (as_string (get_prop (get_prop payload "copyFunctions") "enable"))
    as [en|]; [|done].
  destruct (as_array (get_prop (get_prop payload "copyFunctions")
                        "targetSheets")) as [ts|]; [|done].
  destruct Hbad as [?|[Hsrc|?]]; try done. by rewrite Hsrc.
Qed.

(** X26. A payload of the documented shape, with non-empty source sheets
    and target tab, a handler name absent or non-empty, and at least one
    target for each enabled operation, passes validation, and the fields
    extracted from it are those of the request it was built from. *)
Theorem validatePayload_round_trip (req : Request) :
  JS.truthy_opt (functionsSourceSheet req) = true ->
  JS.truthy_opt (buttonsSourceSheet req) = true ->
  JS.truthy_opt (targetSheetTab req) = true ->
  (buttonScript req = None \/ JS.truthy_opt (buttonScript req) = true) ->
  (functionsEnable req = "true" -> functionsTargetSheets req <> []) ->
  (buttonsEnable req = "true" -> buttonsTargetSheets req <> []) ->
  exists f,
    validatePayload (payload_of_request req) = inr f
    /\ request_of_fields f = Some req.
Proof.
  destruct req as [fen fsrc fts ben bsrc bts tab script]. simpl.
  intros Hfsrc Hbsrc Htab Hscript Hfts Hbts.
  destruct fsrc as [fsrc|]; [|done]. destruct bsrc as [bsrc|]; [|done].
  destruct tab as [tab|]; [|done]. simpl in Hfsrc, Hbsrc, Htab.
  assert (Hf : (String.eqb fen "true" && (length (map JString fts) =? 0)%nat)
               = false).
  { destruct (String.eqb fen "true") eqn:Hen; [|done].
    apply String.eqb_eq in Hen. specialize (Hfts Hen). by destruct fts. }
  assert (Hb : (String.eqb ben "true" && (length (map JString bts) =? 0)%nat)
               = false).
  { destruct (String.eqb ben "true") eqn:Hen; [|done].
    apply String.eqb_eq in Hen. specialize (Hbts Hen). by destruct bts. }
  unfold validatePayload, validateCopyFunctions, validateCopyButtons,
    payload_of_request.
  cbn [get_prop lookup_last String.eqb Ascii.eqb Bool.eqb default from_option
       id js_truthy as_string as_array json_string_or_null negb andb orb
       functionsEnable functionsSourceSheet functionsTargetSheets
       buttonsEnable buttonsSourceSheet buttonsTargetSheets targetSheetTab
       buttonScript].
  rewrite Hfsrc, Hbsrc, Htab. cbn [negb andb orb].
  rewrite Hf.
  destruct script as [script|]; simpl in Hscript.
  - destruct Hscript as [?|Hscript]; [done|].
    cbn [js_truthy json_string_or_null]. rewrite Hscript.
    cbn [negb andb orb]. rewrite orb_false_r, Hb.
    eexists. split; [reflexivity|].
    unfold request_of_fields. cbn. by rewrite !all_strings_map.
  - cbn [js_truthy json_string_or_null negb andb orb].
    rewrite orb_false_r, Hb.
    eexists. split; [reflexivity|].
    unfold request_of_fields. cbn. by rewrite !all_strings_map.
Qed.

Lemma validatePayload_round_trip_witness :
  exists f,
    validatePayload (payload_of_request fullRequest) = inr f
    /\ request_of_fields f = Some fullRequest.
Proof.
  apply (validatePayload_round_trip fullRequest);
    try reflexivity; try discriminate.
  by left.
Defined.

Lemma validatePayload_accepted_witness :
  exists f,
    validatePayload (payload_of_request fullRequest) = inr f
    /\ js_truthy (f_functionsSourceSheet f) = true
    /\ f_functionsTargetSheets f <> [].
Proof.
  remember (validatePayload (payload_of_request fullRequest)) as r eqn:E.
  destruct r as [e|f]; [vm_compute in E; discriminate|].
  symmetry in E. exists f. split; [reflexivity|].
  destruct (validatePayload_accepted _ f E) as (_ & Hfun & _).
  apply Hfun. vm_compute in E. injection E as <-. reflexivity.
Defined.

Lemma validatePayload_malformed_copyFunctions_witness :
  validatePayload booleanEnablePayload = inl invalidCopyFunctions.
Proof.
  apply (validatePayload_malformed_copyFunctions booleanEnablePayload).
  - reflexivity.
  - left. reflexivity.
Defined.

(** ** What is pushed, and how often the master sheet is read *)

Lemma pushes_app l1 l2 : pushes (l1 ++ l2) = pushes l1 ++ pushes l2.
Proof.
  induction l1 as [|c l1 IH]; simpl; [done|]. destruct c; simpl; by rewrite ?IH.
Qed.


Section Requests.

Context {World : Type}.
Variable api : Remote World.
Variable cfg : Config.
Variable tempScriptContent :
  option string -> JsValue -> list Placement -> JsValue -> string.

(** [copyFunction] pushes at most once, to its target, a list that
    [copyFunction_files] built; it answers only after a push. *)
Lemma copyFunction_pushes sourceId targetId s :
  exists new,
    calls (snd (copyFunction api sourceId targetId s)) = calls s ++ new
    /\ ((pushes new = []
         /\ exists e, fst (copyFunction api sourceId targetId s) = inl e)
        \/ exists sf fetched,
             pushes new = [(targetId, copyFunction_files sf fetched)]).
Proof.
  unfold copyFunction, try_catch, bind, request, throw, ret. simpl.
  destruct (projects_getContent api sourceId (world s)) as [[e0|c] w1].
  { eexists. split; [reflexivity|]. left. split; [done|by eexists]. }
  destruct (List.find isSourceFunctionFile (default [] c)) as [sf|].
  2:{ eexists. split; [reflexivity|]. left. split; [done|by eexists]. }
  simpl.
  destruct (projects_getContent api targetId w1) as [[e1|c1] w2]; simpl;
    destruct (projects_updateContent api targetId _ w2) as [[e2|[]] w3]; simpl;
    eexists; (split; [by rewrite <- !app_assoc|]); right;
    by eexists sf, _.
Qed.

Lemma copyFunctionsBody_pushes scriptIdMap summary target id s :
  extractSpreadsheetId_value target = inr id ->
  exists new,
    calls (snd (copyFunctionsBody api cfg scriptIdMap summary target s))
    = calls s ++ new
    /\ Forall (fun push =>
                 exists (k : string) td sf fetched,
                   scriptIdMap !! k = Some td
                   /\ push = (scriptId td, copyFunction_files sf fetched))
         (pushes new)
    /\ forall summary',
         fst (copyFunctionsBody api cfg scriptIdMap summary target s)
         = inr summary' ->
         (successful summary' <= successful summary + length (pushes new))%nat.
Proof.
  intros Hid. rewrite (copyFunctionsBody_run _ _ _ _ _ _ _ Hid). clear Hid.
  unfold copyFunctionsTry, bind, throw, ret.
  destruct (map_get scriptIdMap id) as [td|] eqn:Hget.
  2:{ exists []. rewrite app_nil_r. split; [done|]. split; [constructor|].
      intros ? [= <-]. simpl. lia. }
  destruct (JS.truthy (scriptId td)).
  2:{ exists []. rewrite app_nil_r. split; [done|]. split; [constructor|].
      intros ? [= <-]. simpl. lia. }
  destruct (copyFunction_pushes (serverSourceScriptId cfg) (scriptId td) s)
    as (new & Hcalls & Hpush).
  destruct id as [k|]; [|done]. simpl in Hget.
  destruct (copyFunction api (serverSourceScriptId cfg) (scriptId td) s)
    as [[e|r] s'] eqn:Hrun; cbn [fst snd] in *; exists new;
    (split; [done|]).
  - split.
    + destruct Hpush as [[-> _]|(sf & fetched & ->)]; [constructor|].
      apply Forall_singleton. by exists k, td, sf, fetched.
    + intros ? [= <-]. simpl. lia.
  - destruct Hpush as [[_ [e He]]|(sf & fetched & ->)]; [done|]. split.
    + apply Forall_singleton. by exists k, td, sf, fetched.
    + intros ? [= <-]. simpl. lia.
Qed.

(** X24. The loop of copyFunctions writes only to script projects that the
    manifest names: each push goes to the script id of a manifest entry and
    carries a list built by [copyFunction], which ends with the file
    [Code]; no target is counted as successful without a push; and the
    loop ends with a summary exactly when the id of every target resolves
    (it throws at the first target that is neither a string nor falsy). *)
Theorem copyFunctions_pushes_to_manifest_scripts scriptIdMap targets :
  forall summary s,
  exists new,
    calls (snd (forTargets (copyFunctionsBody api cfg scriptIdMap) targets
                  summary s))
    = calls s ++ new
    /\ Forall (fun push =>
                 exists (k : string) td sf fetched,
                   scriptIdMap !! k = Some td
                   /\ push = (scriptId td, copyFunction_files sf fetched))
         (pushes new)
    /\ (forall summary',
          fst (forTargets (copyFunctionsBody api cfg scriptIdMap) targets
                 summary s) = inr summary' ->
          (successful summary' <= successful summary + length (pushes new))%nat)
    /\ ((exists summary',
           fst (forTargets (copyFunctionsBody api cfg scriptIdMap) targets
                  summary s) = inr summary')
        <-> Forall resolves targets).
Proof.
  induction targets as [|target targets IH]; intros summary s.
  - exists []. simpl. rewrite app_nil_r.
    split; [done|]. split; [constructor|].
    split; [intros ? [= <-]; lia|]. split; [constructor|by eexists].
  - cbn [forTargets]. unfold bind.
    destruct (extractSpreadsheetId_value target) as [e|id] eqn:Hid.
    + rewrite (copyFunctionsBody_throws api cfg _ _ _ _ _ Hid).
      exists []. simpl. rewrite app_nil_r.
      split; [done|]. split; [constructor|]. split; [done|].
      split; [by intros [? ?]|].
      intros Hall. apply Forall_cons in Hall as [[id' Hid'] _]. congruence.
    + destruct (copyFunctionsBody_recorded api cfg scriptIdMap summary target
                  id s Hid) as (summary1 & s1 & Hrun & _).
      destruct (copyFunctionsBody_pushes scriptIdMap summary target id s Hid)
        as (new1 & Hcalls1 & Hall1 & Hcount1).
      rewrite Hrun in *. simpl in Hcalls1, Hcount1.
      specialize (Hcount1 summary1 eq_refl).
      destruct (IH summary1 s1) as (new2 & Hcalls2 & Hall2 & Hcount2 & Hiff).
      exists (new1 ++ new2).
      split; [by rewrite Hcalls2, Hcalls1, app_assoc|].
      rewrite pushes_app, length_app.
      split; [by apply Forall_app|].
      split.
      * intros summary' Hend. specialize (Hcount2 summary' Hend). lia.
      * rewrite Hiff. split.
        -- intros Hall. apply Forall_cons. split; [by exists id|done].
        -- intros Hall. by apply Forall_cons in Hall as [_ Hall].
Qed.

End Requests.

(** The targets [T1], [7] and [T3]: the loop throws, having written to the
    script of [T1] only. *)
Lemma copyFunctions_pushes_to_manifest_scripts_example :
  exists e s',
    forTargets (copyFunctionsBody cloud serverConfig (decodeRows 2 batchRows))
      [JString "T1"; JNumber seven; JString "T3"] (withTotal 3)
      (start batchCloud)
    = (inl e, s')
    /\ map fst (pushes (calls s')) = ["TGT-1-0123456789-abcdefghij"].
Proof.
  remember (forTargets _ _ _ _) as r eqn:E. vm_compute in E. subst r.
  eexists _, _. split; reflexivity.
Qed.

Section CliRequests.

Context {World : Type}.
Variable api : Remote World.
Variable cfg : Config.

Lemma getScriptProjectId_pushes spreadsheetId s :
  exists r s' new,
    getScriptProjectId api spreadsheetId s = (inr r, s')
    /\ calls s' = calls s ++ new /\ pushes new = [].
Proof.
  unfold getScriptProjectId, try_catch, bind, request, ret.
  cbn [world calls console].
  destruct (spreadsheets_get api spreadsheetId (world s)) as [[e|titles] w1].
  { by eexists _, _, _. }
  cbn [world calls console].
  match goal with
  | |- context [drive_files_list api ?q w1] =>
      destruct (drive_files_list api q w1) as [[e|[[|id rest]|]] w2]
  end; cbn [world calls console]; eexists _, _, _;
    (split; [reflexivity|]); cbn [calls]; rewrite <- app_assoc; by split.
Qed.

Lemma updateScriptContent_pushes targetId sourceFiles s :
  exists new,
    calls (snd (updateScriptContent api targetId sourceFiles s)) = calls s ++ new
    /\ ((pushes new = []
         /\ exists e, fst (updateScriptContent api targetId sourceFiles s)
                      = inl e)
        \/ exists sc existing,
             List.find isSourceCodeFile sourceFiles = Some sc
             /\ pushes new = [(targetId, updatedFiles sc existing)]).
Proof.
  unfold updateScriptContent, try_catch, bind, request, throw, ret.
  cbn [world calls console].
  destruct (projects_getContent api targetId (world s)) as [[e|existing] w1].
  { eexists. split; [reflexivity|]. left. split; [done|by eexists]. }
  destruct (List.find isSourceCodeFile sourceFiles) as [sc|] eqn:Hfind.
  2:{ eexists. split; [reflexivity|]. left. split; [done|by eexists]. }
  destruct existing as [existing|].
  2:{ eexists. split; [reflexivity|]. left. split; [done|by eexists]. }
  cbn [world calls console].
  destruct (projects_updateContent api targetId _ w1) as [[e|[]] w2];
    cbn [fst snd calls]; eexists; (split; [by rewrite <- app_assoc|]);
    right; by exists sc, existing.
Qed.

Lemma mainBody_pushes sourceFiles successCount failCount target s :
  exists counts s' new,
    mainBody api sourceFiles (successCount, failCount) target s
    = (inr counts, s')
    /\ calls s' = calls s ++ new
    /\ Forall (fun push =>
                 exists sc existing,
                   List.find isSourceCodeFile sourceFiles = Some sc
                   /\ snd push = updatedFiles sc existing)
         (pushes new)
    /\ (fst counts <= successCount + length (pushes new))%nat.
Proof.
  unfold mainBody, mainTry, try_catch, bind.
  assert (Hlookup : exists r s1 new1,
             (if JS.truthy_opt (item_scriptId target)
              then ret (item_scriptId target)
              else getScriptProjectId api (item_spreadsheetId target)) s
             = (inr r, s1)
             /\ calls s1 = calls s ++ new1 /\ pushes new1 = []).
  { destruct (JS.truthy_opt (item_scriptId target)).
    - exists (item_scriptId target), s, []. by rewrite app_nil_r.
    - apply getScriptProjectId_pushes. }
  destruct Hlookup as (r & s1 & new1 & -> & Hcalls1 & Hpush1).
  unfold ret.
  destruct r as [id|].
  2:{ exists (successCount, S failCount), s1, new1.
      rewrite Hpush1. split; [done|]. split; [done|].
      split; [constructor|simpl; lia]. }
  destruct (JS.truthy id).
  2:{ exists (successCount, S failCount), s1, new1.
      rewrite Hpush1. split; [done|]. split; [done|].
      split; [constructor|simpl; lia]. }
  destruct (updateScriptContent_pushes id sourceFiles s1)
    as (new2 & Hcalls2 & Hpush2).
  destruct (updateScriptContent api id sourceFiles s1) as [[e|[]] s2];
    cbn [fst snd] in *.
  - exists (successCount, S failCount), s2, (new1 ++ new2).
    split; [reflexivity|]. split; [by rewrite Hcalls2, Hcalls1, app_assoc|].
    rewrite pushes_app, Hpush1. cbn [app].
    destruct Hpush2 as [[-> _]|(sc & existing & Hfind & ->)].
    + split; [constructor|simpl; lia].
    + split; [apply Forall_singleton; by exists sc, existing|simpl; lia].
  - exists (S successCount, failCount), s2, (new1 ++ new2).
    split; [reflexivity|]. split; [by rewrite Hcalls2, Hcalls1, app_assoc|].
    rewrite pushes_app, Hpush1. cbn [app].
    destruct Hpush2 as [[_ [e He]]|(sc & existing & Hfind & ->)];
      [discriminate He|].
    split; [apply Forall_singleton; by exists sc, existing|simpl; lia].
Qed.

(** X23. One turn of the loop of [main] never throws and adds one to one of
    the two counters.  It counts the target as a success exactly when the
    script project of the target (the id the sheet gives or, without one,
    the id discovered) has been read, the source has a code file, and the
    services have accepted the push of the list read from that project,
    rewritten by [updatedFiles] with that code file; the read and the push
    are then its last two requests.  Whatever the outcome, the turn pushes
    nothing or that list to that project. *)
Theorem mainBody_outcome sourceFiles successCount failCount target s :
  exists counts s' new,
    mainBody api sourceFiles (successCount, failCount) target s
    = (inr counts, s')
    /\ calls s' = calls s ++ new
    /\ (counts = (S successCount, failCount)
        \/ counts = (successCount, S failCount))
    /\ (counts = (S successCount, failCount) <->
        exists id s1 sc existing w1,
          targetScriptProjectId api target s = (inr (Some id), s1)
          /\ JS.truthy id = true
          /\ List.find isSourceCodeFile sourceFiles = Some sc
          /\ projects_getContent api id (world s1) = (inr (Some existing), w1)
          /\ projects_updateContent api id (updatedFiles sc existing) w1
             = (inr tt, world s')
          /\ calls s'
             = calls s1 ++ [ProjectsGetContent id;
                            ProjectsUpdateContent id
                              (updatedFiles sc existing)])
    /\ (pushes new = []
        \/ exists id s1 sc existing w1,
             targetScriptProjectId api target s = (inr (Some id), s1)
             /\ List.find isSourceCodeFile sourceFiles = Some sc
             /\ projects_getContent api id (world s1)
                = (inr (Some existing), w1)
             /\ pushes new = [(id, updatedFiles sc existing)]).
Proof.
  assert (Hlookup : exists r s1 new1,
             targetScriptProjectId api target s = (inr r, s1)
             /\ calls s1 = calls s ++ new1 /\ pushes new1 = []).
  { unfold targetScriptProjectId.
    destruct (JS.truthy_opt (item_scriptId target)).
    - exists (item_scriptId target), s, []. by rewrite app_nil_r.
    - apply getScriptProjectId_pushes. }
  destruct Hlookup as (r & s1 & new1 & Hlookup & Hcalls1 & Hpush1).
  unfold mainBody, mainTry, try_catch, bind.
  fold (targetScriptProjectId api target). rewrite Hlookup.
  assert (Hno : (S successCount, failCount) <> (successCount, S failCount)).
  { intros [= H _]. lia. }
  destruct r as [id|].
  2:{ exists (successCount, S failCount), s1, new1. unfold ret.
      split; [done|]. split; [done|]. split; [by right|].
      split; [|by left].
      split; [done|]. by intros (? & ? & ? & ? & ? & [=] & _). }
  destruct (JS.truthy id) eqn:Hid.
  2:{ exists (successCount, S failCount), s1, new1. unfold ret.
      split; [done|]. split; [done|]. split; [by right|].
      split; [|by left].
      split; [done|].
      intros (? & ? & ? & ? & ? & [= <- <-] & Ht & _). congruence. }
  rewrite (updateScriptContent_run api id sourceFiles s1).
  destruct (projects_getContent api id (world s1))
    as [[e|existingContent] w1] eqn:Hget.
  { eexists (successCount, S failCount), _, (new1 ++ [_]). unfold ret.
    split; [reflexivity|]. cbn [calls].
    split; [by rewrite Hcalls1, <- app_assoc|]. split; [by right|].
    split; [|left; by rewrite pushes_app, Hpush1].
    split; [done|].
    intros (? & ? & ? & ? & ? & [= <- <-] & _ & _ & Hg & _). congruence. }
  destruct (List.find isSourceCodeFile sourceFiles) as [sc|] eqn:Hfind.
  2:{ eexists (successCount, S failCount), _, (new1 ++ [_]). unfold ret.
      split; [reflexivity|]. cbn [calls].
      split; [by rewrite Hcalls1, <- app_assoc|]. split; [by right|].
      split; [|left; by rewrite pushes_app, Hpush1].
      split; [done|]. by intros (? & ? & ? & ? & ? & _ & _ & [=] & _). }
  destruct existingContent as [existing|].
  2:{ eexists (successCount, S failCount), _, (new1 ++ [_]). unfold ret.
      split; [reflexivity|]. cbn [calls].
      split; [by rewrite Hcalls1, <- app_assoc|]. split; [by right|].
      split; [|left; by rewrite pushes_app, Hpush1].
      split; [done|].
      intros (? & ? & ? & ? & ? & [= <- <-] & _ & _ & Hg & _). congruence. }
  cbv zeta.
  destruct (projects_updateContent api id (updatedFiles sc existing) w1)
    as [[e|[]] w2] eqn:Hput.
  - eexists (successCount, S failCount), _,
      (new1 ++ [ProjectsGetContent id;
                ProjectsUpdateContent id (updatedFiles sc existing)]).
    unfold ret. split; [reflexivity|]. cbn [calls].
    split; [by rewrite Hcalls1, <- app_assoc|]. split; [by right|].
    split.
    + split; [done|].
      intros (? & ? & ? & ? & ? & [= <- <-] & _ & [= <-] & Hg & Hu & _).
      rewrite Hget in Hg. injection Hg as <- <-. congruence.
    + right. exists id, s1, sc, existing, w1.
      rewrite pushes_app, Hpush1. by repeat split.
  - eexists (S successCount, failCount), _,
      (new1 ++ [ProjectsGetContent id;
                ProjectsUpdateContent id (updatedFiles sc existing)]).
    unfold ret. split; [reflexivity|]. cbn [calls].
    split; [by rewrite Hcalls1, <- app_assoc|]. split; [by left|].
    split.
    + split; [|done]. intros _. by exists id, s1, sc, existing, w1.
    + right. exists id, s1, sc, existing, w1.
      rewrite pushes_app, Hpush1. by repeat split.
Qed.

(** The loop of [main] never throws; every list it pushes is a file list
    rewritten by [updatedFiles] with the code file of the source, and it
    counts no more successes than it has pushed. *)
Lemma mainLoop_pushes sourceFiles targets :
  forall successCount failCount s,
  exists counts s' new,
    mainLoop api sourceFiles targets (successCount, failCount) s
    = (inr counts, s')
    /\ calls s' = calls s ++ new
    /\ Forall (fun push =>
                 exists sc existing,
                   List.find isSourceCodeFile sourceFiles = Some sc
                   /\ snd push = updatedFiles sc existing)
         (pushes new)
    /\ (fst counts <= successCount + length (pushes new))%nat.
Proof.
  induction targets as [|target targets IH]; intros successCount failCount s.
  - exists (successCount, failCount), s, []. rewrite app_nil_r.
    split; [done|]. split; [done|]. split; [constructor|simpl; lia].
  - cbn [mainLoop]. unfold bind.
    destruct (mainBody_pushes sourceFiles successCount failCount target s)
      as ([sc1 fc1] & s1 & new1 & -> & Hcalls1 & Hall1 & Hcount1).
    destruct (IH sc1 fc1 s1)
      as (counts & s' & new2 & Hloop & Hcalls2 & Hall2 & Hcount2).
    exists counts, s', (new1 ++ new2).
    split; [exact Hloop|].
    split; [by rewrite Hcalls2, Hcalls1, app_assoc|].
    rewrite pushes_app, length_app. simpl in *.
    split; [by apply Forall_app|lia].
Qed.

(** X28. [main] pushes nothing unless it reaches the summary: when it
    exits with status 1 or finds no spreadsheet, no script project has been
    written; and the successes it prints are no more than its pushes. *)
Theorem main_pushes s :
  exists outcome s' new,
    main api cfg s = (inr outcome, s')
    /\ calls s' = calls s ++ new
    /\ match outcome with
       | Printed _ successCount _ => (successCount <= length (pushes new))%nat
       | Exit1 | NoSpreadsheets => pushes new = []
       end.
Proof.
  unfold main, try_catch, bind, throw.
  destruct (negb (JS.truthy_opt (SOURCE_SPREADSHEET_ID cfg))).
  { exists Exit1, s, []. by rewrite app_nil_r. }
  unfold readSheetIds, bind, request. cbn [world calls console].
  match goal with
  | |- context [values_get api ?i ?r (world s)] =>
      destruct (values_get api i r (world s)) as [[e|values] w1]
  end.
  { by eexists Exit1, _, _. }
  unfold ret at 1.
  set (s1 := mkState w1 _ _).
  destruct (length (sheetItems (default [] values)) =? 0)%nat.
  { eexists NoSpreadsheets, s1, _. split; [reflexivity|]. by split. }
  assert (Hlookup : exists r s2 new2,
             (if JS.truthy_opt (SOURCE_SCRIPT_ID cfg)
              then ret (SOURCE_SCRIPT_ID cfg)
              else getScriptProjectId api (SOURCE_SPREADSHEET_ID cfg)) s1
             = (inr r, s2)
             /\ calls s2 = calls s1 ++ new2 /\ pushes new2 = []).
  { destruct (JS.truthy_opt (SOURCE_SCRIPT_ID cfg)).
    - exists (SOURCE_SCRIPT_ID cfg), s1, []. by rewrite app_nil_r.
    - apply getScriptProjectId_pushes. }
  destruct Hlookup as (r & s2 & new2 & -> & Hcalls2 & Hpush2).
  unfold ret.
  assert (Hs2 : calls s2 = calls s ++ (ValuesGet (SOURCE_SPREADSHEET_ID cfg)
                   (SHEET_NAME cfg +:+ "!" +:+ SHEET_ID_COLUMN cfg
                    +:+ pretty (START_ROW cfg) +:+ ":" +:+ SCRIPT_ID_COLUMN cfg)
                   :: new2)).
  { rewrite Hcalls2. unfold s1. cbn [calls]. by rewrite <- app_assoc. }
  destruct (negb (JS.truthy_opt r)).
  { eexists Exit1, s2, _. split; [reflexivity|]. split; [exact Hs2|].
    simpl. exact Hpush2. }
  unfold getScriptContent, try_catch, request. cbn [world calls console].
  destruct (projects_getContent api (default "" r) (world s2))
    as [[e|[sourceFiles|]] w3].
  - eexists Exit1, _, _. split; [reflexivity|]. cbn [calls].
    rewrite Hs2, <- app_assoc. split; [reflexivity|].
    simpl. rewrite pushes_app, Hpush2. reflexivity.
  - match goal with
    | |- context [mainLoop api sourceFiles ?ts (0, 0)%nat ?s3] =>
        destruct (mainLoop_pushes sourceFiles ts 0%nat 0%nat s3)
          as (counts & s4 & new4 & -> & Hcalls4 & _ & Hcount4)
    end.
    eexists _, s4, _. split; [reflexivity|].
    rewrite Hcalls4. cbn [calls]. rewrite Hs2, <- !app_assoc.
    split; [reflexivity|].
    simpl. rewrite !pushes_app, Hpush2. simpl. lia.
  - eexists Exit1, _, _. split; [reflexivity|]. cbn [calls].
    rewrite Hs2, <- app_assoc. split; [reflexivity|].
    simpl. rewrite pushes_app, Hpush2. reflexivity.
Qed.

End CliRequests.

Section ManifestReads.

Context {World : Type}.
Variable api : Remote World.
Variable cfg : Config.
Variable tempScriptContent :
  option string -> JsValue -> list Placement -> JsValue -> string.





End ManifestReads.
